(** * The notification worker of the hub (package [notification])

    A shallow embedding of [internal/notification]'s worker: the main loop
    [Run], the transactional step [processNotification], the two delivery
    channels, the preparation of template data with its cache, and the
    default webhook payload template.

    Go values are modelled as follows.
    - An [error] is a tree of wrapped errors; [nil] is [None].
    - A function returning [(T, error)] returns [T + error].
    - Mutable state (the notifications table, the open transaction, the
      go-cache instance, the log, the calls issued to collaborators) is one
      [World] threaded through a small state monad [M]; a Go panic stops the
      computation.
    - Collaborators behind interfaces (database, notification manager, email
      sender, package and repository managers, HTTP client) are records of
      functions.
    - Time is a clock in nanoseconds; a [select] gives the list of its
      possible outcomes.

    The backing store ([util.DBTransact], the notification manager) and
    [email.ErrSenderNotAvailable] belong to other packages of the repository:
    they are modelled from the specification.  The module [JSON] is a parser
    of JSON texts and [Layout] a printer of laid out JSON documents, with
    which the output of the default webhook template is characterised. *)

From Stdlib Require Import ZArith String Ascii List Bool Lia DecimalString.
From stdpp Require Import base option list gmap strings.

Open Scope string_scope.
Open Scope Z_scope.

(** ** Go errors *)

Module errors.

(** [sentinel] is a package-level [errors.New] value: it is compared by the
    address of the variable, here its [id].  [errorString] is an error
    value allocated at the place it is returned ([errors.New] or [fmt.Errorf]
    without a wrapping verb): it is identical to no package-level value.
    [wrapError] is what [fmt.Errorf] builds when the format has one wrapping
    verb: the formatted message and the wrapped error. *)
Inductive error : Type :=
| sentinel (id : positive) (s : string)
| errorString (s : string)
| wrapError (msg : string) (err : error).

Definition Error (e : error) : string :=
  match e with
  | sentinel _ s => s
  | errorString s => s
  | wrapError msg _ => msg
  end.

Definition Unwrap (e : error) : option error :=
  match e with
  | wrapError _ err => Some err
  | _ => None
  end.

(** [err == target] for a package-level [target]. *)
Definition identical (err target : error) : bool :=
  match err, target with
  | sentinel i _, sentinel j _ => Pos.eqb i j
  | _, _ => false
  end.

(** [errors.Is] walks the chain of wrapped errors. *)
Fixpoint Is_chain (err target : error) : bool :=
  identical err target ||
  match err with
  | wrapError _ inner => Is_chain inner target
  | _ => false
  end.

(** [errors.Is(err, target)] with a possibly nil [err]. *)
Definition Is (err : option error) (target : error) : bool :=
  match err with
  | None => false
  | Some e => Is_chain e target
  end.

End errors.

Export errors(error).

(** ** Values of other packages the worker refers to *)

Module pgx.
(** [pgx.ErrNoRows], of the database driver. *)
Definition ErrNoRows : error := errors.sentinel 2 "no rows in result set".
End pgx.

Module email.

(** [email.Data]: the email handed to the sender. *)
Record Data : Type := mkData {
  To : string;
  Subject : string;
  Body : string
}.

(** Modelled from the spec: [email.ErrSenderNotAvailable] is declared in
    [internal/email], which is not part of the sources at hand; it is the
    distinguished sender not configured condition of the email sender
    collaborator, a package-level error value of its own. *)
Definition ErrSenderNotAvailable : error :=
  errors.sentinel 3 "email sender not available".

End email.

Module hub.

(** The kinds of event; [OtherEventKind] stands for any other value of the
    underlying integer type, for which no [case] of the switches matches. *)
Inductive EventKind : Type :=
| NewRelease
| RepositoryScanningErrors
| RepositoryTrackingErrors
| RepositoryOwnershipClaim
| OtherEventKind (k : Z).

Record Event : Type := mkEvent {
  EventID : string;
  Kind : EventKind;
  PackageID : string;
  PackageVersion : string;
  RepositoryID : string
}.

(** [hub.User], as declared in package [hub]. *)
Record User : Type := mkUser {
  UserID : string;
  Alias : string;
  FirstName : string;
  LastName : string;
  Email : string;
  EmailVerified : bool;
  Password : string;
  ProfileImageID : string;
  PasswordSet : bool;
  TFAEnabled : bool
}.

Record Webhook : Type := mkWebhook {
  URL : string;
  Secret : string;
  Template : string;
  ContentType : string
}.

(** A notification; the two targets are pointers, nil when not set. *)
Record Notification : Type := mkNotification {
  NotificationID : string;
  NEvent : Event;
  NUser : option User;
  NWebhook : option Webhook
}.

Record Repository : Type := mkRepository {
  RKind : Z;
  RName : string;
  UserAlias : string;
  OrganizationName : string;
  LastScanningErrors : string;
  LastTrackingErrors : string
}.

Record Package : Type := mkPackage {
  Name : string;
  Version : string;
  LogoImageID : string;
  Changes : list string;
  ContainsSecurityUpdates : bool;
  Prerelease : bool;
  PRepository : Repository
}.

(** The [Event] map of both kinds of template data: keys [id] and [kind]. *)
Record EventData : Type := mkEventData {
  ev_id : string;
  ev_kind : string
}.

(** The [repository] map nested in the [Package] map. *)
Record PackageRepositoryData : Type := mkPackageRepositoryData {
  pr_kind : string;
  pr_name : string;
  pr_publisher : string
}.

(** The [Package] map of [PackageNotificationTemplateData]: the map literal
    has a fixed set of keys, one field each. *)
Record PackageData : Type := mkPackageData {
  pd_name : string;
  pd_version : string;
  pd_logoImageID : string;
  pd_url : string;
  pd_changes : list string;
  pd_containsSecurityUpdates : bool;
  pd_prerelease : bool;
  pd_repository : PackageRepositoryData
}.

Record PackageNotificationTemplateData : Type := mkPackageNotificationTemplateData {
  PBaseURL : string;
  PEvent : EventData;
  PPackage : PackageData
}.

(** The [Repository] map of [RepositoryNotificationTemplateData]. *)
Record RepositoryData : Type := mkRepositoryData {
  rd_kind : string;
  rd_name : string;
  rd_userAlias : string;
  rd_organizationName : string;
  rd_lastScanningErrors : list string;
  rd_lastTrackingErrors : list string
}.

Record RepositoryNotificationTemplateData : Type := mkRepositoryNotificationTemplateData {
  RBaseURL : string;
  REvent : EventData;
  RRepository : RepositoryData
}.

End hub.

(** ** Constants of the package *)

(** [time.Duration] counts nanoseconds. *)
Definition Second : Z := 1000000000.

Definition pauseOnEmptyQueue : Z := 30 * Second.
Definition pauseOnError : Z := 10 * Second.

Definition DefaultPayloadContentType : string := "application/cloudevents+json".

(** [ErrRetryable] wraps other errors to indicate that the error is not
    final and that the operation should be retried. *)
Definition ErrRetryable : error := errors.sentinel 1 "retryable error".

(** ** The state the worker acts on *)

(** A row of the notifications table: the notification, its processed flag
    and its error text (empty when none). *)
Record Row : Type := mkRow {
  notification : hub.Notification;
  processed : bool;
  error_text : string
}.

(** What the go-cache instance holds: values of three dynamic types. *)
Inductive CacheValue : Type :=
| CEmailData (d : email.Data)
| CPackage (p : hub.Package)
| CRepository (r : hub.Repository).

Record Request : Type := mkRequest {
  Method : string;
  ReqURL : string;
  ReqBody : string;
  Header : list (string * string)
}.

Record Response : Type := mkResponse {
  StatusCode : Z
}.

(** The calls the worker issues to its collaborators, in a trace. *)
Inductive Call : Type :=
| CallBegin
| CallCommit
| CallRollback
| CallGetPending
| CallUpdateStatus (id : string) (proc : bool) (err : option error)
| CallSendEmail (d : email.Data)
| CallPackageGet (packageID version : string)
| CallRepositoryGetByID (repositoryID : string)
| CallHTTPDo (req : Request).

(** [log.Error().Err(err).Msg(msg)]. *)
Record LogEntry : Type := mkLogEntry {
  log_err : error;
  log_msg : string
}.

(** [table] is the committed table, [tx] the view of the open transaction,
    [calls] and [logs] grow at their head. *)
Record World : Type := mkWorld {
  table : list Row;
  tx : list Row;
  cache : gmap string CacheValue;
  calls : list Call;
  logs : list LogEntry
}.

Definition set_table (t : list Row) (w : World) : World :=
  mkWorld t (tx w) (cache w) (calls w) (logs w).
Definition set_tx (t : list Row) (w : World) : World :=
  mkWorld (table w) t (cache w) (calls w) (logs w).
Definition set_cache (c : gmap string CacheValue) (w : World) : World :=
  mkWorld (table w) (tx w) c (calls w) (logs w).
Definition add_call (c : Call) (w : World) : World :=
  mkWorld (table w) (tx w) (cache w) (c :: calls w) (logs w).
Definition add_log (l : LogEntry) (w : World) : World :=
  mkWorld (table w) (tx w) (cache w) (calls w) (l :: logs w).

(** ** A state monad with panics *)

Inductive result (A : Type) : Type :=
| Ok (a : A) (w : World)
| Panic (w : World).
Arguments Ok {A} a w.
Arguments Panic {A} w.

Definition M (A : Type) : Type := World -> result A.

Definition ret {A} (a : A) : M A := fun w => Ok a w.

Definition bind {A B} (m : M A) (k : A -> M B) : M B :=
  fun w =>
    match m w with
    | Ok a w' => k a w'
    | Panic w' => Panic w'
    end.

Definition panic {A} : M A := fun w => Panic w.

Definition modify (f : World -> World) : M unit := fun w => Ok tt (f w).
Definition gets {A} (f : World -> A) : M A := fun w => Ok (f w) w.

Declare Scope go_scope.
Delimit Scope go_scope with go.
Notation "x <- m ;; k" := (bind m (fun x => k))
  (at level 100, m at next level, right associativity) : go_scope.
Notation "m ;;; k" := (bind m (fun _ => k))
  (at level 100, right associativity) : go_scope.
Open Scope go_scope.

Definition call (c : Call) : M unit := modify (add_call c).

Definition log_Error (err : error) (msg : string) : M unit :=
  modify (add_log (mkLogEntry err msg)).

(** [cache.Get] and [cache.SetDefault].  An entry past its expiration is an
    absent entry, so the cache of a world is what a lookup finds at that time. *)
Definition cache_Get (k : string) : M (option CacheValue) :=
  gets (fun w => cache w !! k).

Definition cache_SetDefault (k : string) (v : CacheValue) : M unit :=
  modify (fun w => set_cache (<[k := v]> (cache w)) w).

(** ** Collaborators *)

(** The services of the worker.  [DB] and [NotificationManager] act on the
    table of the world (below); the fields [BeginErr], [CommitErr],
    [GetPendingErr] and [UpdateStatusErr] are the failures of the backing
    store, [None] when it works.  [ES] is nil when no sender is configured. *)
Record Services : Type := mkServices {
  BeginErr : option error;
  CommitErr : option error;
  GetPendingErr : option error;
  UpdateStatusErr : option error;
  ES : option (email.Data -> option error);
  PackageManager_Get : string -> string -> hub.Package + error;
  RepositoryManager_GetByID : string -> hub.Repository + error
}.

(** Functions of other packages and of the Go libraries that the worker
    calls: [pkg.BuildURL], [hub.GetKindName], the four email templates of
    the package (their [Execute]), [template.New().Parse] followed by
    [Execute] for a custom webhook template, and whether [http.NewRequest]
    accepts a URL. *)
Record Externals : Type := mkExternals {
  BuildURL : string -> hub.Package -> string -> string;
  GetKindName : Z -> string;
  newReleaseEmailTmpl : hub.PackageNotificationTemplateData -> string + error;
  scanningErrorsEmailTmpl : hub.RepositoryNotificationTemplateData -> string + error;
  trackingErrorsEmailTmpl : hub.RepositoryNotificationTemplateData -> string + error;
  ownershipClaimEmailTmpl : hub.RepositoryNotificationTemplateData -> string + error;
  template_Parse : string -> (hub.PackageNotificationTemplateData -> string + error) + error;
  NewRequest_ok : string -> bool
}.

Record Worker : Type := mkWorker {
  svc : Services;
  baseURL : string;
  httpClient : Request -> Response + error
}.

(** *** The backing store *)

(** Modelled from the spec: [NotificationManager.GetPending] is not part of
    the sources at hand.  It claims the oldest unprocessed notification of
    the transaction's view, and fails with the no rows error when none is
    claimable. *)
Fixpoint oldest_pending (rows : list Row) : option hub.Notification :=
  match rows with
  | [] => None
  | r :: rows' => if processed r then oldest_pending rows' else Some (notification r)
  end.

(** Modelled from the spec: [GetPending] itself, with the failure of the
    store when there is one. *)
Definition GetPending (s : Services) : M (hub.Notification + error) :=
  call CallGetPending;;;
  match GetPendingErr s with
  | Some e => ret (inr e)
  | None =>
      rows <- gets tx;;
      match oldest_pending rows with
      | Some n => ret (inl n)
      | None => ret (inr pgx.ErrNoRows)
      end
  end.

(** Modelled from the spec: [NotificationManager.UpdateStatus] is not part
    of the sources at hand.  It sets the processed flag and the error text of
    the notification in the transaction's view, the empty text when the
    error is nil.  [update_row] is its effect on a row. *)
Definition update_row (id : string) (proc : bool) (text : string) (r : Row) : Row :=
  if String.eqb (hub.NotificationID (notification r)) id
  then mkRow (notification r) proc text
  else r.

(** Modelled from the spec: [UpdateStatus] itself; a failed update writes
    nothing. *)
Definition UpdateStatus (s : Services) (id : string) (proc : bool) (err : option error)
  : M (option error) :=
  call (CallUpdateStatus id proc err);;;
  match UpdateStatusErr s with
  | Some e => ret (Some e)
  | None =>
      let errStr := match err with Some e => errors.Error e | None => "" end in
      modify (fun w => set_tx (map (update_row id proc errStr) (tx w)) w);;;
      ret None
  end.

(** Modelled from the spec: [util.DBTransact] is not part of the sources at
    hand.  It acquires a transaction, runs the function in it, rolls back on
    every path on which the function returns an error (or panics), and
    commits on the single success path. *)
Definition DBTransact (s : Services) (txFunc : M (option error)) : M (option error) :=
  fun w =>
    let w0 := add_call CallBegin w in
    match BeginErr s with
    | Some e => Ok (Some e) w0
    | None =>
        match txFunc (set_tx (table w0) w0) with
        | Panic w1 => Panic (add_call CallRollback w1)
        | Ok (Some e) w1 => Ok (Some e) (add_call CallRollback w1)
        | Ok None w1 =>
            let w2 := add_call CallCommit w1 in
            match CommitErr s with
            | Some e => Ok (Some e) w2
            | None => Ok None (set_table (tx w2) w2)
            end
        end
    end.


(** ** The default webhook payload template *)

(** The template texts below are written with an apostrophe where the Go
    source has a double quote; [text] puts the double quotes back. *)
Definition dquote : ascii := ascii_of_nat 34.

Fixpoint text (s : string) : string :=
  match s with
  | EmptyString => EmptyString
  | String c s' => String (if Ascii.eqb c "'" then dquote else c) (text s')
  end.

(** What the template engine prints for a boolean. *)
Definition print_bool (b : bool) : string := if b then "true" else "false".

(** The body of the [range] over [.Package.changes]: for the element at
    index [i], a comma and a space when [i] is not zero, then the element
    between double quotes. *)
Fixpoint range_changes (i : nat) (changes : list string) : string :=
  match changes with
  | [] => EmptyString
  | e :: changes' =>
      (if Nat.eqb i 0 then EmptyString else text ", ")
      +:+ text "'" +:+ e +:+ text "'"
      +:+ range_changes (S i) changes'
  end.

(** [DefaultWebhookPayloadTmpl.Execute]: the output for the template data
    [d].  The engine does not escape what it prints. *)
Definition DefaultWebhookPayloadTmpl (d : hub.PackageNotificationTemplateData) : string :=
  text "
{
	'specversion' : '1.0',
	'id' : '"
  +:+ hub.ev_id (hub.PEvent d)
  +:+ text "',
	'source' : 'https://artifacthub.io/cloudevents',
	'type' : 'io.artifacthub."
  +:+ hub.ev_kind (hub.PEvent d)
  +:+ text "',
	'datacontenttype' : 'application/json',
	'data' : {
		'package': {
			'name': '"
  +:+ hub.pd_name (hub.PPackage d)
  +:+ text "',
			'version': '"
  +:+ hub.pd_version (hub.PPackage d)
  +:+ text "',
			'url': '"
  +:+ hub.pd_url (hub.PPackage d)
  +:+ text "',
			'changes': ["
  +:+ range_changes 0 (hub.pd_changes (hub.PPackage d))
  +:+ text "],
			'containsSecurityUpdates': "
  +:+ print_bool (hub.pd_containsSecurityUpdates (hub.PPackage d))
  +:+ text ",
			'prerelease': "
  +:+ print_bool (hub.pd_prerelease (hub.PPackage d))
  +:+ text ",
			'repository': {
				'kind': '"
  +:+ hub.pr_kind (hub.pd_repository (hub.PPackage d))
  +:+ text "',
				'name': '"
  +:+ hub.pr_name (hub.pd_repository (hub.PPackage d))
  +:+ text "',
				'publisher': '"
  +:+ hub.pr_publisher (hub.pd_repository (hub.PPackage d))
  +:+ text "'
			}
		}
	}
}
".

(** ** Preparation of template data *)

(** [strings.Split(s, sep)] for the one-character separator the worker
    uses, the line feed. *)
Definition LF : ascii := ascii_of_nat 10.

Fixpoint strings_Split (s : string) (sep : ascii) : list string :=
  match s with
  | EmptyString => [EmptyString]
  | String c s' =>
      if Ascii.eqb c sep then EmptyString :: strings_Split s' sep
      else match strings_Split s' sep with
           | h :: t => String c h :: t
           | [] => [String c EmptyString]
           end
  end.

Section WithExternals.

Variable ext : Externals.

(** [preparePkgNotificationTemplateData] prepares the data available to
    packages notifications templates. *)
Definition preparePkgNotificationTemplateData (w : Worker) (e : hub.Event)
  : M (hub.PackageNotificationTemplateData + error) :=
  (* Get notification package (try from cache first) *)
  let cKey := "package.%" +:+ hub.EventID e in
  cValue <- cache_Get cKey;;
  got <- match cValue with
         | Some (CPackage p) => ret (inl p)
         | Some _ => panic
         | None =>
             call (CallPackageGet (hub.PackageID e) (hub.PackageVersion e));;;
             match PackageManager_Get (svc w) (hub.PackageID e) (hub.PackageVersion e) with
             | inr err => ret (inr err)
             | inl p => cache_SetDefault cKey (CPackage p);;; ret (inl p)
             end
         end;;
  match got with
  | inr err => ret (inr err)
  | inl p =>
      (* Prepare template data *)
      let eventKindStr :=
        match hub.Kind e with
        | hub.NewRelease => "package.new-release"
        | _ => EmptyString
        end in
      let publisher := hub.OrganizationName (hub.PRepository p) in
      let publisher :=
        if String.eqb publisher EmptyString
        then hub.UserAlias (hub.PRepository p) else publisher in
      ret (inl (hub.mkPackageNotificationTemplateData
        (baseURL w)
        (hub.mkEventData (hub.EventID e) eventKindStr)
        (hub.mkPackageData
           (hub.Name p)
           (hub.Version p)
           (hub.LogoImageID p)
           (BuildURL ext (baseURL w) p (hub.PackageVersion e))
           (hub.Changes p)
           (hub.ContainsSecurityUpdates p)
           (hub.Prerelease p)
           (hub.mkPackageRepositoryData
              (GetKindName ext (hub.RKind (hub.PRepository p)))
              (hub.RName (hub.PRepository p))
              publisher))))
  end.

(** [prepareRepoNotificationTemplateData] prepares the data available to
    repositories notifications templates. *)
Definition prepareRepoNotificationTemplateData (w : Worker) (e : hub.Event)
  : M (hub.RepositoryNotificationTemplateData + error) :=
  (* Get notification repository (try from cache first) *)
  let cKey := "repository.%" +:+ hub.EventID e in
  cValue <- cache_Get cKey;;
  got <- match cValue with
         | Some (CRepository r) => ret (inl r)
         | Some _ => panic
         | None =>
             call (CallRepositoryGetByID (hub.RepositoryID e));;;
             match RepositoryManager_GetByID (svc w) (hub.RepositoryID e) with
             | inr err => ret (inr err)
             | inl r => cache_SetDefault cKey (CRepository r);;; ret (inl r)
             end
         end;;
  match got with
  | inr err => ret (inr err)
  | inl r =>
      (* Prepare template data *)
      let eventKindStr :=
        match hub.Kind e with
        | hub.RepositoryScanningErrors => "repository.scanning-errors"
        | hub.RepositoryTrackingErrors => "repository.tracking-errors"
        | hub.RepositoryOwnershipClaim => "repository.ownership-claim"
        | _ => EmptyString
        end in
      ret (inl (hub.mkRepositoryNotificationTemplateData
        (baseURL w)
        (hub.mkEventData (hub.EventID e) eventKindStr)
        (hub.mkRepositoryData
           (GetKindName ext (hub.RKind r))
           (hub.RName r)
           (hub.UserAlias r)
           (hub.OrganizationName r)
           (strings_Split (hub.LastScanningErrors r) LF)
           (strings_Split (hub.LastTrackingErrors r) LF))))
  end.

(** The part of [prepareEmailData] common to the three kinds of repository
    event: prepare the data, format the subject, execute the template. *)
Definition prepareRepoEmail (w : Worker) (e : hub.Event)
    (subject : string -> string)
    (tmpl : hub.RepositoryNotificationTemplateData -> string + error)
  : M (email.Data + error) :=
  r <- prepareRepoNotificationTemplateData w e;;
  match r with
  | inr err => ret (inr err)
  | inl tmplData =>
      match tmpl tmplData with
      | inr err => ret (inr err)
      | inl emailBody =>
          ret (inl (email.mkData EmptyString
                      (subject (hub.rd_name (hub.RRepository tmplData))) emailBody))
      end
  end.

(** [prepareEmailData] prepares the email data corresponding to the event
    provided. *)
Definition prepareEmailData (w : Worker) (e : hub.Event) : M (email.Data + error) :=
  match hub.Kind e with
  | hub.NewRelease =>
      r <- preparePkgNotificationTemplateData w e;;
      match r with
      | inr err => ret (inr err)
      | inl tmplData =>
          let subject :=
            hub.pd_name (hub.PPackage tmplData) +:+ " version "
            +:+ hub.pd_version (hub.PPackage tmplData) +:+ " released" in
          match newReleaseEmailTmpl ext tmplData with
          | inr err => ret (inr err)
          | inl emailBody => ret (inl (email.mkData EmptyString subject emailBody))
          end
      end
  | hub.RepositoryScanningErrors =>
      prepareRepoEmail w e
        (fun name => "Something went wrong scanning repository " +:+ name)
        (scanningErrorsEmailTmpl ext)
  | hub.RepositoryTrackingErrors =>
      prepareRepoEmail w e
        (fun name => "Something went wrong tracking repository " +:+ name)
        (trackingErrorsEmailTmpl ext)
  | hub.RepositoryOwnershipClaim =>
      prepareRepoEmail w e
        (fun name => name +:+ " repository ownership has been claimed")
        (ownershipClaimEmailTmpl ext)
  | hub.OtherEventKind _ =>
      ret (inl (email.mkData EmptyString EmptyString EmptyString))
  end.

(** ** Delivery channels *)

Definition set_To (to : string) (d : email.Data) : email.Data :=
  email.mkData to (email.Subject d) (email.Body d).

(** [deliverEmailNotification] delivers the provided notification via
    email.  It is called with the user [u] and the sender [es] that
    [processNotification] found not nil. *)
Definition deliverEmailNotification (w : Worker) (n : hub.Notification)
    (u : hub.User) (es : email.Data -> option error) : M (option error) :=
  (* Prepare email data *)
  let cKey := "emailData.%" +:+ hub.EventID (hub.NEvent n) in
  cValue <- cache_Get cKey;;
  got <- match cValue with
         | Some (CEmailData d) => ret (inl d)
         | Some _ => panic
         | None =>
             r <- prepareEmailData w (hub.NEvent n);;
             match r with
             | inr err =>
                 ret (inr (errors.wrapError
                   (errors.Error ErrRetryable +:+ ": error preparing email data: "
                    +:+ errors.Error err) ErrRetryable))
             | inl d => cache_SetDefault cKey (CEmailData d);;; ret (inl d)
             end
         end;;
  match got with
  | inr err => ret (Some err)
  | inl emailData =>
      let emailData := set_To (hub.Email u) emailData in
      (* Send email *)
      call (CallSendEmail emailData);;;
      ret (es emailData)
  end.

(** [%d] of [fmt]. *)
Definition print_int (z : Z) : string := NilZero.string_of_int (Z.to_int z).

(** [deliverWebhookNotification] delivers the provided notification via
    webhook.  It is called with the webhook [wh] that [processNotification]
    found not nil.  [http.NewRequest]'s error is dropped by the source: when
    it fails the request is nil and setting its header panics. *)
Definition deliverWebhookNotification (w : Worker) (n : hub.Notification)
    (wh : hub.Webhook) : M (option error) :=
  (* Get template data *)
  r <- preparePkgNotificationTemplateData w (hub.NEvent n);;
  match r with
  | inr err =>
      ret (Some (errors.wrapError
        (errors.Error ErrRetryable +:+ ": " +:+ errors.Error err) ErrRetryable))
  | inl tmplData =>
      (* Prepare payload *)
      let tmpl :=
        if negb (String.eqb (hub.Template wh) EmptyString)
        then template_Parse ext (hub.Template wh)
        else inl (fun d => inl (DefaultWebhookPayloadTmpl d)) in
      match tmpl with
      | inr err => ret (Some err)
      | inl execute =>
          match execute tmplData with
          | inr err => ret (Some err)
          | inl payload =>
              let contentType := hub.ContentType wh in
              let contentType :=
                if String.eqb contentType EmptyString
                then DefaultPayloadContentType else contentType in
              (* Call webhook endpoint *)
              if negb (NewRequest_ok ext (hub.URL wh)) then panic
              else
                let req := mkRequest "POST" (hub.URL wh) payload
                  [("Content-Type", contentType);
                   ("X-ArtifactHub-Secret", hub.Secret wh)] in
                call (CallHTTPDo req);;;
                match httpClient w req with
                | inr err => ret (Some err)
                | inl resp =>
                    if StatusCode resp >=? 400
                    then ret (Some (errors.errorString
                           ("unexpected status code: " +:+ print_int (StatusCode resp))))
                    else ret None
                end
          end
      end
  end.

(** ** The transactional step *)

(** The [switch] of [processNotification] that dispatches the notification
    to its delivery channel; [err] is nil when it is entered, and stays nil
    when neither target is set. *)
Definition dispatch (w : Worker) (n : hub.Notification) : M (option error) :=
  match hub.NUser n, hub.NWebhook n with
  | Some u, _ =>
      match ES (svc w) with
      | Some es => deliverEmailNotification w n u es
      | None => ret (Some email.ErrSenderNotAvailable)
      end
  | None, Some wh => deliverWebhookNotification w n wh
  | None, None => ret None
  end.

(** The function [processNotification] runs in the transaction. *)
Definition processNotification_tx (w : Worker) : M (option error) :=
  (* Get pending notification to process *)
  r <- GetPending (svc w);;
  match r with
  | inr err =>
      (if negb (errors.Is (Some err) pgx.ErrNoRows)
       then log_Error err "processNotification: error getting pending notification"
       else ret tt);;;
      ret (Some err)
  | inl n =>
      (* Process notification *)
      err <- dispatch w n;;
      if errors.Is err ErrRetryable then
        match err with
        | Some e =>
            log_Error e "processNotification: error delivering notification";;;
            ret err
        | None => ret err
        end
      else
        (* Update notification status *)
        err <- UpdateStatus (svc w) (hub.NotificationID n) true err;;
        match err with
        | Some e =>
            log_Error e "processNotification: error updating notification status";;;
            ret None
        | None => ret None
        end
  end.

(** [processNotification] gets a pending notification from the database and
    delivers it. *)
Definition processNotification (w : Worker) : M (option error) :=
  DBTransact (svc w) (processNotification_tx w).

End WithExternals.

(** ** The main loop *)

(** The state of the loop: the world and the clock (nanoseconds). *)
Record RunState : Type := mkRunState {
  world : World;
  now : Z
}.

(** How an iteration of the loop ends: the loop goes on, [Run] returns, or
    the goroutine dies of a panic. *)
Inductive RunNext : Type :=
| Continue (s : RunState)
| Return (s : RunState)
| Crash (s : RunState).

Definition state_of (r : RunNext) : RunState :=
  match r with
  | Continue s => s
  | Return s => s
  | Crash s => s
  end.

(** The context is cancelled at [cancelAt], never when [None];
    [<-ctx.Done()] is ready from that time on. *)
Definition ctx_Done (cancelAt : option Z) (t : Z) : bool :=
  match cancelAt with
  | Some c => c <=? t
  | None => false
  end.

(** [select] between [<-ctx.Done()] and [default]. *)
Definition select_default (cancelAt : option Z) (s : RunState) : list RunNext :=
  if ctx_Done cancelAt (now s) then [Return s] else [Continue s].

(** [select] between [<-time.After(d)] and [<-ctx.Done()], entered at
    [now s].  It blocks until the first of the two is ready; when both are
    ready at the same time either is chosen, hence a list of outcomes. *)
Definition select_pause (cancelAt : option Z) (d : Z) (s : RunState) : list RunNext :=
  let timer := now s + d in
  match cancelAt with
  | None => [Continue (mkRunState (world s) timer)]
  | Some c =>
      if c <? timer then [Return (mkRunState (world s) (Z.max c (now s)))]
      else if c =? timer
      then [Continue (mkRunState (world s) timer); Return (mkRunState (world s) timer)]
      else [Continue (mkRunState (world s) timer)]
  end.

Section Run.

Variable ext : Externals.

(** The time a call of [processNotification] takes, started in a world. *)
Variable duration : World -> Z.

(** One iteration of the loop of [Run]. *)
Definition Run_iteration (w : Worker) (cancelAt : option Z) (s : RunState)
  : list RunNext :=
  let t := now s + duration (world s) in
  match processNotification ext w (world s) with
  | Panic w' => [Crash (mkRunState w' t)]
  | Ok err w' =>
      let s' := mkRunState w' t in
      match err with
      | None => select_default cancelAt s'
      | Some e =>
          if errors.Is (Some e) pgx.ErrNoRows
          then select_pause cancelAt pauseOnEmptyQueue s'
          else select_pause cancelAt pauseOnError s'
      end
  end.

(** [Run] is the main loop of the worker: it calls [processNotification]
    until it is asked to stop via the context provided.  [Run_returns s s']
    holds when [Run], started in [s], returns in [s'].  The deferred
    [wg.Done()] acts on the wait group of the caller only and is left out. *)
Inductive Run_returns (w : Worker) (cancelAt : option Z) : RunState -> RunState -> Prop :=
| Run_return s s' :
    In (Return s') (Run_iteration w cancelAt s) ->
    Run_returns w cancelAt s s'
| Run_loop s s1 s' :
    In (Continue s1) (Run_iteration w cancelAt s) ->
    Run_returns w cancelAt s1 s' ->
    Run_returns w cancelAt s s'.

End Run.

(** ** The keys of the payload cache *)

(** The three kinds of derived data the cache holds. *)
Inductive DataKind : Type := EmailDataKind | PackageKind | RepositoryKind.

(** The key under which [deliverEmailNotification],
    [preparePkgNotificationTemplateData] and
    [prepareRepoNotificationTemplateData] look up and store the data of an
    event, as each of them computes it. *)
Definition cKey (k : DataKind) (eventID : string) : string :=
  match k with
  | EmailDataKind => "emailData.%" +:+ eventID
  | PackageKind => "package.%" +:+ eventID
  | RepositoryKind => "repository.%" +:+ eventID
  end.

(** The key the specification describes: the namespace of the kind of data
    followed by the event id. *)
Definition spec_key (k : DataKind) (eventID : string) : string :=
  match k with
  | EmailDataKind => "emailData." +:+ eventID
  | PackageKind => "package." +:+ eventID
  | RepositoryKind => "repository." +:+ eventID
  end.

(** ** Predicates the statements are written with *)

(** The calls a delivery channel issues: to the email sender, the package
    and repository managers and the HTTP client. *)
Definition delivery_call (c : Call) : Prop :=
  match c with
  | CallSendEmail _ | CallPackageGet _ _ | CallRepositoryGetByID _ | CallHTTPDo _ => True
  | _ => False
  end.

(** [delivers w0 w1]: [w1] differs from [w0] by calls to the delivery
    collaborators and by the content of the cache only. *)
Definition delivers (w0 w1 : World) : Prop :=
  table w1 = table w0 /\ tx w1 = tx w0 /\ logs w1 = logs w0 /\
  exists l, calls w1 = (l ++ calls w0)%list /\ Forall delivery_call l.

(** A computation that acts on the world by delivery only. *)
Definition delivering {A} (m : M A) : Prop :=
  forall w0 r w1, m w0 = Ok r w1 -> delivers w0 w1.

(** The world in which the notification claimed by [processNotification],
    started in [w], is dispatched: the transaction is open on the committed
    table and [GetPending] has been called. *)
Definition claimed (w : World) : World :=
  add_call CallGetPending (set_tx (table w) (add_call CallBegin w)).

(** The rows of a notification. *)
Definition row_of (n : hub.Notification) (r : Row) : Prop :=
  hub.NotificationID (notification r) = hub.NotificationID n.

Definition is_UpdateStatus (c : Call) : bool :=
  match c with
  | CallUpdateStatus _ _ _ => true
  | _ => false
  end.

(** The wire format of a webhook call: a POST to the URL of the webhook
    with the payload as body, the content type of the webhook or the
    default one, and the secret of the webhook in a header. *)
Definition webhook_request (wh : hub.Webhook) (payload : string) : Request :=
  mkRequest "POST" (hub.URL wh) payload
    [("Content-Type",
      if String.eqb (hub.ContentType wh) EmptyString
      then DefaultPayloadContentType else hub.ContentType wh);
     ("X-ArtifactHub-Secret", hub.Secret wh)].

(** The payload of a webhook renders to [payload]: with the default
    template when the webhook has none, with its own template otherwise,
    parsed and executed without error. *)
Definition renders (ext : Externals) (wh : hub.Webhook)
    (d : hub.PackageNotificationTemplateData) (payload : string) : Prop :=
  if String.eqb (hub.Template wh) EmptyString
  then payload = DefaultWebhookPayloadTmpl d
  else exists execute,
         template_Parse ext (hub.Template wh) = inl execute /\
         execute d = inl payload.

(** The execution of the email body template of the kind of the event [e]
    fails with [err], once the template data has been prepared from the
    world [w0], leaving the world [w1]. *)
Inductive template_execution_fails (ext : Externals) (w : Worker) (e : hub.Event)
    (w0 : World) (err : error) (w1 : World) : Prop :=
| new_release_fails d :
    hub.Kind e = hub.NewRelease ->
    preparePkgNotificationTemplateData ext w e w0 = Ok (inl d) w1 ->
    newReleaseEmailTmpl ext d = inr err ->
    template_execution_fails ext w e w0 err w1
| scanning_errors_fails d :
    hub.Kind e = hub.RepositoryScanningErrors ->
    prepareRepoNotificationTemplateData ext w e w0 = Ok (inl d) w1 ->
    scanningErrorsEmailTmpl ext d = inr err ->
    template_execution_fails ext w e w0 err w1
| tracking_errors_fails d :
    hub.Kind e = hub.RepositoryTrackingErrors ->
    prepareRepoNotificationTemplateData ext w e w0 = Ok (inl d) w1 ->
    trackingErrorsEmailTmpl ext d = inr err ->
    template_execution_fails ext w e w0 err w1
| ownership_claim_fails d :
    hub.Kind e = hub.RepositoryOwnershipClaim ->
    prepareRepoNotificationTemplateData ext w e w0 = Ok (inl d) w1 ->
    ownershipClaimEmailTmpl ext d = inr err ->
    template_execution_fails ext w e w0 err w1.

(** ** Instances for the examples *)

Module Examples.

Definition repo_etcd : hub.Repository :=
  hub.mkRepository 0 "bitnami" "alice" "bitnami-org" "" "".

Definition pkg_etcd : hub.Package :=
  hub.mkPackage "etcd" "3.5.0" "logo-1" [] false false repo_etcd.

Definition ext0 : Externals :=
  mkExternals
    (fun base p version =>
       base +:+ "/packages/" +:+ hub.Name p +:+ "/" +:+ version)
    (fun kind => if kind =? 0 then "helm" else "other")
    (fun d => inl ("New release of " +:+ hub.pd_name (hub.PPackage d)))
    (fun d => inl "scanning errors")
    (fun d => inl "tracking errors")
    (fun d => inl "ownership claim")
    (fun src => inr (errors.errorString "template: unexpected action"))
    (fun url => true).

(** The external functions with a release email template whose execution
    fails. *)
Definition ext_bad_tmpl : Externals :=
  mkExternals (BuildURL ext0) (GetKindName ext0)
    (fun d => inr (errors.errorString "template: executing: no such field"))
    (scanningErrorsEmailTmpl ext0) (trackingErrorsEmailTmpl ext0)
    (ownershipClaimEmailTmpl ext0) (template_Parse ext0) (NewRequest_ok ext0).

(** Services that work, with and without an email sender. *)
Definition svc_ok : Services :=
  mkServices None None None None (Some (fun d => None))
    (fun id version => inl pkg_etcd) (fun id => inl repo_etcd).

Definition svc_no_sender : Services :=
  mkServices None None None None None
    (fun id version => inl pkg_etcd) (fun id => inl repo_etcd).

(** Services whose package manager is down. *)
Definition svc_pkg_down : Services :=
  mkServices None None None None (Some (fun d => None))
    (fun id version => inr (errors.errorString "connection reset"))
    (fun id => inl repo_etcd).


Definition http_status (code : Z) : Request -> Response + error :=
  fun req => inl (mkResponse code).

Definition http_refused : Request -> Response + error :=
  fun req => inr (errors.errorString "dial tcp: connection refused").

Definition worker (s : Services) (client : Request -> Response + error) : Worker :=
  mkWorker s "https://artifacthub.io" client.

Definition event1 : hub.Event :=
  hub.mkEvent "e1" hub.NewRelease "pkg-1" "3.5.0" "repo-1".

Definition user1 : hub.User :=
  hub.mkUser "u1" "alice" "Alice" "A" "alice@example.org" true "" "" true false.

Definition webhook1 : hub.Webhook :=
  hub.mkWebhook "https://example.org/hook" "s3cret" "" "".

Definition n_email : hub.Notification :=
  hub.mkNotification "n1" event1 (Some user1) None.

Definition n_webhook : hub.Notification :=
  hub.mkNotification "n2" event1 None (Some webhook1).

Definition n_no_target : hub.Notification :=
  hub.mkNotification "n3" event1 None None.

(** A world with one pending notification and nothing else. *)
Definition world_with (n : hub.Notification) : World :=
  mkWorld [mkRow n false ""] [] ∅ [] [].

(** A world with an empty queue, and the world after a call of
    [processNotification] found it empty. *)
Definition world_empty : World := mkWorld [] [] ∅ [] [].

Definition world_polled : World :=
  mkWorld [] [] ∅ [CallRollback; CallGetPending; CallBegin] [].

(** A call of [processNotification] that takes a millisecond. *)
Definition millisecond (w : World) : Z := 1000000.

(** The template data of [event1] for [pkg_etcd], as
    [preparePkgNotificationTemplateData] builds it. *)
Definition data_etcd : hub.PackageNotificationTemplateData :=
  hub.mkPackageNotificationTemplateData "https://artifacthub.io"
    (hub.mkEventData "e1" "package.new-release")
    (hub.mkPackageData "etcd" "3.5.0" "logo-1"
       "https://artifacthub.io/packages/etcd/3.5.0" [] false false
       (hub.mkPackageRepositoryData "helm" "bitnami" "bitnami-org")).

(** The world in which [n] has been claimed and the package of its event
    fetched and cached. *)
Definition world_prepared (n : hub.Notification) : World :=
  set_cache (<["package.%e1" := CPackage pkg_etcd]> ∅)
    (add_call (CallPackageGet "pkg-1" "3.5.0") (claimed (world_with n))).

End Examples.

(** The answer of the HTTP client to the POST is a failure, of which
    [failure] is the error [deliverWebhookNotification] returns: the error of
    the transport, taken here not to carry the retryable tag itself, or an
    error made of the status code when it is 400 or more. *)
Inductive http_failure (answer : Response + error) : error -> Prop :=
| transport_failure e :
    answer = inr e ->
    errors.Is (Some e) ErrRetryable = false ->
    http_failure answer e
| status_failure resp :
    answer = inl resp ->
    400 <= StatusCode resp ->
    http_failure answer
      (errors.errorString ("unexpected status code: " +:+ print_int (StatusCode resp))).

(** The kind of data a cached value is: its dynamic type. *)
Definition kind_of (v : CacheValue) : DataKind :=
  match v with
  | CEmailData _ => EmailDataKind
  | CPackage _ => PackageKind
  | CRepository _ => RepositoryKind
  end.

(** A cache in which every entry under a key of the worker holds data of
    the kind of the key: the type assertions of the worker succeed on it. *)
Definition well_kinded (c : gmap string CacheValue) : Prop :=
  forall k id v, c !! cKey k id = Some v -> kind_of v = k.

(** [caches id w0 w1]: from [w0] to [w1] the cache changes only under the
    keys of the event [id], and what is put under the key of a kind is data of
    that kind. *)
Definition caches (id : string) (w0 w1 : World) : Prop :=
  forall key,
    cache w1 !! key = cache w0 !! key \/
    exists k v, key = cKey k id /\ cache w1 !! key = Some v /\ kind_of v = k.

Definition caching (id : string) {A} (m : M A) : Prop :=
  forall w0 r w1, m w0 = Ok r w1 -> caches id w0 w1.

(** The pause of the loop after an outcome of [processNotification]: none
    after a success, the pause on an empty queue when there was no pending
    notification, the pause on error after any other error. *)
Definition pause_after (err : option error) : Z :=
  match err with
  | None => 0
  | Some e =>
      if errors.Is (Some e) pgx.ErrNoRows then pauseOnEmptyQueue else pauseOnError
  end.

(** [paced cancelAt w' t d next]: the iteration whose call of
    [processNotification] returned at [t], leaving the world [w'], ends in
    [next] after a pause of at most [d].  It ends within [d] of [t] and not
    by a panic; the loop goes on only once the whole pause has elapsed; [Run]
    returns only if the context is cancelled by then; and a cancellation
    before the end of the pause makes [Run] return at the time of the
    cancellation (at [t] if it came earlier). *)
Definition paced (cancelAt : option Z) (w' : World) (t d : Z) (next : RunNext) : Prop :=
  world (state_of next) = w' /\
  t <= now (state_of next) <= t + d /\
  (forall s1, next = Continue s1 -> now s1 = t + d) /\
  (forall s1, next = Return s1 -> ctx_Done cancelAt (now s1) = true) /\
  (forall c, cancelAt = Some c -> c < t + d ->
             next = Return (mkRunState w' (Z.max c t))) /\
  (forall s1, next <> Crash s1).

(** ** JSON texts *)

(** What it means for a payload to be valid JSON: a parser of JSON texts
    (RFC 8259), against which the output of the default template is checked.
    Strings and numbers are kept as they are written: escape sequences are
    checked, not decoded. *)
Module JSON.

#[warnings="-register-all"]
Inductive value : Type :=
| Null
| Bool (b : bool)
| Number (literal : string)
| Str (s : string)
| Array (elements : list value)
| Object (members : list (string * value)).

Definition parser (A : Type) : Type := string -> option (A * string).

Definition is_ws (c : ascii) : bool :=
  let n := N_of_ascii c in
  (n =? 32)%N || (n =? 9)%N || (n =? 10)%N || (n =? 13)%N.

Fixpoint skip_ws (s : string) : string :=
  match s with
  | EmptyString => s
  | String c s' => if is_ws c then skip_ws s' else s
  end.

Definition backslash : ascii := ascii_of_nat 92.

(** A character that stands for itself in a string: not a double quote, not
    a backslash, not a control character. *)
Definition plain_char (c : ascii) : bool :=
  negb (Ascii.eqb c dquote) && negb (Ascii.eqb c backslash)
  && (32 <=? N_of_ascii c)%N.

Definition is_hex (c : ascii) : bool :=
  let n := N_of_ascii c in
  ((48 <=? n) && (n <=? 57) || (65 <=? n) && (n <=? 70) || (97 <=? n) && (n <=? 102))%N.

(** The characters that may follow a backslash, the [u] of a code point
    apart: the double quote, the backslash, the slash, [b], [f], [n], [r]
    and [t]. *)
Definition is_escape (c : ascii) : bool :=
  let n := N_of_ascii c in
  ((n =? 34) || (n =? 92) || (n =? 47) || (n =? 98) || (n =? 102) || (n =? 110)
   || (n =? 114) || (n =? 116))%N.

Definition cons_body (c : ascii) (r : option (string * string)) : option (string * string) :=
  match r with
  | Some (body, rest) => Some (String c body, rest)
  | None => None
  end.

(** The rest of a string after its opening double quote: its characters
    and what follows the closing double quote. *)
Fixpoint string_body (s : string) : option (string * string) :=
  match s with
  | EmptyString => None
  | String c s' =>
      if Ascii.eqb c dquote then Some (EmptyString, s')
      else if Ascii.eqb c backslash then
        match s' with
        | String e s2 =>
            if is_escape e then cons_body c (cons_body e (string_body s2))
            else if Ascii.eqb e "u" then
              match s2 with
              | String h1 (String h2 (String h3 (String h4 s6))) =>
                  if is_hex h1 && is_hex h2 && is_hex h3 && is_hex h4
                  then cons_body c (cons_body e (cons_body h1 (cons_body h2
                         (cons_body h3 (cons_body h4 (string_body s6))))))
                  else None
              | _ => None
              end
            else None
        | EmptyString => None
        end
      else if (N_of_ascii c <? 32)%N then None
      else cons_body c (string_body s')
  end.

Definition is_digit (c : ascii) : bool :=
  let n := N_of_ascii c in ((48 <=? n) && (n <=? 57))%N.

(** The longest prefix of digits and what follows it. *)
Fixpoint digits (s : string) : string * string :=
  match s with
  | String c s' =>
      if is_digit c then let (ds, rest) := digits s' in (String c ds, rest)
      else (EmptyString, s)
  | EmptyString => (EmptyString, s)
  end.

(** One digit at least. *)
Definition digits1 (s : string) : option (string * string) :=
  match digits s with
  | (EmptyString, _) => None
  | (ds, rest) => Some (ds, rest)
  end.

(** The integer part of a number: a zero, or digits that do not start with
    a zero. *)
Definition int_part (s : string) : option (string * string) :=
  match s with
  | String c s' =>
      if Ascii.eqb c "0" then Some ("0", s')
      else if is_digit c then digits1 s
      else None
  | EmptyString => None
  end.

Definition frac_part (s : string) : option (string * string) :=
  match s with
  | String c s' =>
      if Ascii.eqb c "." then
        match digits1 s' with
        | Some (ds, rest) => Some (String c ds, rest)
        | None => None
        end
      else Some (EmptyString, s)
  | EmptyString => Some (EmptyString, s)
  end.

Definition exp_part (s : string) : option (string * string) :=
  match s with
  | String c s' =>
      if Ascii.eqb c "e" || Ascii.eqb c "E" then
        match s' with
        | String sign s2 =>
            if Ascii.eqb sign "+" || Ascii.eqb sign "-" then
              match digits1 s2 with
              | Some (ds, rest) => Some (String c (String sign ds), rest)
              | None => None
              end
            else
              match digits1 s' with
              | Some (ds, rest) => Some (String c ds, rest)
              | None => None
              end
        | EmptyString => None
        end
      else Some (EmptyString, s)
  | EmptyString => Some (EmptyString, s)
  end.

Definition unsigned_number (s : string) : option (string * string) :=
  match int_part s with
  | Some (i, rest) =>
      match frac_part rest with
      | Some (f, rest') =>
          match exp_part rest' with
          | Some (e, rest2) => Some (i +:+ f +:+ e, rest2)
          | None => None
          end
      | None => None
      end
  | None => None
  end.

Definition number (s : string) : option (string * string) :=
  match s with
  | String c s' =>
      if Ascii.eqb c "-" then
        match unsigned_number s' with
        | Some (n, rest) => Some (String c n, rest)
        | None => None
        end
      else unsigned_number s
  | EmptyString => None
  end.

(** [s] without the prefix [p], when it has it. *)
Fixpoint strip_prefix (p s : string) : option string :=
  match p with
  | EmptyString => Some s
  | String c p' =>
      match s with
      | String c' s' => if Ascii.eqb c c' then strip_prefix p' s' else None
      | EmptyString => None
      end
  end.

Definition literal (p : string) (v : value) : parser value :=
  fun s =>
    match strip_prefix p s with
    | Some rest => Some (v, rest)
    | None => None
    end.

(** A value, given the parsers of the members of an object and of the
    elements of an array. *)
Definition value_step (pmembers : parser (list (string * value)))
    (pelements : parser (list value)) : parser value :=
  fun s =>
    match skip_ws s with
    | EmptyString => None
    | String c s' =>
        if Ascii.eqb c "{" then
          match skip_ws s' with
          | EmptyString => None
          | String c' s2 =>
              if Ascii.eqb c' "}" then Some (Object [], s2)
              else match pmembers (String c' s2) with
                   | Some (ms, rest) => Some (Object ms, rest)
                   | None => None
                   end
          end
        else if Ascii.eqb c "[" then
          match skip_ws s' with
          | EmptyString => None
          | String c' s2 =>
              if Ascii.eqb c' "]" then Some (Array [], s2)
              else match pelements (String c' s2) with
                   | Some (vs, rest) => Some (Array vs, rest)
                   | None => None
                   end
          end
        else if Ascii.eqb c dquote then
          match string_body s' with
          | Some (str, rest) => Some (Str str, rest)
          | None => None
          end
        else if Ascii.eqb c "t" then literal "rue" (Bool true) s'
        else if Ascii.eqb c "f" then literal "alse" (Bool false) s'
        else if Ascii.eqb c "n" then literal "ull" Null s'
        else match number (String c s') with
             | Some (lit, rest) => Some (Number lit, rest)
             | None => None
             end
    end.

(** The members of an object from the opening double quote of a name on,
    up to the closing brace. *)
Definition members_step (pvalue : parser value)
    (pmembers : parser (list (string * value))) : parser (list (string * value)) :=
  fun s =>
    match s with
    | EmptyString => None
    | String c s' =>
        if Ascii.eqb c dquote then
          match string_body s' with
          | None => None
          | Some (name, rest) =>
              match skip_ws rest with
              | EmptyString => None
              | String c1 rest1 =>
                  if Ascii.eqb c1 ":" then
                    match pvalue rest1 with
                    | None => None
                    | Some (v, rest2) =>
                        match skip_ws rest2 with
                        | EmptyString => None
                        | String c2 rest3 =>
                            if Ascii.eqb c2 "," then
                              match pmembers (skip_ws rest3) with
                              | Some (ms, rest4) => Some ((name, v) :: ms, rest4)
                              | None => None
                              end
                            else if Ascii.eqb c2 "}" then Some ([(name, v)], rest3)
                            else None
                        end
                    end
                  else None
              end
          end
        else None
    end.

(** The elements of an array up to the closing bracket. *)
Definition elements_step (pvalue : parser value)
    (pelements : parser (list value)) : parser (list value) :=
  fun s =>
    match pvalue s with
    | None => None
    | Some (v, rest) =>
        match skip_ws rest with
        | EmptyString => None
        | String c rest1 =>
            if Ascii.eqb c "," then
              match pelements rest1 with
              | Some (vs, rest2) => Some (v :: vs, rest2)
              | None => None
              end
            else if Ascii.eqb c "]" then Some ([v], rest1)
            else None
        end
    end.

(** The three parsers, by recursion on a bound on the number of nested calls. *)
Fixpoint parse_value (fuel : nat) (s : string) {struct fuel}
  : option (value * string) :=
  match fuel with
  | O => None
  | S f => value_step (parse_members f) (parse_elements f) s
  end
with parse_members (fuel : nat) (s : string) {struct fuel}
  : option (list (string * value) * string) :=
  match fuel with
  | O => None
  | S f => members_step (parse_value f) (parse_members f) s
  end
with parse_elements (fuel : nat) (s : string) {struct fuel}
  : option (list value * string) :=
  match fuel with
  | O => None
  | S f => elements_step (parse_value f) (parse_elements f) s
  end.

(** A JSON text: one value, with nothing but white space around it.  Every
    nested call consumes a character, so the length of the text bounds
    their number. *)
Definition parse (s : string) : option value :=
  match parse_value (S (String.length s)) s with
  | Some (v, rest) =>
      match skip_ws rest with
      | EmptyString => Some v
      | _ => None
      end
  | None => None
  end.

(** The member of an object named [name]. *)
Fixpoint member (name : string) (ms : list (string * value)) : option value :=
  match ms with
  | [] => None
  | (k, v) :: ms' => if String.eqb k name then Some v else member name ms'
  end.

(** The value at a path of member names. *)
Fixpoint get (path : list string) (v : value) : option value :=
  match path with
  | [] => Some v
  | name :: path' =>
      match v with
      | Object ms =>
          match member name ms with
          | Some v' => get path' v'
          | None => None
          end
      | _ => None
      end
  end.

(** [q] extends [p]: it gives the results of [p], and maybe more. *)
Definition extends {A} (p q : parser A) : Prop :=
  forall s r, p s = Some r -> q s = Some r.

(** A string made of plain characters. *)
Fixpoint plain (s : string) : bool :=
  match s with
  | EmptyString => true
  | String c s' => plain_char c && plain s'
  end.

End JSON.

(** The structured envelope of the specification for the template data
    [d]: a specification version, the event id, the source, a type made of
    the namespace and the kind of event, a content type marker, and the
    package nested in the data. *)
Definition envelope (d : hub.PackageNotificationTemplateData) : JSON.value :=
  let p := hub.PPackage d in
  JSON.Object
    [("specversion", JSON.Str "1.0");
     ("id", JSON.Str (hub.ev_id (hub.PEvent d)));
     ("source", JSON.Str "https://artifacthub.io/cloudevents");
     ("type", JSON.Str ("io.artifacthub." +:+ hub.ev_kind (hub.PEvent d)));
     ("datacontenttype", JSON.Str "application/json");
     ("data",
      JSON.Object
        [("package",
          JSON.Object
            [("name", JSON.Str (hub.pd_name p));
             ("version", JSON.Str (hub.pd_version p));
             ("url", JSON.Str (hub.pd_url p));
             ("changes", JSON.Array (map JSON.Str (hub.pd_changes p)));
             ("containsSecurityUpdates", JSON.Bool (hub.pd_containsSecurityUpdates p));
             ("prerelease", JSON.Bool (hub.pd_prerelease p));
             ("repository",
              JSON.Object
                [("kind", JSON.Str (hub.pr_kind (hub.pd_repository p)));
                 ("name", JSON.Str (hub.pr_name (hub.pd_repository p)));
                 ("publisher", JSON.Str (hub.pr_publisher (hub.pd_repository p)))])])])].

(** The strings the default template prints are made of plain characters:
    the template does not escape them. *)
Definition plain_data (d : hub.PackageNotificationTemplateData) : bool :=
  let p := hub.PPackage d in
  JSON.plain (hub.ev_id (hub.PEvent d))
  && JSON.plain (hub.ev_kind (hub.PEvent d))
  && JSON.plain (hub.pd_name p)
  && JSON.plain (hub.pd_version p)
  && JSON.plain (hub.pd_url p)
  && forallb JSON.plain (hub.pd_changes p)
  && JSON.plain (hub.pr_kind (hub.pd_repository p))
  && JSON.plain (hub.pr_name (hub.pd_repository p))
  && JSON.plain (hub.pr_publisher (hub.pd_repository p)).

(** ** JSON texts with their layout *)

(** A JSON text as it is laid out: the values the default template prints
    (strings, booleans, arrays, objects) with the white space written
    between their tokens.  [print] writes a document followed by a
    continuation, [erase] forgets the layout. *)
Module Layout.

Inductive doc : Type :=
| DStr (s : string)
| DBool (b : bool)
| DArr (es : elems)
| DObj (ms : members) (ws_close : string)
with elems : Type :=
| ENil
| ECons (ws : string) (v : doc) (es : elems)
with members : Type :=
| MNil
| MCons (ws_name name ws_colon ws_value : string) (v : doc) (ms : members).

Fixpoint print (d : doc) (k : string) : string :=
  match d with
  | DStr s => String dquote (s +:+ String dquote k)
  | DBool b => print_bool b +:+ k
  | DArr es => String "[" (print_elems es (String "]" k))
  | DObj ms wc => String "{" (print_members ms wc k)
  end
with print_elems (es : elems) (k : string) : string :=
  match es with
  | ENil => k
  | ECons w v es' =>
      w +:+ print v
              match es' with
              | ENil => k
              | ECons _ _ _ => String "," (print_elems es' k)
              end
  end
with print_members (ms : members) (wc k : string) : string :=
  match ms with
  | MNil => wc +:+ String "}" k
  | MCons wn name wcol wv v ms' =>
      wn +:+ String dquote (name +:+ String dquote (wcol +:+ String ":" (wv +:+
        print v
          match ms' with
          | MNil => wc +:+ String "}" k
          | MCons _ _ _ _ _ _ => String "," (print_members ms' wc k)
          end)))
  end.

Fixpoint erase (d : doc) : JSON.value :=
  match d with
  | DStr s => JSON.Str s
  | DBool b => JSON.Bool b
  | DArr es => JSON.Array (erase_elems es)
  | DObj ms _ => JSON.Object (erase_members ms)
  end
with erase_elems (es : elems) : list JSON.value :=
  match es with
  | ENil => []
  | ECons _ v es' => erase v :: erase_elems es'
  end
with erase_members (ms : members) : list (string * JSON.value) :=
  match ms with
  | MNil => []
  | MCons _ name _ _ v ms' => (name, erase v) :: erase_members ms'
  end.

Fixpoint all_ws (w : string) : bool :=
  match w with
  | EmptyString => true
  | String c w' => JSON.is_ws c && all_ws w'
  end.

(** The layout is white space, and the strings are made of plain characters. *)
Fixpoint wf (d : doc) : bool :=
  match d with
  | DStr s => JSON.plain s
  | DBool _ => true
  | DArr es => wf_elems es
  | DObj ms wc => wf_members ms && all_ws wc
  end
with wf_elems (es : elems) : bool :=
  match es with
  | ENil => true
  | ECons w v es' => all_ws w && wf v && wf_elems es'
  end
with wf_members (ms : members) : bool :=
  match ms with
  | MNil => true
  | MCons wn name wcol wv v ms' =>
      all_ws wn && JSON.plain name && all_ws wcol && all_ws wv && wf v
      && wf_members ms'
  end.

(** A bound on the number of nested calls the parser makes on a document. *)
Fixpoint size (d : doc) : nat :=
  match d with
  | DStr _ => 1
  | DBool _ => 1
  | DArr es => S (size_elems es)
  | DObj ms _ => S (size_members ms)
  end
with size_elems (es : elems) : nat :=
  match es with
  | ENil => 0
  | ECons _ v es' => S (size v + size_elems es')
  end
with size_members (ms : members) : nat :=
  match ms with
  | MNil => 0
  | MCons _ _ _ _ v ms' => S (size v + size_members ms')
  end.

Scheme doc_mut := Induction for doc Sort Prop
  with elems_mut := Induction for elems Sort Prop
  with members_mut := Induction for members Sort Prop.

Combined Scheme doc_elems_members_ind from doc_mut, elems_mut, members_mut.

(** A line feed followed by [n] tabs. *)
Fixpoint tabs (n : nat) : string :=
  match n with
  | O => EmptyString
  | S n' => String (ascii_of_nat 9) (tabs n')
  end.

Definition indent (n : nat) : string := String LF (tabs n).

(** The elements of the array of changes: a space before each but the first. *)
Fixpoint changes_elems (i : nat) (changes : list string) : elems :=
  match changes with
  | [] => ENil
  | e :: changes' =>
      ECons (if Nat.eqb i 0 then EmptyString else " ") (DStr e)
        (changes_elems (S i) changes')
  end.

(** The document the default webhook template lays out for [d]. *)
Definition payload_doc (d : hub.PackageNotificationTemplateData) : doc :=
  let p := hub.PPackage d in
  let r := hub.pd_repository p in
  DObj
    (MCons (indent 1) "specversion" " " " " (DStr "1.0")
    (MCons (indent 1) "id" " " " " (DStr (hub.ev_id (hub.PEvent d)))
    (MCons (indent 1) "source" " " " " (DStr "https://artifacthub.io/cloudevents")
    (MCons (indent 1) "type" " " " "
       (DStr ("io.artifacthub." +:+ hub.ev_kind (hub.PEvent d)))
    (MCons (indent 1) "datacontenttype" " " " " (DStr "application/json")
    (MCons (indent 1) "data" " " " "
       (DObj
          (MCons (indent 2) "package" EmptyString " "
             (DObj
                (MCons (indent 3) "name" EmptyString " " (DStr (hub.pd_name p))
                (MCons (indent 3) "version" EmptyString " " (DStr (hub.pd_version p))
                (MCons (indent 3) "url" EmptyString " " (DStr (hub.pd_url p))
                (MCons (indent 3) "changes" EmptyString " "
                   (DArr (changes_elems 0 (hub.pd_changes p)))
                (MCons (indent 3) "containsSecurityUpdates" EmptyString " "
                   (DBool (hub.pd_containsSecurityUpdates p))
                (MCons (indent 3) "prerelease" EmptyString " "
                   (DBool (hub.pd_prerelease p))
                (MCons (indent 3) "repository" EmptyString " "
                   (DObj
                      (MCons (indent 4) "kind" EmptyString " " (DStr (hub.pr_kind r))
                      (MCons (indent 4) "name" EmptyString " " (DStr (hub.pr_name r))
                      (MCons (indent 4) "publisher" EmptyString " "
                         (DStr (hub.pr_publisher r)) MNil)))
                      (indent 3))
                 MNil)))))))
                (indent 2))
           MNil)
          (indent 1))
     MNil))))))
    (indent 0).

End Layout.

(** The package of the event [e] as [preparePkgNotificationTemplateData]
    obtains it in the world [w0]: from the cache, or else from the package
    manager. *)
Definition package_of (w : Worker) (e : hub.Event) (w0 : World) : option hub.Package :=
  match cache w0 !! cKey PackageKind (hub.EventID e) with
  | Some (CPackage p) => Some p
  | Some _ => None
  | None =>
      match PackageManager_Get (svc w) (hub.PackageID e) (hub.PackageVersion e) with
      | inl p => Some p
      | inr _ => None
      end
  end.

(** ** Further instances for the examples *)

Module MoreExamples.

(** External functions whose [http.NewRequest] rejects the empty URL only,
    standing for the URLs the library cannot parse. *)
Definition ext_strict : Externals :=
  mkExternals (BuildURL Examples.ext0) (GetKindName Examples.ext0)
    (newReleaseEmailTmpl Examples.ext0)
    (scanningErrorsEmailTmpl Examples.ext0) (trackingErrorsEmailTmpl Examples.ext0)
    (ownershipClaimEmailTmpl Examples.ext0) (template_Parse Examples.ext0)
    (fun url => negb (String.eqb url EmptyString)).

Definition webhook_bad_url : hub.Webhook :=
  hub.mkWebhook EmptyString "s3cret" EmptyString EmptyString.

Definition n_bad_url : hub.Notification :=
  hub.mkNotification "n4" Examples.event1 None (Some webhook_bad_url).

(** A webhook with a template of its own, which [ext0] fails to parse. *)
Definition webhook_custom : hub.Webhook :=
  hub.mkWebhook "https://example.org/hook" "s3cret" "{{ .Package.name " "text/plain".

Definition n_custom : hub.Notification :=
  hub.mkNotification "n5" Examples.event1 None (Some webhook_custom).

(** An event of a kind the worker knows nothing of. *)
Definition event_other : hub.Event :=
  hub.mkEvent "e9" (hub.OtherEventKind 7) "pkg-1" "3.5.0" "repo-1".

Definition n_other : hub.Notification :=
  hub.mkNotification "n6" event_other (Some Examples.user1) None.

(** A package whose name holds a double quote, and one whose only change
    holds the text that closes a string and opens another one. *)
Definition pkg_quote : hub.Package :=
  hub.mkPackage ("e" +:+ String dquote "t") "3.5.0" "logo-1" [] false false
    Examples.repo_etcd.

Definition pkg_change : hub.Package :=
  hub.mkPackage "etcd" "3.5.0" "logo-1"
    ["a" +:+ String dquote (", " +:+ String dquote "b")] false false
    Examples.repo_etcd.

Definition svc_of (p : hub.Package) : Services :=
  mkServices None None None None (Some (fun d => None))
    (fun id version => inl p) (fun id => inl Examples.repo_etcd).

End MoreExamples.

(** ** Further predicates on the trace *)

(** The calls that fetch the data of an event. *)
Definition fetch_call (c : Call) : Prop :=
  match c with
  | CallPackageGet _ _ | CallRepositoryGetByID _ => True
  | _ => False
  end.

(** [emits P w0 w1]: the trace of [w1] is that of [w0] with calls that all
    satisfy [P] added. *)
Definition emits (P : Call -> Prop) (w0 w1 : World) : Prop :=
  exists l, calls w1 = (l ++ calls w0)%list /\ Forall P l.

Definition emitting (P : Call -> Prop) {A} (m : M A) : Prop :=
  forall w0 r w1, m w0 = Ok r w1 -> emits P w0 w1.

(** [send] hands the notification [n] over to its target: an email to the
    address of its user or, for a notification without user, a request in
    the wire format of its webhook. *)
Definition handover (n : hub.Notification) (send : Call) : Prop :=
  match hub.NUser n with
  | Some u => exists d, send = CallSendEmail d /\ email.To d = hub.Email u
  | None =>
      exists wh payload,
        hub.NWebhook n = Some wh /\ send = CallHTTPDo (webhook_request wh payload)
  end.

(** ** Lines of text *)

(** [strings.Join(elems, sep)] for a one-character separator. *)
Fixpoint strings_Join (elems : list string) (sep : ascii) : string :=
  match elems with
  | [] => EmptyString
  | s :: rest =>
      match rest with
      | [] => s
      | _ :: _ => s +:+ String sep (strings_Join rest sep)
      end
  end.

(** The number of occurrences of a character in a string. *)
Fixpoint count_char (c : ascii) (s : string) : nat :=
  match s with
  | EmptyString => O
  | String c' s' => if Ascii.eqb c' c then S (count_char c s') else count_char c s'
  end.

Module RepoExamples.

(** A repository whose last tracking run left two lines of errors, and an
    event for it. *)
Definition repo_broken : hub.Repository :=
  hub.mkRepository 0 "bitnami" "alice" "bitnami-org" EmptyString
    ("error getting index" +:+ String LF "invalid metadata").

Definition event_tracking : hub.Event :=
  hub.mkEvent "e2" hub.RepositoryTrackingErrors "" "" "repo-1".

Definition svc_broken : Services :=
  mkServices None None None None (Some (fun d => None))
    (fun id version => inl Examples.pkg_etcd) (fun id => inl repo_broken).

Definition data_broken : hub.RepositoryNotificationTemplateData :=
  hub.mkRepositoryNotificationTemplateData "https://artifacthub.io"
    (hub.mkEventData "e2" "repository.tracking-errors")
    (hub.mkRepositoryData "helm" "bitnami" "alice" "bitnami-org"
       [EmptyString] ["error getting index"; "invalid metadata"]).

End RepoExamples.

(** ** Every run of the loop *)

(** [Run_returns_within n s]: [Run], started in [s], returns within [n]
    iterations however the ties of its [select]s are resolved.  Each
    iteration has an outcome and none is a crash; the outcomes that go on
    lead to states from which [Run] returns within the iterations left. *)
Fixpoint Run_returns_within (ext : Externals) (duration : World -> Z) (w : Worker)
    (cancelAt : option Z) (n : nat) (s : RunState) : Prop :=
  match n with
  | O => False
  | S n' =>
      Run_iteration ext duration w cancelAt s <> [] /\
      forall next,
        In next (Run_iteration ext duration w cancelAt s) ->
        match next with
        | Return _ => True
        | Continue s1 => Run_returns_within ext duration w cancelAt n' s1
        | Crash _ => False
        end
  end.

(** * Package static: the handlers of images *)

Module static.

(** [time.Duration] counts nanoseconds. *)
Definition Minute : Z := 60 * Second.
Definition Hour : Z := 60 * Minute.

Definition indexCacheMaxAge : Z := 5 * Minute.

(** [DocsCacheMaxAge] is the cache max age used when serving the docs. *)
Definition DocsCacheMaxAge : Z := 15 * Minute.

(** [StaticCacheMaxAge] is the cache max age used when serving static
    assets. *)
Definition StaticCacheMaxAge : Z := 365 * 24 * Hour.

Definition StatusOK : Z := 200.
Definition StatusNotFound : Z := 404.
Definition StatusInternalServerError : Z := 500.

(** An [http.ResponseWriter]: its header map ([Header().Set] replaces the
    value of a key), the status code written, [None] as long as none is, and
    the body written so far.  [WriteHeader] is ignored once a status is
    written; the first [Write] writes the status 200 when none is. *)
Record ResponseWriter : Type := mkResponseWriter {
  header : gmap string string;
  status : option Z;
  body : string
}.

Definition Header_Set (key value : string) (w : ResponseWriter) : ResponseWriter :=
  mkResponseWriter (<[key := value]> (header w)) (status w) (body w).

Definition WriteHeader (code : Z) (w : ResponseWriter) : ResponseWriter :=
  match status w with
  | Some _ => w
  | None => mkResponseWriter (header w) (Some code) (body w)
  end.

Definition Write (data : string) (w : ResponseWriter) : ResponseWriter :=
  let w := WriteHeader StatusOK w in
  mkResponseWriter (header w) (status w) (body w +:+ data).

(** An entry of the logger of the handlers, at the error level: the error,
    the string fields and the message (empty for [Send]). *)
Record LogEntry : Type := mkLogEntry {
  entry_err : error;
  entry_fields : list (string * string);
  entry_msg : string
}.

(** The image store, [img.Store]: what its two methods answer. *)
Record Store : Type := mkStore {
  GetImage : string -> string -> string + error;
  Store_SaveImage : string -> string + error
}.

(** Functions and values of other packages: [hub.ErrNotFound], [svg.Is],
    [http.DetectContentType] and [helpers.BuildCacheControlHeader]. *)
Record Externals : Type := mkExternals {
  ErrNotFound : error;
  svg_Is : string -> bool;
  DetectContentType : string -> string;
  BuildCacheControlHeader : Z -> string
}.

(** The state of a [Handlers] instance: the cache of images, and what it
    has asked of the store ([GetImage] with an id and a version, newest call
    first) and written to its logger.  The mutex guards the cache, an
    access at a time. *)
Record Handlers : Type := mkHandlers {
  imagesCache : gmap string string;
  getImageCalls : list (string * string);
  logger : list LogEntry
}.

(** [NewHandlers], the index template apart: the cache is an empty map. *)
Definition NewHandlers : Handlers := mkHandlers ∅ [] [].

Definition set_imagesCache (c : gmap string string) (h : Handlers) : Handlers :=
  mkHandlers c (getImageCalls h) (logger h).
Definition add_getImageCall (imageID version : string) (h : Handlers) : Handlers :=
  mkHandlers (imagesCache h) ((imageID, version) :: getImageCalls h) (logger h).
Definition log_Error (e : LogEntry) (h : Handlers) : Handlers :=
  mkHandlers (imagesCache h) (getImageCalls h) (e :: logger h).

(** The image id and version a request names: the two parts of the
    parameter when splitting it at [@] gives two parts, the parameter as id
    and no version otherwise. *)
Definition image_parts (image : string) : string * string :=
  match strings_Split image "@"%char with
  | [imageID; version] => (imageID, version)
  | _ => (image, EmptyString)
  end.

(** [Image] is an http handler that serves images stored in the database;
    [image] is the URL parameter of the request. *)
Definition Image (ext : Externals) (store : Store) (image : string)
    (h : Handlers) (w : ResponseWriter) : Handlers * ResponseWriter :=
  (* Extract image id and version *)
  let '(imageID, version) := image_parts image in
  (* Check if image version data is cached *)
  let '(h, w, found) :=
    match imagesCache h !! image with
    | Some data => (h, w, Some data)
    | None =>
        (* Get image data from database *)
        let h := add_getImageCall imageID version h in
        match GetImage store imageID version with
        | inr err =>
            if errors.Is (Some err) (ErrNotFound ext)
            then (h, WriteHeader StatusNotFound w, None)
            else (log_Error (mkLogEntry err [("method", "Image"); ("imageID", imageID)]
                               EmptyString) h,
                  WriteHeader StatusInternalServerError w, None)
        | inl data =>
            (* Save image data in cache *)
            (set_imagesCache (<[image := data]> (imagesCache h)) h, w, Some data)
        end
    end in
  match found with
  | None => (h, w)
  | Some data =>
      (* Set headers and write image data to response writer *)
      let w := Header_Set "Cache-Control" (BuildCacheControlHeader ext StaticCacheMaxAge) w in
      let w :=
        if svg_Is ext data then Header_Set "Content-Type" "image/svg+xml" w
        else Header_Set "Content-Type" (DetectContentType ext data) w in
      (h, Write data w)
  end.

(** What [helpers.RenderJSON] and [helpers.RenderErrorJSON] are called
    with. *)
Inductive Rendered : Type :=
| RenderJSON (dataJSON : string) (cacheMaxAge : Z) (code : Z)
| RenderErrorJSON (err : error).

(** [SaveImage] is an http handler that stores the provided image returning
    its id; [reqBody] is what reading the body of the request gives. *)
Definition SaveImage (store : Store) (reqBody : string + error) (h : Handlers)
  : Handlers * Rendered :=
  match reqBody with
  | inr err =>
      (log_Error (mkLogEntry err [("method", "SaveImage")] "error reading body data") h,
       RenderErrorJSON err)
  | inl data =>
      match Store_SaveImage store data with
      | inr err =>
          (log_Error (mkLogEntry err [("method", "SaveImage")] EmptyString) h,
           RenderErrorJSON err)
      | inl imageID =>
          (h, RenderJSON (text "{'image_id': '" +:+ imageID +:+ text "'}") 0 StatusOK)
      end
  end.

(** ** Predicates the statements are written with *)

(** The response to a request for an image whose data is [data]. *)
Definition image_response (ext : Externals) (data : string) (w : ResponseWriter)
  : ResponseWriter :=
  Write data
    (Header_Set "Content-Type"
       (if svg_Is ext data then "image/svg+xml" else DetectContentType ext data)
       (Header_Set "Cache-Control" (BuildCacheControlHeader ext StaticCacheMaxAge) w)).

(** The response the store commands for an image, without any cache. *)
Definition store_response (ext : Externals) (store : Store) (image : string)
    (w : ResponseWriter) : ResponseWriter :=
  match GetImage store (image_parts image).1 (image_parts image).2 with
  | inl data => image_response ext data w
  | inr err =>
      WriteHeader (if errors.Is (Some err) (ErrNotFound ext)
                   then StatusNotFound else StatusInternalServerError) w
  end.

(** Every image the cache holds is the one the store holds. *)
Definition fresh (store : Store) (h : Handlers) : Prop :=
  forall image data,
    imagesCache h !! image = Some data ->
    GetImage store (image_parts image).1 (image_parts image).2 = inl data.

(** A sequence of requests, each with a response writer of its own. *)
Fixpoint Images (ext : Externals) (store : Store) (images : list string)
    (h : Handlers) : Handlers * list ResponseWriter :=
  match images with
  | [] => (h, [])
  | image :: rest =>
      let '(h1, w1) := Image ext store image h (mkResponseWriter ∅ None EmptyString) in
      let '(h2, ws) := Images ext store rest h1 in
      (h2, w1 :: ws)
  end.

(** Instances for the examples. *)
Definition ext0 : static.Externals :=
  mkExternals (errors.sentinel 3 "not found")
    (fun data => String.prefix "<svg" data)
    (fun data => "application/octet-stream")
    (fun maxAge => "max-age=" +:+ print_int (maxAge / Second)).

Definition store0 : Store :=
  mkStore
    (fun imageID version =>
       if String.eqb imageID "logo-1" then inl "<svg></svg>"
       else if String.eqb imageID "boom" then inr (errors.errorString "connection reset")
       else inr (errors.wrapError "image: not found" (errors.sentinel 3 "not found")))
    (fun data => inl "0f5d7a9e").

Definition store_down : Store :=
  mkStore (fun imageID version => inr (errors.errorString "connection reset"))
    (fun data => inr (errors.errorString "connection reset")).

Definition w0 : ResponseWriter := mkResponseWriter ∅ None EmptyString.

End static.

(** * Package static: the file server *)

Module fileserver.

(** [strings.ContainsAny(s, chars)]. *)
Fixpoint strings_ContainsAny (s : string) (chars : list ascii) : bool :=
  match s with
  | EmptyString => false
  | String c s' => existsb (Ascii.eqb c) chars || strings_ContainsAny s' chars
  end.

(** [s[len(s)-1]]: the last byte of a string, [None] for the empty string,
    where the index is out of range. *)
Fixpoint last_byte (s : string) : option ascii :=
  match s with
  | EmptyString => None
  | String c s' =>
      match s' with
      | EmptyString => Some c
      | String _ _ => last_byte s'
      end
  end.

(** [strings.CutPrefix(s, prefix)]. *)
Fixpoint strings_CutPrefix (s prefix : string) : option string :=
  match prefix with
  | EmptyString => Some s
  | String p prefix' =>
      match s with
      | EmptyString => None
      | String c s' => if Ascii.eqb c p then strings_CutPrefix s' prefix' else None
      end
  end.

(** [strings.Replace(s, old, new, 1)]: the first occurrence of [old] in [s]
    is replaced. *)
Fixpoint strings_Replace1 (s old new : string) : string :=
  match strings_CutPrefix s old with
  | Some rest => new +:+ rest
  | None =>
      match s with
      | EmptyString => EmptyString
      | String c s' => String c (strings_Replace1 s' old new)
      end
  end.

(** The handlers [FileServer] registers: a redirect, and the function
    literal that serves the files, with the variables it closes over. *)
Inductive Handler : Type :=
| RedirectHandler (url : string) (code : Z)
| FilesHandler (public static : string) (cacheMaxAge : Z).

(** A route of the router, as [r.Get(pattern, handler)] adds it. *)
Record Route : Type := mkRoute {
  pattern : string;
  handler : Handler
}.

Definition StatusMovedPermanently : Z := 301.

(** Whether a pattern begins with a slash. *)
Definition begins_with_slash (pattern : string) : bool :=
  match pattern with
  | EmptyString => false
  | String c _ => Ascii.eqb c "/"
  end.

(** [r.Get(pattern, handler)] on the router of chi, its [Mux]: the route
    is added after those the router has.  The router panics on a pattern
    that is empty or does not begin with a slash; its other panics are for
    patterns with braces or with a star that is not their last character,
    which [FileServer] does not pass.  [None] is a panic. *)
Definition Get (routes : list Route) (pattern : string) (h : Handler)
  : option (list Route) :=
  if begins_with_slash pattern then Some (routes ++ [mkRoute pattern h])%list
  else None.

(** [FileServer] sets up a http.FileServer handler to serve static files.
    [routes] are the routes of the router, in the order they were added;
    [None] is a panic. *)
Definition FileServer (routes : list Route) (public static : string) (cacheMaxAge : Z)
  : option (list Route) :=
  if strings_ContainsAny public ["{"; "}"; "*"]%char then None
  else
    let files routes public :=
      Get routes (public +:+ "*") (FilesHandler public static cacheMaxAge) in
    let slash_missing :=
      if negb (String.eqb public "/")
      then match last_byte public with
           | Some c => Some (negb (Ascii.eqb c "/"))
           | None => None
           end
      else Some false in
    match slash_missing with
    | None => None
    | Some true =>
        match Get routes public
                (RedirectHandler (public +:+ "/") StatusMovedPermanently) with
        | None => None
        | Some routes =>
            let public := public +:+ "/" in
            files routes public
        end
    | Some false => files routes public
    end.

(** What the function literal calls: whether [os.Stat] reports that a
    path does not exist, the handler [http.StripPrefix] makes of the file
    server of a directory, and [helpers.BuildCacheControlHeader]. *)
Record Externals : Type := mkExternals {
  IsNotExist : string -> bool;
  fsHandler : string -> string -> string -> static.ResponseWriter -> static.ResponseWriter;
  BuildCacheControlHeader : Z -> string
}.

(** The function literal of [FileServer], for a request with the URI
    [requestURI]. *)
Definition ServeFiles (ext : Externals) (public static : string) (cacheMaxAge : Z)
    (requestURI : string) (w : static.ResponseWriter) : static.ResponseWriter :=
  let file := strings_Replace1 requestURI public "/" in
  if IsNotExist ext (static +:+ file) then static.WriteHeader static.StatusNotFound w
  else
    let w := static.Header_Set "Cache-Control" (BuildCacheControlHeader ext cacheMaxAge) w in
    fsHandler ext public static requestURI w.

End fileserver.

(** * Properties *)

(** ** The state monad *)

Lemma bind_Ok {A B} (m : M A) (k : A -> M B) w0 r w1 :
  bind m k w0 = Ok r w1 ->
  exists a w', m w0 = Ok a w' /\ k a w' = Ok r w1.
Proof.
  unfold bind. destruct (m w0) as [a w'|w']; [eauto | discriminate].
Qed.

(** ** Delivery leaves the table, the transaction and the log alone *)

Lemma delivers_refl w : delivers w w.
Proof. repeat split. exists []. split; [reflexivity | constructor]. Qed.

Lemma delivers_trans w0 w1 w2 : delivers w0 w1 -> delivers w1 w2 -> delivers w0 w2.
Proof.
  intros (Ht & Hx & Hl & l1 & Hc1 & F1) (Ht' & Hx' & Hl' & l2 & Hc2 & F2).
  repeat split; try congruence.
  exists (l2 ++ l1)%list. split.
  - rewrite Hc2, Hc1. now rewrite app_assoc.
  - apply Forall_app; auto.
Qed.

Lemma delivering_ret {A} (a : A) : delivering (ret a).
Proof. intros w0 r w1 H. inversion H; subst. apply delivers_refl. Qed.

Lemma delivering_panic {A} : delivering (@panic A).
Proof. intros w0 r w1 H. discriminate. Qed.

Lemma delivering_bind {A B} (m : M A) (k : A -> M B) :
  delivering m -> (forall a, delivering (k a)) -> delivering (bind m k).
Proof.
  intros Hm Hk w0 r w1 H. apply bind_Ok in H as (a & w' & H1 & H2).
  eapply delivers_trans; [eapply Hm | eapply Hk]; eassumption.
Qed.

Lemma delivering_cache_Get k : delivering (cache_Get k).
Proof. intros w0 r w1 H. inversion H; subst. apply delivers_refl. Qed.

Lemma delivering_cache_SetDefault k v : delivering (cache_SetDefault k v).
Proof.
  intros w0 r w1 H. inversion H; subst.
  repeat split. exists []. split; [reflexivity | constructor].
Qed.

Lemma delivering_call c : delivery_call c -> delivering (call c).
Proof.
  intros Hc w0 r w1 H. inversion H; subst.
  repeat split. exists [c]. split; [reflexivity | repeat constructor; exact Hc].
Qed.

(** Steps through a computation, one construct at a time. *)
Ltac delivering_step :=
  first
    [ apply delivering_ret
    | apply delivering_panic
    | apply delivering_cache_Get
    | apply delivering_cache_SetDefault
    | apply delivering_call; exact I
    | apply delivering_bind; [ | intros ? ]
    | match goal with
      | |- delivering (match ?x with _ => _ end) => destruct x
      end
    | progress cbv zeta ].

Lemma delivering_preparePkg ext w e :
  delivering (preparePkgNotificationTemplateData ext w e).
Proof. unfold preparePkgNotificationTemplateData. repeat delivering_step. Qed.

Lemma delivering_prepareRepo ext w e :
  delivering (prepareRepoNotificationTemplateData ext w e).
Proof. unfold prepareRepoNotificationTemplateData. repeat delivering_step. Qed.

Lemma delivering_prepareRepoEmail ext w e subject tmpl :
  delivering (prepareRepoEmail ext w e subject tmpl).
Proof.
  unfold prepareRepoEmail.
  apply delivering_bind; [apply delivering_prepareRepo | intros r].
  repeat delivering_step.
Qed.

Lemma delivering_prepareEmailData ext w e :
  delivering (prepareEmailData ext w e).
Proof.
  unfold prepareEmailData. destruct (hub.Kind e);
    try apply delivering_prepareRepoEmail; [ | apply delivering_ret].
  apply delivering_bind; [apply delivering_preparePkg | intros r].
  repeat delivering_step.
Qed.

Lemma delivering_deliverEmailNotification ext w n u es :
  delivering (deliverEmailNotification ext w n u es).
Proof.
  unfold deliverEmailNotification. cbv zeta.
  apply delivering_bind; [apply delivering_cache_Get | intros cValue].
  apply delivering_bind.
  - destruct cValue as [[d|p|r]|];
      [apply delivering_ret | apply delivering_panic | apply delivering_panic | ].
    apply delivering_bind; [apply delivering_prepareEmailData | intros r].
    repeat delivering_step.
  - intros got. repeat delivering_step.
Qed.

Lemma delivering_deliverWebhookNotification ext w n wh :
  delivering (deliverWebhookNotification ext w n wh).
Proof.
  unfold deliverWebhookNotification.
  apply delivering_bind; [apply delivering_preparePkg | intros r].
  repeat delivering_step.
Qed.

Lemma delivering_dispatch ext w n : delivering (dispatch ext w n).
Proof.
  unfold dispatch.
  destruct (hub.NUser n) as [u|], (hub.NWebhook n) as [wh|];
    try destruct (ES (svc w)) as [es|];
    auto using delivering_ret, delivering_deliverEmailNotification,
      delivering_deliverWebhookNotification.
Qed.

(** ** The transactional step, path by path *)

Section ProcessNotification.

Variable ext : Externals.
Variable w : Worker.
Variable world : World.
Variable n : hub.Notification.

Hypothesis begin_ok : BeginErr (svc w) = None.
Hypothesis get_pending_ok : GetPendingErr (svc w) = None.
Hypothesis pending : oldest_pending (table world) = Some n.

(** The transaction function claims [n] and dispatches it. *)
Lemma processNotification_tx_claims :
  processNotification_tx ext w (set_tx (table world) (add_call CallBegin world)) =
  bind (dispatch ext w n)
    (fun err =>
       if errors.Is err ErrRetryable then
         match err with
         | Some e =>
             log_Error e "processNotification: error delivering notification";;;
             ret err
         | None => ret err
         end
       else
         err <- UpdateStatus (svc w) (hub.NotificationID n) true err;;
         match err with
         | Some e =>
             log_Error e "processNotification: error updating notification status";;;
             ret None
         | None => ret None
         end) (claimed world).
Proof.
  unfold processNotification_tx, GetPending, bind at 1 2 3, call, modify, gets, ret.
  rewrite get_pending_ok. cbn. rewrite pending. reflexivity.
Qed.

(** A retryable delivery error: logged and returned, the transaction is
    rolled back. *)
Lemma processNotification_retry e w1 :
  dispatch ext w n (claimed world) = Ok (Some e) w1 ->
  errors.Is (Some e) ErrRetryable = true ->
  processNotification ext w world =
  Ok (Some e)
    (add_call CallRollback
       (add_log (mkLogEntry e "processNotification: error delivering notification") w1)).
Proof.
  intros Hd Hr. unfold processNotification, DBTransact. cbv zeta.
  change (table (add_call CallBegin world)) with (table world).
  rewrite begin_ok, processNotification_tx_claims.
  unfold bind at 1. rewrite Hd, Hr. reflexivity.
Qed.

(** Any other outcome of the delivery, the status update working: the
    status is updated and the transaction takes the commit path. *)
Lemma processNotification_finalise err w1 :
  dispatch ext w n (claimed world) = Ok err w1 ->
  errors.Is err ErrRetryable = false ->
  UpdateStatusErr (svc w) = None ->
  let text := match err with Some e => errors.Error e | None => EmptyString end in
  let w2 :=
    add_call CallCommit
      (set_tx (map (update_row (hub.NotificationID n) true text) (tx w1))
         (add_call (CallUpdateStatus (hub.NotificationID n) true err) w1)) in
  processNotification ext w world =
  match CommitErr (svc w) with
  | Some e => Ok (Some e) w2
  | None => Ok None (set_table (tx w2) w2)
  end.
Proof.
  intros Hd Hr Hu. unfold processNotification, DBTransact. cbv zeta.
  change (table (add_call CallBegin world)) with (table world).
  rewrite begin_ok, processNotification_tx_claims.
  unfold bind at 1. rewrite Hd, Hr.
  unfold UpdateStatus, bind, call, modify, ret. rewrite Hu. reflexivity.
Qed.

(** Any other outcome of the delivery, the status update failing: the
    failure is logged, and the transaction takes the commit path all the
    same. *)
Lemma processNotification_update_fails err w1 e :
  dispatch ext w n (claimed world) = Ok err w1 ->
  errors.Is err ErrRetryable = false ->
  UpdateStatusErr (svc w) = Some e ->
  let w2 :=
    add_call CallCommit
      (add_log (mkLogEntry e "processNotification: error updating notification status")
         (add_call (CallUpdateStatus (hub.NotificationID n) true err) w1)) in
  processNotification ext w world =
  match CommitErr (svc w) with
  | Some e' => Ok (Some e') w2
  | None => Ok None (set_table (tx w2) w2)
  end.
Proof.
  intros Hd Hr Hu. unfold processNotification, DBTransact. cbv zeta.
  change (table (add_call CallBegin world)) with (table world).
  rewrite begin_ok, processNotification_tx_claims.
  unfold bind at 1. rewrite Hd, Hr.
  unfold UpdateStatus, bind, call, modify, ret, log_Error. rewrite Hu. reflexivity.
Qed.

End ProcessNotification.

(** ** The table *)

Lemma oldest_pending_In rows n :
  oldest_pending rows = Some n ->
  exists r, In r rows /\ notification r = n /\ processed r = false.
Proof.
  induction rows as [|r rows IH]; simpl; [discriminate|].
  destruct (processed r) eqn:Hp.
  - intros H. destruct (IH H) as (r' & Hin & Hn & Hp'). eauto.
  - intros [= <-]. eauto.
Qed.

Lemma update_row_hit id proc text r :
  hub.NotificationID (notification r) = id ->
  update_row id proc text r = mkRow (notification r) proc text.
Proof.
  intros H. unfold update_row. now rewrite (proj2 (String.eqb_eq _ _) H).
Qed.

Lemma update_row_notification id proc text r :
  notification (update_row id proc text r) = notification r.
Proof. unfold update_row. now destruct (String.eqb _ _). Qed.

(** After the update every row of the notification is marked, and the row
    that was claimed is among them. *)
Lemma updated_rows rows n proc text :
  oldest_pending rows = Some n ->
  let rows' := map (update_row (hub.NotificationID n) proc text) rows in
  (forall r, In r rows' -> row_of n r -> processed r = proc /\ error_text r = text) /\
  In (mkRow n proc text) rows'.
Proof.
  intros Hp rows'. split.
  - intros r Hin Hr. apply in_map_iff in Hin as (r0 & <- & _).
    unfold row_of in Hr. rewrite update_row_notification in Hr.
    rewrite (update_row_hit _ _ _ _ Hr). split; reflexivity.
  - apply oldest_pending_In in Hp as (r0 & Hin & Hn & _).
    apply in_map_iff. exists r0. split; [|exact Hin].
    rewrite update_row_hit by now rewrite Hn. now rewrite Hn.
Qed.

(** ** Retryable failures *)

(** C1.  When the delivery of the claimed notification returns an error
    tagged retryable, [processNotification] returns that error: the
    transaction is rolled back, the only calls issued after the claim are
    those of the delivery itself (no status update, no commit), the table is
    left as it was, so the row keeps its processed flag and error text, and
    the notification is still the one a later iteration claims. *)
Theorem retryable_delivery_aborts ext w world n e w1 :
  BeginErr (svc w) = None ->
  GetPendingErr (svc w) = None ->
  oldest_pending (table world) = Some n ->
  dispatch ext w n (claimed world) = Ok (Some e) w1 ->
  errors.Is (Some e) ErrRetryable = true ->
  exists world',
    processNotification ext w world = Ok (Some e) world' /\
    (exists l,
       calls world' = (CallRollback :: l ++ CallGetPending :: CallBegin :: calls world)%list /\
       Forall delivery_call l) /\
    table world' = table world /\
    oldest_pending (table world') = Some n /\
    (exists r, In r (table world') /\ notification r = n /\ processed r = false).
Proof.
  intros Hb Hg Hp Hd Hr.
  destruct (delivering_dispatch ext w n _ _ _ Hd) as (Ht & _ & _ & l & Hc & Hl).
  eexists. split; [eapply processNotification_retry; eassumption|].
  cbn. rewrite Ht, Hc. cbn. repeat split; auto.
  - exists l. split; [reflexivity | exact Hl].
  - apply oldest_pending_In. exact Hp.
Qed.

Lemma retryable_delivery_aborts_witness :
  exists world',
    processNotification Examples.ext0
      (Examples.worker Examples.svc_pkg_down (Examples.http_status 200))
      (Examples.world_with Examples.n_webhook)
    = Ok (Some (errors.wrapError "retryable error: connection reset" ErrRetryable)) world' /\
    (exists l,
       calls world' = (CallRollback :: l ++ [CallGetPending; CallBegin])%list /\
       Forall delivery_call l) /\
    table world' = [mkRow Examples.n_webhook false ""] /\
    oldest_pending (table world') = Some Examples.n_webhook /\
    (exists r, In r (table world') /\ notification r = Examples.n_webhook /\
               processed r = false).
Proof.
  eapply (retryable_delivery_aborts Examples.ext0
            (Examples.worker Examples.svc_pkg_down (Examples.http_status 200))
            (Examples.world_with Examples.n_webhook) Examples.n_webhook).
  - reflexivity.
  - reflexivity.
  - reflexivity.
  - vm_compute. reflexivity.
  - reflexivity.
Defined.

(** ** Final outcomes *)

(** The commit path, shared by the statements below: after a delivery that
    returns no error or an error not tagged retryable, the status update is
    called and the transaction commits. *)
Lemma processNotification_commit_path ext w world n err w1 :
  BeginErr (svc w) = None ->
  GetPendingErr (svc w) = None ->
  oldest_pending (table world) = Some n ->
  dispatch ext w n (claimed world) = Ok err w1 ->
  errors.Is err ErrRetryable = false ->
  let text := match err with Some e => errors.Error e | None => EmptyString end in
  exists res world',
    processNotification ext w world = Ok res world' /\
    (exists l,
       calls world' =
         (CallCommit :: CallUpdateStatus (hub.NotificationID n) true err
            :: l ++ CallGetPending :: CallBegin :: calls world)%list /\
       Forall delivery_call l) /\
    (UpdateStatusErr (svc w) = None -> CommitErr (svc w) = None ->
     res = None /\
     table world' = map (update_row (hub.NotificationID n) true text) (table world) /\
     (forall r, In r (table world') -> row_of n r ->
                processed r = true /\ error_text r = text) /\
     In (mkRow n true text) (table world')).
Proof.
  intros Hb Hg Hp Hd Hr text.
  destruct (delivering_dispatch ext w n _ _ _ Hd) as (Ht & Hx & _ & l & Hc & Hl).
  destruct (UpdateStatusErr (svc w)) as [eu|] eqn:Hu.
  - pose proof (processNotification_update_fails ext w world n Hb Hg Hp err w1 eu Hd Hr Hu) as H.
    cbv zeta in H.
    destruct (CommitErr (svc w)); rewrite H; do 2 eexists; (split; [reflexivity|]);
      cbn; rewrite Hc; (split; [exists l; split; [reflexivity | exact Hl] | discriminate]).
  - pose proof (processNotification_finalise ext w world n Hb Hg Hp err w1 Hd Hr Hu) as H.
    cbv zeta in H.
    destruct (CommitErr (svc w)) as [ec|]; rewrite H; do 2 eexists; (split; [reflexivity|]);
      cbn; rewrite Hc; (split; [exists l; split; [reflexivity | exact Hl] |]).
    + discriminate.
    + intros _ _. rewrite Hx. cbn.
      destruct (updated_rows (table world) n true text Hp) as [Hall Hin].
      repeat split; auto; apply Hall; auto.
Qed.

(** C2.  When the delivery of the claimed notification returns no error or
    an error not tagged retryable, [processNotification] calls
    [UpdateStatus] for the notification with processed set and the delivery
    error, and then commits: no rollback.  When the store carries both out,
    it returns nil, every row of the notification is processed, and its
    error text is the message of the delivery error, empty on success. *)
Theorem final_outcome_marks_processed ext w world n err w1 :
  BeginErr (svc w) = None ->
  GetPendingErr (svc w) = None ->
  oldest_pending (table world) = Some n ->
  dispatch ext w n (claimed world) = Ok err w1 ->
  errors.Is err ErrRetryable = false ->
  let text := match err with Some e => errors.Error e | None => EmptyString end in
  exists res world',
    processNotification ext w world = Ok res world' /\
    (exists l,
       calls world' =
         (CallCommit :: CallUpdateStatus (hub.NotificationID n) true err
            :: l ++ CallGetPending :: CallBegin :: calls world)%list /\
       Forall delivery_call l) /\
    (UpdateStatusErr (svc w) = None -> CommitErr (svc w) = None ->
     res = None /\
     table world' = map (update_row (hub.NotificationID n) true text) (table world) /\
     (forall r, In r (table world') -> row_of n r ->
                processed r = true /\ error_text r = text) /\
     In (mkRow n true text) (table world')).
Proof. exact (processNotification_commit_path ext w world n err w1). Qed.

Lemma final_outcome_marks_processed_witness :
  exists res world',
    processNotification Examples.ext0
      (Examples.worker Examples.svc_ok (Examples.http_status 404))
      (Examples.world_with Examples.n_webhook) = Ok res world' /\
    (exists l,
       calls world' =
         (CallCommit
            :: CallUpdateStatus "n2" true
                 (Some (errors.errorString "unexpected status code: 404"))
            :: l ++ [CallGetPending; CallBegin])%list /\
       Forall delivery_call l) /\
    (@None error = None -> @None error = None ->
     res = None /\
     table world' = [mkRow Examples.n_webhook true "unexpected status code: 404"] /\
     (forall r, In r (table world') -> row_of Examples.n_webhook r ->
                processed r = true /\ error_text r = "unexpected status code: 404") /\
     In (mkRow Examples.n_webhook true "unexpected status code: 404") (table world')).
Proof.
  eapply (final_outcome_marks_processed Examples.ext0
            (Examples.worker Examples.svc_ok (Examples.http_status 404))
            (Examples.world_with Examples.n_webhook) Examples.n_webhook
            (Some (errors.errorString "unexpected status code: 404"))).
  - reflexivity.
  - reflexivity.
  - reflexivity.
  - vm_compute. reflexivity.
  - reflexivity.
Defined.



(** ** Notifications with no sender or no target *)

(** C9.  For a notification that targets a user when no email sender is
    configured, the delivery error is [email.ErrSenderNotAvailable] itself,
    which is not tagged retryable: no email is sent, [UpdateStatus] is
    called with processed set and that error, the transaction commits, and
    when the store carries both out the notification is processed with the
    message of that error as its error text. *)
Theorem no_sender_is_terminal ext w world n u :
  BeginErr (svc w) = None ->
  GetPendingErr (svc w) = None ->
  oldest_pending (table world) = Some n ->
  hub.NUser n = Some u ->
  ES (svc w) = None ->
  errors.Is (Some email.ErrSenderNotAvailable) ErrRetryable = false /\
  dispatch ext w n (claimed world) = Ok (Some email.ErrSenderNotAvailable) (claimed world) /\
  exists res world',
    processNotification ext w world = Ok res world' /\
    calls world' =
      (CallCommit
         :: CallUpdateStatus (hub.NotificationID n) true (Some email.ErrSenderNotAvailable)
         :: CallGetPending :: CallBegin :: calls world)%list /\
    (UpdateStatusErr (svc w) = None -> CommitErr (svc w) = None ->
     res = None /\
     (forall r, In r (table world') -> row_of n r ->
                processed r = true /\
                error_text r = errors.Error email.ErrSenderNotAvailable) /\
     In (mkRow n true (errors.Error email.ErrSenderNotAvailable)) (table world')).
Proof.
  intros Hb Hg Hp Hu He.
  assert (Hd : dispatch ext w n (claimed world)
               = Ok (Some email.ErrSenderNotAvailable) (claimed world)).
  { unfold dispatch. rewrite Hu, He. reflexivity. }
  split; [reflexivity|]. split; [exact Hd|].
  destruct (UpdateStatusErr (svc w)) as [eu|] eqn:Hus.
  - pose proof (processNotification_update_fails ext w world n Hb Hg Hp _ _ eu Hd eq_refl Hus) as H.
    cbv zeta in H.
    destruct (CommitErr (svc w)); rewrite H; do 2 eexists;
      (split; [reflexivity|]); (split; [reflexivity | discriminate]).
  - pose proof (processNotification_finalise ext w world n Hb Hg Hp _ _ Hd eq_refl Hus) as H.
    cbv zeta in H.
    destruct (CommitErr (svc w)); rewrite H; do 2 eexists;
      (split; [reflexivity|]); (split; [reflexivity |]).
    + discriminate.
    + intros _ _. split; [reflexivity|]. cbn.
      exact (updated_rows (table world) n true _ Hp).
Qed.

Lemma no_sender_is_terminal_witness :
  errors.Is (Some email.ErrSenderNotAvailable) ErrRetryable = false /\
  dispatch Examples.ext0
    (Examples.worker Examples.svc_no_sender (Examples.http_status 200))
    Examples.n_email (claimed (Examples.world_with Examples.n_email))
  = Ok (Some email.ErrSenderNotAvailable) (claimed (Examples.world_with Examples.n_email)) /\
  exists res world',
    processNotification Examples.ext0
      (Examples.worker Examples.svc_no_sender (Examples.http_status 200))
      (Examples.world_with Examples.n_email) = Ok res world' /\
    calls world' =
      [CallCommit; CallUpdateStatus "n1" true (Some email.ErrSenderNotAvailable);
       CallGetPending; CallBegin] /\
    (@None error = None -> @None error = None ->
     res = None /\
     (forall r, In r (table world') -> row_of Examples.n_email r ->
                processed r = true /\ error_text r = "email sender not available") /\
     In (mkRow Examples.n_email true "email sender not available") (table world')).
Proof.
  eapply (no_sender_is_terminal Examples.ext0
            (Examples.worker Examples.svc_no_sender (Examples.http_status 200))
            (Examples.world_with Examples.n_email) Examples.n_email Examples.user1);
    reflexivity.
Defined.

(** C10.  For a claimed notification with neither a user nor a webhook,
    [processNotification] attempts no delivery: the only calls after the
    claim are the status update, with processed set and a nil error, and the
    commit.  When the store carries both out the notification is processed
    with an empty error text, as after a successful delivery. *)
Theorem no_target_is_marked_processed ext w world n :
  BeginErr (svc w) = None ->
  GetPendingErr (svc w) = None ->
  oldest_pending (table world) = Some n ->
  hub.NUser n = None ->
  hub.NWebhook n = None ->
  dispatch ext w n (claimed world) = Ok None (claimed world) /\
  exists res world',
    processNotification ext w world = Ok res world' /\
    calls world' =
      (CallCommit :: CallUpdateStatus (hub.NotificationID n) true None
         :: CallGetPending :: CallBegin :: calls world)%list /\
    (UpdateStatusErr (svc w) = None -> CommitErr (svc w) = None ->
     res = None /\
     (forall r, In r (table world') -> row_of n r ->
                processed r = true /\ error_text r = EmptyString) /\
     In (mkRow n true EmptyString) (table world')).
Proof.
  intros Hb Hg Hp Hu Hw.
  assert (Hd : dispatch ext w n (claimed world) = Ok None (claimed world)).
  { unfold dispatch. rewrite Hu, Hw. reflexivity. }
  split; [exact Hd|].
  destruct (UpdateStatusErr (svc w)) as [eu|] eqn:Hus.
  - pose proof (processNotification_update_fails ext w world n Hb Hg Hp _ _ eu Hd eq_refl Hus) as H.
    cbv zeta in H.
    destruct (CommitErr (svc w)); rewrite H; do 2 eexists;
      (split; [reflexivity|]); (split; [reflexivity | discriminate]).
  - pose proof (processNotification_finalise ext w world n Hb Hg Hp _ _ Hd eq_refl Hus) as H.
    cbv zeta in H.
    destruct (CommitErr (svc w)); rewrite H; do 2 eexists;
      (split; [reflexivity|]); (split; [reflexivity |]).
    + discriminate.
    + intros _ _. split; [reflexivity|]. cbn.
      exact (updated_rows (table world) n true _ Hp).
Qed.

Lemma no_target_is_marked_processed_witness :
  dispatch Examples.ext0
    (Examples.worker Examples.svc_ok (Examples.http_status 200))
    Examples.n_no_target (claimed (Examples.world_with Examples.n_no_target))
  = Ok None (claimed (Examples.world_with Examples.n_no_target)) /\
  exists res world',
    processNotification Examples.ext0
      (Examples.worker Examples.svc_ok (Examples.http_status 200))
      (Examples.world_with Examples.n_no_target) = Ok res world' /\
    calls world' =
      [CallCommit; CallUpdateStatus "n3" true None; CallGetPending; CallBegin] /\
    (@None error = None -> @None error = None ->
     res = None /\
     (forall r, In r (table world') -> row_of Examples.n_no_target r ->
                processed r = true /\ error_text r = EmptyString) /\
     In (mkRow Examples.n_no_target true EmptyString) (table world')).
Proof.
  eapply (no_target_is_marked_processed Examples.ext0
            (Examples.worker Examples.svc_ok (Examples.http_status 200))
            (Examples.world_with Examples.n_no_target) Examples.n_no_target);
    reflexivity.
Defined.

(** ** Failures of the webhook call *)

(** Once the template data is prepared and the payload rendered, the
    outcome of the webhook delivery is that of the POST. *)
Lemma deliverWebhookNotification_posts ext w n wh w0 d w1 payload :
  preparePkgNotificationTemplateData ext w (hub.NEvent n) w0 = Ok (inl d) w1 ->
  renders ext wh d payload ->
  NewRequest_ok ext (hub.URL wh) = true ->
  deliverWebhookNotification ext w n wh w0 =
  Ok (match httpClient w (webhook_request wh payload) with
      | inr err => Some err
      | inl resp =>
          if StatusCode resp >=? 400
          then Some (errors.errorString
                 ("unexpected status code: " +:+ print_int (StatusCode resp)))
          else None
      end)
     (add_call (CallHTTPDo (webhook_request wh payload)) w1).
Proof.
  intros Hp Hr Hn. unfold deliverWebhookNotification, bind at 1. rewrite Hp.
  unfold renders in Hr. unfold webhook_request.
  destruct (String.eqb (hub.Template wh) EmptyString); cbn [negb].
  - subst payload. rewrite Hn. cbn [negb]. unfold bind, call, modify, ret.
    destruct (httpClient w _) as [resp|err]; [|reflexivity].
    destruct (StatusCode resp >=? 400); reflexivity.
  - destruct Hr as (execute & -> & ->). rewrite Hn. cbn [negb].
    unfold bind, call, modify, ret.
    destruct (httpClient w _) as [resp|err]; [|reflexivity].
    destruct (StatusCode resp >=? 400); reflexivity.
Qed.

(** C3 (as amended).  For a webhook notification whose POST fails at the
    transport level, with an error that does not itself carry the retryable
    tag, or receives a status code of 400 or more, the delivery error is
    returned as it is: the error of the transport in the first case, an
    error whose text is made of the status code in the second.  It is not
    tagged retryable, so [UpdateStatus] is called with processed set and
    that error, and when the store carries the update and the commit out the
    notification is processed with the text of that error. *)
Theorem webhook_http_failure_is_terminal ext w world n wh d w1 payload failure :
  BeginErr (svc w) = None ->
  GetPendingErr (svc w) = None ->
  oldest_pending (table world) = Some n ->
  hub.NUser n = None ->
  hub.NWebhook n = Some wh ->
  preparePkgNotificationTemplateData ext w (hub.NEvent n) (claimed world) = Ok (inl d) w1 ->
  renders ext wh d payload ->
  NewRequest_ok ext (hub.URL wh) = true ->
  http_failure (httpClient w (webhook_request wh payload)) failure ->
  errors.Is (Some failure) ErrRetryable = false /\
  dispatch ext w n (claimed world) =
    Ok (Some failure) (add_call (CallHTTPDo (webhook_request wh payload)) w1) /\
  exists res world',
    processNotification ext w world = Ok res world' /\
    (exists l,
       calls world' =
         (CallCommit :: CallUpdateStatus (hub.NotificationID n) true (Some failure)
            :: l ++ CallGetPending :: CallBegin :: calls world)%list /\
       Forall delivery_call l) /\
    (UpdateStatusErr (svc w) = None -> CommitErr (svc w) = None ->
     res = None /\
     (forall r, In r (table world') -> row_of n r ->
                processed r = true /\ error_text r = errors.Error failure) /\
     In (mkRow n true (errors.Error failure)) (table world')).
Proof.
  intros Hb Hg Hp Hu Hw Hd Hr Hn Hf.
  assert (Hdis : dispatch ext w n (claimed world) =
                 Ok (Some failure) (add_call (CallHTTPDo (webhook_request wh payload)) w1)).
  { unfold dispatch. rewrite Hu, Hw.
    rewrite (deliverWebhookNotification_posts ext w n wh _ d w1 payload Hd Hr Hn).
    destruct Hf as [e -> _ | resp -> Hs]; [reflexivity|].
    now rewrite (proj2 (Z.geb_le _ _) Hs). }
  assert (Hret : errors.Is (Some failure) ErrRetryable = false).
  { destruct Hf as [e _ He | resp _ _]; [exact He | reflexivity]. }
  split; [exact Hret|]. split; [exact Hdis|].
  destruct (processNotification_commit_path ext w world n _ _ Hb Hg Hp Hdis Hret)
    as (res & world' & Hproc & Hcalls & Hstore).
  exists res, world'. split; [exact Hproc|]. split; [exact Hcalls|].
  intros H1 H2. destruct (Hstore H1 H2) as (? & _ & ? & ?). auto.
Qed.

Lemma webhook_http_failure_is_terminal_witness :
  errors.Is (Some (errors.errorString "unexpected status code: 500")) ErrRetryable = false /\
  dispatch Examples.ext0
    (Examples.worker Examples.svc_ok (Examples.http_status 500))
    Examples.n_webhook (claimed (Examples.world_with Examples.n_webhook)) =
  Ok (Some (errors.errorString "unexpected status code: 500"))
    (add_call
       (CallHTTPDo (webhook_request Examples.webhook1
                      (DefaultWebhookPayloadTmpl Examples.data_etcd)))
       (Examples.world_prepared Examples.n_webhook)) /\
  exists res world',
    processNotification Examples.ext0
      (Examples.worker Examples.svc_ok (Examples.http_status 500))
      (Examples.world_with Examples.n_webhook) = Ok res world' /\
    (exists l,
       calls world' =
         (CallCommit
            :: CallUpdateStatus "n2" true
                 (Some (errors.errorString "unexpected status code: 500"))
            :: l ++ [CallGetPending; CallBegin])%list /\
       Forall delivery_call l) /\
    (@None error = None -> @None error = None ->
     res = None /\
     (forall r, In r (table world') -> row_of Examples.n_webhook r ->
                processed r = true /\ error_text r = "unexpected status code: 500") /\
     In (mkRow Examples.n_webhook true "unexpected status code: 500") (table world')).
Proof.
  apply (webhook_http_failure_is_terminal Examples.ext0
           (Examples.worker Examples.svc_ok (Examples.http_status 500))
           (Examples.world_with Examples.n_webhook) Examples.n_webhook
           Examples.webhook1 Examples.data_etcd
           (Examples.world_prepared Examples.n_webhook)
           (DefaultWebhookPayloadTmpl Examples.data_etcd)
           (errors.errorString "unexpected status code: 500")).
  - reflexivity.
  - reflexivity.
  - reflexivity.
  - reflexivity.
  - reflexivity.
  - vm_compute. reflexivity.
  - reflexivity.
  - reflexivity.
  - apply (status_failure _ (mkResponse 500)); [reflexivity | vm_compute; discriminate].
Defined.

(** C3 (as stated) fails: a status code of 500 and a refused connection
    both give an error that is not tagged retryable, and the notification
    is marked processed with the text of that error. *)
Lemma webhook_http_failure_counterexample :
  (exists w1 world',
     dispatch Examples.ext0
       (Examples.worker Examples.svc_ok (Examples.http_status 500))
       Examples.n_webhook (claimed (Examples.world_with Examples.n_webhook)) =
     Ok (Some (errors.errorString "unexpected status code: 500")) w1 /\
     errors.Is (Some (errors.errorString "unexpected status code: 500")) ErrRetryable
       = false /\
     processNotification Examples.ext0
       (Examples.worker Examples.svc_ok (Examples.http_status 500))
       (Examples.world_with Examples.n_webhook) = Ok None world' /\
     table world' = [mkRow Examples.n_webhook true "unexpected status code: 500"]) /\
  (exists w1 world',
     dispatch Examples.ext0
       (Examples.worker Examples.svc_ok Examples.http_refused)
       Examples.n_webhook (claimed (Examples.world_with Examples.n_webhook)) =
     Ok (Some (errors.errorString "dial tcp: connection refused")) w1 /\
     errors.Is (Some (errors.errorString "dial tcp: connection refused")) ErrRetryable
       = false /\
     processNotification Examples.ext0
       (Examples.worker Examples.svc_ok Examples.http_refused)
       (Examples.world_with Examples.n_webhook) = Ok None world' /\
     table world' = [mkRow Examples.n_webhook true "dial tcp: connection refused"]).
Proof.
  split; do 2 eexists; (split; [vm_compute; reflexivity|]); (split; [reflexivity|]);
    (split; [vm_compute; reflexivity | reflexivity]).
Qed.

(** ** Failures of the email templates *)

(** An error of the execution of the email body template is what
    [prepareEmailData] returns. *)
Lemma prepareEmailData_template_failure ext w e w0 err w1 :
  template_execution_fails ext w e w0 err w1 ->
  prepareEmailData ext w e w0 = Ok (inr err) w1.
Proof.
  intros [d Hk Hp Ht | d Hk Hp Ht | d Hk Hp Ht | d Hk Hp Ht];
    unfold prepareEmailData, prepareRepoEmail; rewrite Hk;
    unfold bind; rewrite Hp, Ht; reflexivity.
Qed.

(** [deliverEmailNotification] wraps every error of [prepareEmailData]
    as retryable. *)
Lemma deliverEmailNotification_wraps ext w n u es w0 err w1 :
  cache w0 !! cKey EmailDataKind (hub.EventID (hub.NEvent n)) = None ->
  prepareEmailData ext w (hub.NEvent n) w0 = Ok (inr err) w1 ->
  deliverEmailNotification ext w n u es w0 =
  Ok (Some (errors.wrapError
        ("retryable error: error preparing email data: " +:+ errors.Error err)
        ErrRetryable)) w1.
Proof.
  intros Hc Hp. unfold deliverEmailNotification, bind, cache_Get, gets.
  cbn [cKey] in Hc. rewrite Hc, Hp. reflexivity.
Qed.

(** C4 (as amended).  For an email notification whose email data is not in
    the cache, an error raised while executing the email body template of
    the kind of the event against the prepared template data is wrapped by
    [deliverEmailNotification] as retryable, under the text
    [retryable error: error preparing email data: ] followed by its
    message: [processNotification] returns it, the transaction is rolled
    back, no status update is made, and the notification is left
    unprocessed to be retried. *)
Theorem email_template_failure_is_retried ext w world n u es err w1 :
  BeginErr (svc w) = None ->
  GetPendingErr (svc w) = None ->
  oldest_pending (table world) = Some n ->
  hub.NUser n = Some u ->
  ES (svc w) = Some es ->
  cache world !! cKey EmailDataKind (hub.EventID (hub.NEvent n)) = None ->
  template_execution_fails ext w (hub.NEvent n) (claimed world) err w1 ->
  let e := errors.wrapError
             ("retryable error: error preparing email data: " +:+ errors.Error err)
             ErrRetryable in
  errors.Is (Some e) ErrRetryable = true /\
  dispatch ext w n (claimed world) = Ok (Some e) w1 /\
  exists world',
    processNotification ext w world = Ok (Some e) world' /\
    (exists l,
       calls world' = (CallRollback :: l ++ CallGetPending :: CallBegin :: calls world)%list /\
       Forall delivery_call l) /\
    table world' = table world /\
    oldest_pending (table world') = Some n.
Proof.
  intros Hb Hg Hp Hu He Hc Hf e.
  assert (Hd : dispatch ext w n (claimed world) = Ok (Some e) w1).
  { unfold dispatch. rewrite Hu, He.
    apply deliverEmailNotification_wraps; [exact Hc|].
    apply prepareEmailData_template_failure. exact Hf. }
  split; [reflexivity|]. split; [exact Hd|].
  destruct (delivering_dispatch ext w n _ _ _ Hd) as (Ht & _ & _ & l & Hcl & Hl).
  eexists. split; [eapply processNotification_retry; try eassumption; reflexivity|].
  cbn. rewrite Ht, Hcl. cbn. repeat split; auto.
  exists l. split; [reflexivity | exact Hl].
Qed.

Lemma email_template_failure_is_retried_witness :
  let e := errors.wrapError
             "retryable error: error preparing email data: template: executing: no such field"
             ErrRetryable in
  errors.Is (Some e) ErrRetryable = true /\
  dispatch Examples.ext_bad_tmpl
    (Examples.worker Examples.svc_ok (Examples.http_status 200))
    Examples.n_email (claimed (Examples.world_with Examples.n_email))
  = Ok (Some e) (Examples.world_prepared Examples.n_email) /\
  exists world',
    processNotification Examples.ext_bad_tmpl
      (Examples.worker Examples.svc_ok (Examples.http_status 200))
      (Examples.world_with Examples.n_email) = Ok (Some e) world' /\
    (exists l,
       calls world' = (CallRollback :: l ++ [CallGetPending; CallBegin])%list /\
       Forall delivery_call l) /\
    table world' = [mkRow Examples.n_email false ""] /\
    oldest_pending (table world') = Some Examples.n_email.
Proof.
  apply (email_template_failure_is_retried Examples.ext_bad_tmpl
           (Examples.worker Examples.svc_ok (Examples.http_status 200))
           (Examples.world_with Examples.n_email) Examples.n_email
           Examples.user1 (fun d => None)
           (errors.errorString "template: executing: no such field")
           (Examples.world_prepared Examples.n_email)).
  - reflexivity.
  - reflexivity.
  - reflexivity.
  - reflexivity.
  - reflexivity.
  - vm_compute. reflexivity.
  - apply (new_release_fails _ _ _ _ _ _ Examples.data_etcd).
    + reflexivity.
    + vm_compute. reflexivity.
    + reflexivity.
Defined.

(** C4 (as stated) fails: the execution of the release email template of
    the worker below fails, the delivery error is tagged retryable, and the
    notification is left unprocessed with no error recorded. *)
Lemma email_template_failure_counterexample :
  newReleaseEmailTmpl Examples.ext_bad_tmpl Examples.data_etcd =
    inr (errors.errorString "template: executing: no such field") /\
  exists e w1 world',
    dispatch Examples.ext_bad_tmpl
      (Examples.worker Examples.svc_ok (Examples.http_status 200))
      Examples.n_email (claimed (Examples.world_with Examples.n_email))
    = Ok (Some e) w1 /\
    errors.Is (Some e) ErrRetryable = true /\
    processNotification Examples.ext_bad_tmpl
      (Examples.worker Examples.svc_ok (Examples.http_status 200))
      (Examples.world_with Examples.n_email) = Ok (Some e) world' /\
    table world' = [mkRow Examples.n_email false ""] /\
    Forall (fun c => is_UpdateStatus c = false) (calls world').
Proof.
  split; [reflexivity|]. do 3 eexists.
  split; [vm_compute; reflexivity|]. split; [reflexivity|].
  split; [vm_compute; reflexivity|]. split; [reflexivity|].
  cbn. repeat constructor.
Qed.

(** ** The keys of the payload cache *)

(** Keys of different kinds or of different events are different. *)
Lemma cKey_inj k1 id1 k2 id2 :
  cKey k1 id1 = cKey k2 id2 -> k1 = k2 /\ id1 = id2.
Proof.
  destruct k1, k2; cbn; intros H; try discriminate; injection H; auto.
Qed.

Lemma caches_refl id w : caches id w w.
Proof. intros key. now left. Qed.

Lemma caches_trans id w0 w1 w2 :
  caches id w0 w1 -> caches id w1 w2 -> caches id w0 w2.
Proof.
  intros H1 H2 key. destruct (H2 key) as [E2|R2]; [|now right].
  destruct (H1 key) as [E1|(k & v & Hk & Hv & Hkind)].
  - left. congruence.
  - right. exists k, v. rewrite E2. auto.
Qed.

Lemma caching_ret id {A} (a : A) : caching id (ret a).
Proof. intros w0 r w1 H. inversion H; subst. apply caches_refl. Qed.

Lemma caching_panic id {A} : caching id (@panic A).
Proof. intros w0 r w1 H. discriminate. Qed.

Lemma caching_bind id {A B} (m : M A) (k : A -> M B) :
  caching id m -> (forall a, caching id (k a)) -> caching id (bind m k).
Proof.
  intros Hm Hk w0 r w1 H. apply bind_Ok in H as (a & w' & H1 & H2).
  eapply caches_trans; [eapply Hm | eapply Hk]; eassumption.
Qed.

Lemma caching_cache_Get id key : caching id (cache_Get key).
Proof. intros w0 r w1 H. inversion H; subst. apply caches_refl. Qed.

Lemma caching_call id c : caching id (call c).
Proof. intros w0 r w1 H. inversion H; subst. intros key. now left. Qed.

Lemma caching_cache_SetDefault id k v :
  kind_of v = k -> caching id (cache_SetDefault (cKey k id) v).
Proof.
  intros Hk w0 r w1 H. inversion H; subst. intros key. cbn.
  destruct (decide (cKey (kind_of v) id = key)) as [<-|Hne].
  - right. exists (kind_of v), v. rewrite lookup_insert_eq. auto.
  - left. now rewrite lookup_insert_ne.
Qed.

Ltac caching_step :=
  first
    [ apply caching_ret
    | apply caching_panic
    | apply caching_cache_Get
    | apply caching_call
    | apply (caching_cache_SetDefault _ PackageKind); reflexivity
    | apply (caching_cache_SetDefault _ RepositoryKind); reflexivity
    | apply (caching_cache_SetDefault _ EmailDataKind); reflexivity
    | apply caching_bind; [ | intros ? ]
    | match goal with
      | |- caching _ (match ?x with _ => _ end) => destruct x
      end
    | progress cbv zeta ].

Lemma caching_preparePkg ext w e :
  caching (hub.EventID e) (preparePkgNotificationTemplateData ext w e).
Proof. unfold preparePkgNotificationTemplateData. repeat caching_step. Qed.

Lemma caching_prepareRepo ext w e :
  caching (hub.EventID e) (prepareRepoNotificationTemplateData ext w e).
Proof. unfold prepareRepoNotificationTemplateData. repeat caching_step. Qed.

Lemma caching_prepareEmailData ext w e :
  caching (hub.EventID e) (prepareEmailData ext w e).
Proof.
  unfold prepareEmailData, prepareRepoEmail. destruct (hub.Kind e);
    try (apply caching_bind; [apply caching_prepareRepo | intros r];
         repeat caching_step);
    [ | apply caching_ret].
  apply caching_bind; [apply caching_preparePkg | intros r].
  repeat caching_step.
Qed.

Lemma caching_deliverEmailNotification ext w n u es :
  caching (hub.EventID (hub.NEvent n)) (deliverEmailNotification ext w n u es).
Proof.
  unfold deliverEmailNotification. cbv zeta.
  apply caching_bind; [apply caching_cache_Get | intros cValue].
  apply caching_bind.
  - destruct cValue as [[d|p|r]|];
      [apply caching_ret | apply caching_panic | apply caching_panic | ].
    apply caching_bind; [apply caching_prepareEmailData | intros r].
    repeat caching_step.
  - intros got. repeat caching_step.
Qed.

Lemma caching_deliverWebhookNotification ext w n wh :
  caching (hub.EventID (hub.NEvent n)) (deliverWebhookNotification ext w n wh).
Proof.
  unfold deliverWebhookNotification.
  apply caching_bind; [apply caching_preparePkg | intros r].
  repeat caching_step.
Qed.

Lemma caching_dispatch ext w n :
  caching (hub.EventID (hub.NEvent n)) (dispatch ext w n).
Proof.
  unfold dispatch.
  destruct (hub.NUser n) as [u|], (hub.NWebhook n) as [wh|];
    try destruct (ES (svc w)) as [es|];
    auto using caching_ret, caching_deliverEmailNotification,
      caching_deliverWebhookNotification.
Qed.

Lemma caches_well_kinded id w0 w1 :
  caches id w0 w1 -> well_kinded (cache w0) -> well_kinded (cache w1).
Proof.
  intros Hc Hw k id' v Hv.
  destruct (Hc (cKey k id')) as [E|(k' & v' & Hk & Hv' & Hkind)].
  - apply (Hw k id' v). congruence.
  - apply cKey_inj in Hk as [-> _]. congruence.
Qed.

(** C8 (as amended).  The keys of the payload cache are the namespaces
    [emailData.%], [package.%] and [repository.%], each ending with a percent
    sign, followed by the event id ([cKey]).  The three functions look their
    data up under the key of their kind and store it there on a miss; a
    delivery changes the cache under the keys of its event only, with data of
    the kind of the key, so a cache on which the type assertions succeed
    stays so.  For one event id the three keys are pairwise distinct, and
    keys of distinct event ids never collide. *)
Theorem cache_keys_are_namespaced ext w n :
  let e := hub.NEvent n in
  let id := hub.EventID e in
  (forall w0 p,
     cache w0 !! cKey PackageKind id = Some (CPackage p) ->
     exists d, preparePkgNotificationTemplateData ext w e w0 = Ok (inl d) w0) /\
  (forall w0 r,
     cache w0 !! cKey RepositoryKind id = Some (CRepository r) ->
     exists d, prepareRepoNotificationTemplateData ext w e w0 = Ok (inl d) w0) /\
  (forall u es w0 d,
     cache w0 !! cKey EmailDataKind id = Some (CEmailData d) ->
     deliverEmailNotification ext w n u es w0 =
     Ok (es (set_To (hub.Email u) d)) (add_call (CallSendEmail (set_To (hub.Email u) d)) w0)) /\
  (forall w0 p,
     cache w0 !! cKey PackageKind id = None ->
     PackageManager_Get (svc w) (hub.PackageID e) (hub.PackageVersion e) = inl p ->
     exists d w1,
       preparePkgNotificationTemplateData ext w e w0 = Ok (inl d) w1 /\
       cache w1 = <[cKey PackageKind id := CPackage p]> (cache w0)) /\
  (forall w0 r,
     cache w0 !! cKey RepositoryKind id = None ->
     RepositoryManager_GetByID (svc w) (hub.RepositoryID e) = inl r ->
     exists d w1,
       prepareRepoNotificationTemplateData ext w e w0 = Ok (inl d) w1 /\
       cache w1 = <[cKey RepositoryKind id := CRepository r]> (cache w0)) /\
  (forall u es w0 d w1,
     cache w0 !! cKey EmailDataKind id = None ->
     prepareEmailData ext w e w0 = Ok (inl d) w1 ->
     exists w2,
       deliverEmailNotification ext w n u es w0 = Ok (es (set_To (hub.Email u) d)) w2 /\
       cache w2 = <[cKey EmailDataKind id := CEmailData d]> (cache w1)) /\
  (forall w0 r w1,
     dispatch ext w n w0 = Ok r w1 ->
     caches id w0 w1 /\ (well_kinded (cache w0) -> well_kinded (cache w1))) /\
  (forall k1 k2, k1 <> k2 -> cKey k1 id <> cKey k2 id) /\
  (forall k1 k2 id1 id2, id1 <> id2 -> cKey k1 id1 <> cKey k2 id2).
Proof.
  cbv zeta. repeat apply conj.
  - intros w0 p H. cbn [cKey] in H. eexists.
    unfold preparePkgNotificationTemplateData, bind, cache_Get, gets, ret.
    rewrite H. reflexivity.
  - intros w0 r H. cbn [cKey] in H. eexists.
    unfold prepareRepoNotificationTemplateData, bind, cache_Get, gets, ret.
    rewrite H. reflexivity.
  - intros u es w0 d H. cbn [cKey] in H.
    unfold deliverEmailNotification, bind, cache_Get, gets, ret, call, modify.
    rewrite H. reflexivity.
  - intros w0 p H Hg. cbn [cKey] in H. do 2 eexists.
    unfold preparePkgNotificationTemplateData, bind, cache_Get, cache_SetDefault,
      gets, ret, call, modify.
    rewrite H, Hg. split; reflexivity.
  - intros w0 r H Hg. cbn [cKey] in H. do 2 eexists.
    unfold prepareRepoNotificationTemplateData, bind, cache_Get, cache_SetDefault,
      gets, ret, call, modify.
    rewrite H, Hg. split; reflexivity.
  - intros u es w0 d w1 H Hp. cbn [cKey] in H. eexists.
    unfold deliverEmailNotification, bind, cache_Get, cache_SetDefault,
      gets, ret, call, modify.
    rewrite H, Hp. split; reflexivity.
  - intros w0 r w1 H. pose proof (caching_dispatch ext w n w0 r w1 H) as Hc.
    split; [exact Hc | exact (caches_well_kinded _ _ _ Hc)].
  - intros k1 k2 Hne H. apply cKey_inj in H as [H _]. contradiction.
  - intros k1 k2 id1 id2 Hne H. apply cKey_inj in H as [_ H]. contradiction.
Qed.

Lemma cache_keys_are_namespaced_witness :
  (exists d w1,
     preparePkgNotificationTemplateData Examples.ext0
       (Examples.worker Examples.svc_ok (Examples.http_status 200))
       Examples.event1 (Examples.world_with Examples.n_webhook) = Ok (inl d) w1 /\
     cache w1 = <[cKey PackageKind "e1" := CPackage Examples.pkg_etcd]> ∅) /\
  cKey EmailDataKind "e1" <> cKey PackageKind "e1" /\
  cKey PackageKind "e1" <> cKey PackageKind "e2".
Proof.
  destruct (cache_keys_are_namespaced Examples.ext0
              (Examples.worker Examples.svc_ok (Examples.http_status 200))
              Examples.n_webhook)
    as (_ & _ & _ & Hstore & _ & _ & _ & Hkinds & Hids).
  split; [|split].
  - apply (Hstore (Examples.world_with Examples.n_webhook) Examples.pkg_etcd);
      reflexivity.
  - apply Hkinds. discriminate.
  - apply (Hids PackageKind PackageKind "e1" "e2"). discriminate.
Defined.

(** C8 (as stated) fails: the key is not the namespace followed by the
    event id.  With an empty cache the package of the event [e1] is stored
    under [package.%e1] and nothing is under [package.e1]; and a package
    cached under [package.e1] is not found: it is fetched again. *)
Lemma cache_key_counterexample :
  cKey PackageKind "e1" = "package.%e1" /\
  spec_key PackageKind "e1" = "package.e1" /\
  (exists d w1,
     preparePkgNotificationTemplateData Examples.ext0
       (Examples.worker Examples.svc_ok (Examples.http_status 200))
       Examples.event1 (Examples.world_with Examples.n_webhook) = Ok (inl d) w1 /\
     cache w1 !! "package.%e1" = Some (CPackage Examples.pkg_etcd) /\
     cache w1 !! spec_key PackageKind "e1" = None) /\
  (exists d w1,
     preparePkgNotificationTemplateData Examples.ext0
       (Examples.worker Examples.svc_ok (Examples.http_status 200))
       Examples.event1
       (set_cache (<[spec_key PackageKind "e1" := CPackage Examples.pkg_etcd]> ∅)
          (Examples.world_with Examples.n_webhook)) = Ok (inl d) w1 /\
     calls w1 = [CallPackageGet "pkg-1" "3.5.0"]).
Proof.
  split; [reflexivity|]. split; [reflexivity|].
  split; do 2 eexists; (split; [vm_compute; reflexivity|]).
  - split; vm_compute; reflexivity.
  - reflexivity.
Qed.

(** ** The pacing of the main loop *)

(** Closes a clause of [paced] once the outcome of the [select] is known. *)
Ltac paced_clause :=
  intros;
  repeat match goal with
         | H : Some _ = Some _ |- _ => injection H as <-
         | H : Continue _ = Continue _ |- _ => injection H as <-
         | H : Return _ = Return _ |- _ => injection H as <-
         end;
  cbn; try discriminate; try apply Z.leb_le; try (f_equal; f_equal); try lia.

Lemma select_default_paced cancelAt s next :
  In next (select_default cancelAt s) ->
  paced cancelAt (world s) (now s) 0 next.
Proof.
  unfold select_default, ctx_Done, paced. destruct s as [w' t]. cbn.
  destruct cancelAt as [c|].
  - destruct (Z.leb_spec c t); intros [<-|[]]; cbn;
      repeat split; paced_clause.
  - intros [<-|[]]; cbn; repeat split; paced_clause.
Qed.

Lemma select_pause_paced cancelAt d s next :
  0 <= d ->
  In next (select_pause cancelAt d s) ->
  paced cancelAt (world s) (now s) d next.
Proof.
  intros Hd. unfold select_pause, ctx_Done, paced. destruct s as [w' t]. cbn.
  destruct cancelAt as [c|].
  - destruct (Z.ltb_spec c (t + d)); [|destruct (Z.eqb_spec c (t + d))].
    + intros [<-|[]]; cbn; repeat split; paced_clause.
    + intros [<-|[<-|[]]]; cbn; repeat split; paced_clause.
    + intros [<-|[]]; cbn; repeat split; paced_clause.
  - intros [<-|[]]; cbn; repeat split; paced_clause.
Qed.

Lemma pause_after_nonneg err : 0 <= pause_after err.
Proof.
  unfold pause_after, pauseOnEmptyQueue, pauseOnError, Second.
  destruct err as [e|]; [destruct (errors.Is _ _)|]; lia.
Qed.

(** An iteration is paced by the pause of the outcome of its call. *)
Lemma Run_iteration_paced ext duration w cancelAt s err w' next :
  processNotification ext w (world s) = Ok err w' ->
  In next (Run_iteration ext duration w cancelAt s) ->
  paced cancelAt w' (now s + duration (world s)) (pause_after err) next.
Proof.
  intros Hp. unfold Run_iteration. rewrite Hp.
  pose proof (pause_after_nonneg err) as Hd. unfold pause_after in *.
  destruct err as [e|].
  - destruct (errors.Is (Some e) pgx.ErrNoRows);
      intros Hin; apply select_pause_paced in Hin; auto.
  - intros Hin. apply select_default_paced in Hin. exact Hin.
Qed.

Lemma Run_iteration_not_stuck ext duration w cancelAt s :
  Run_iteration ext duration w cancelAt s <> [].
Proof.
  unfold Run_iteration, select_default, select_pause.
  repeat match goal with
         | |- context [match ?x with _ => _ end] => destruct x
         end; discriminate.
Qed.



(** ** The default webhook payload is JSON *)

Section JSONFacts.

Import JSON Layout.

#[local] Arguments String.append !s1 s2 : simpl nomatch.

Lemma append_assoc (a b c : string) : (a +:+ b) +:+ c = a +:+ (b +:+ c).
Proof. induction a as [|x a IH]; cbn [String.append]; [reflexivity | now f_equal]. Qed.

Lemma length_append (a b : string) :
  String.length (a +:+ b) = (String.length a + String.length b)%nat.
Proof. induction a as [|x a IH]; simpl; [reflexivity | now rewrite IH]. Qed.

Lemma plain_append a b : plain a = true -> plain b = true -> plain (a +:+ b) = true.
Proof.
  induction a as [|x a IH]; cbn [String.append plain]; [auto|].
  intros H Hb. apply andb_prop in H as [Hx Ha]. rewrite Hx. cbn. auto.
Qed.

(** *** Strings *)

Lemma string_body_plain s rest :
  plain s = true ->
  string_body (s +:+ String dquote rest) = Some (s, rest).
Proof.
  induction s as [|c s IH]; simpl.
  - intros _. reflexivity.
  - intros H. apply andb_prop in H as [Hc Hs].
    unfold plain_char in Hc.
    apply andb_prop in Hc as [Hc H32]. apply andb_prop in Hc as [Hq Hb].
    apply negb_true_iff in Hq, Hb. rewrite Hq, Hb.
    apply N.leb_le in H32.
    destruct (N.ltb_spec (N_of_ascii c) 32) as [Hlt|_]; [lia|].
    rewrite (IH Hs). reflexivity.
Qed.

(** *** More fuel does not change a result *)

(** Case analysis on every [match] of a goal, innermost scrutinee first. *)
Ltac break_matches :=
  repeat match goal with
         | |- context [match ?x with _ => _ end] =>
             lazymatch x with
             | context [match _ with _ => _ end] => fail
             | _ => destruct x eqn:?
             end
         end.

Ltac extends_tac p q Hp Hq :=
  intros ? ?; break_matches; intros;
  repeat match goal with
         | E : p _ = Some _ |- _ => apply Hp in E
         | E : q _ = Some _ |- _ => apply Hq in E
         end;
  congruence.

Lemma value_step_extends m m' e e' :
  extends m m' -> extends e e' -> extends (value_step m e) (value_step m' e').
Proof. intros Hm He. unfold value_step. extends_tac m e Hm He. Qed.

Lemma members_step_extends v v' m m' :
  extends v v' -> extends m m' -> extends (members_step v m) (members_step v' m').
Proof. intros Hv Hm. unfold members_step. extends_tac v m Hv Hm. Qed.

Lemma elements_step_extends v v' e e' :
  extends v v' -> extends e e' -> extends (elements_step v e) (elements_step v' e').
Proof. intros Hv He. unfold elements_step. extends_tac v e Hv He. Qed.

Lemma parse_S f :
  extends (parse_value f) (parse_value (S f)) /\
  extends (parse_members f) (parse_members (S f)) /\
  extends (parse_elements f) (parse_elements (S f)).
Proof.
  induction f as [|f (IHv & IHm & IHe)].
  - repeat split; intros s r; discriminate.
  - repeat split.
    + apply (value_step_extends _ _ _ _ IHm IHe).
    + apply (members_step_extends _ _ _ _ IHv IHm).
    + apply (elements_step_extends _ _ _ _ IHv IHe).
Qed.

Lemma parse_value_le f f' s r :
  (f <= f')%nat -> parse_value f s = Some r -> parse_value f' s = Some r.
Proof.
  induction 1 as [|f' _ IH]; [auto|].
  intros H. apply (proj1 (parse_S f')). auto.
Qed.

(** *** White space *)

Lemma skip_ws_idem s : skip_ws (skip_ws s) = skip_ws s.
Proof.
  induction s as [|c s IH]; [reflexivity|].
  cbn [skip_ws]. destruct (is_ws c) eqn:E; [exact IH|].
  cbn [skip_ws]. now rewrite E.
Qed.

Lemma skip_ws_all_ws w s : all_ws w = true -> skip_ws (w +:+ s) = skip_ws s.
Proof.
  induction w as [|c w IH]; cbn [all_ws String.append skip_ws]; [reflexivity|].
  intros H. apply andb_prop in H as [Hc Hw]. rewrite Hc. auto.
Qed.

Lemma parse_value_skip f s : parse_value f (skip_ws s) = parse_value f s.
Proof.
  destruct f; [reflexivity|]. cbn [parse_value]. unfold value_step.
  now rewrite skip_ws_idem.
Qed.

Lemma parse_elements_skip f s : parse_elements f (skip_ws s) = parse_elements f s.
Proof.
  destruct f; [reflexivity|]. cbn [parse_elements]. unfold elements_step.
  now rewrite parse_value_skip.
Qed.

Lemma parse_value_all_ws f w s :
  all_ws w = true -> parse_value f (w +:+ s) = parse_value f s.
Proof.
  intros H. rewrite <- (parse_value_skip f (w +:+ s)), (skip_ws_all_ws w s H).
  apply parse_value_skip.
Qed.

(** A document starts with a character that is not white space. *)
Lemma skip_ws_print v k : skip_ws (print v k) = print v k.
Proof. destruct v as [s|[]|es|ms wc]; reflexivity. Qed.

(** *** The steps of the parser on the tokens of a document *)

Lemma value_step_string m e s rest :
  plain s = true ->
  value_step m e (String dquote (s +:+ String dquote rest)) = Some (Str s, rest).
Proof.
  intros H. unfold value_step.
  change (skip_ws (String dquote (s +:+ String dquote rest)))
    with (String dquote (s +:+ String dquote rest)).
  cbv iota.
  change (Ascii.eqb dquote "{") with false.
  change (Ascii.eqb dquote "[") with false.
  change (Ascii.eqb dquote dquote) with true.
  cbv iota. now rewrite (string_body_plain s rest H).
Qed.

Lemma value_step_bool m e b k :
  value_step m e (print_bool b +:+ k) = Some (Bool b, k).
Proof. destruct b; reflexivity. Qed.

Lemma value_step_empty_array m e s k :
  skip_ws s = String "]" k ->
  value_step m e (String "[" s) = Some (Array [], k).
Proof.
  intros H. unfold value_step.
  change (skip_ws (String "[" s)) with (String "[" s). cbv iota.
  change (Ascii.eqb "[" "{") with false. change (Ascii.eqb "[" "[") with true.
  cbv iota. rewrite H. reflexivity.
Qed.

Lemma value_step_array m e s v k :
  skip_ws s = print v k ->
  value_step m e (String "[" s) =
  match e (print v k) with
  | Some (vs, rest) => Some (Array vs, rest)
  | None => None
  end.
Proof.
  intros H. unfold value_step.
  change (skip_ws (String "[" s)) with (String "[" s). cbv iota.
  change (Ascii.eqb "[" "{") with false. change (Ascii.eqb "[" "[") with true.
  cbv iota. rewrite H. destruct v as [s0|[]|es|ms wc]; reflexivity.
Qed.

Lemma value_step_empty_object m e s k :
  skip_ws s = String "}" k ->
  value_step m e (String "{" s) = Some (Object [], k).
Proof.
  intros H. unfold value_step.
  change (skip_ws (String "{" s)) with (String "{" s). cbv iota.
  change (Ascii.eqb "{" "{") with true.
  cbv iota. rewrite H. reflexivity.
Qed.

Lemma value_step_object m e s x :
  skip_ws s = String dquote x ->
  value_step m e (String "{" s) =
  match m (String dquote x) with
  | Some (ms, rest) => Some (Object ms, rest)
  | None => None
  end.
Proof.
  intros H. unfold value_step.
  change (skip_ws (String "{" s)) with (String "{" s). cbv iota.
  change (Ascii.eqb "{" "{") with true.
  cbv iota. rewrite H. reflexivity.
Qed.

(** A member whose value parses, followed by the end of the object. *)
Lemma members_step_last pv pm name wcol rest1 v k' k :
  plain name = true ->
  all_ws wcol = true ->
  pv rest1 = Some (v, k') ->
  skip_ws k' = String "}" k ->
  members_step pv pm
    (String dquote (name +:+ String dquote (wcol +:+ String ":" rest1)))
  = Some ([(name, v)], k).
Proof.
  intros Hn Hw Hv Hk. unfold members_step.
  change (Ascii.eqb dquote dquote) with true. cbv iota.
  rewrite (string_body_plain _ _ Hn), (skip_ws_all_ws _ _ Hw).
  change (skip_ws (String ":" rest1)) with (String ":" rest1). cbv iota.
  change (Ascii.eqb ":" ":") with true. cbv iota.
  rewrite Hv, Hk. reflexivity.
Qed.

(** A member whose value parses, followed by a comma and more members. *)
Lemma members_step_more pv pm name wcol rest1 v k' rest3 :
  plain name = true ->
  all_ws wcol = true ->
  pv rest1 = Some (v, k') ->
  skip_ws k' = String "," rest3 ->
  members_step pv pm
    (String dquote (name +:+ String dquote (wcol +:+ String ":" rest1)))
  = match pm (skip_ws rest3) with
    | Some (ms, rest4) => Some ((name, v) :: ms, rest4)
    | None => None
    end.
Proof.
  intros Hn Hw Hv Hk. unfold members_step.
  change (Ascii.eqb dquote dquote) with true. cbv iota.
  rewrite (string_body_plain _ _ Hn), (skip_ws_all_ws _ _ Hw).
  change (skip_ws (String ":" rest1)) with (String ":" rest1). cbv iota.
  change (Ascii.eqb ":" ":") with true. cbv iota.
  rewrite Hv, Hk. reflexivity.
Qed.

Lemma elements_step_last pv pe s v k' k :
  pv s = Some (v, k') ->
  skip_ws k' = String "]" k ->
  elements_step pv pe s = Some ([v], k).
Proof. intros Hv Hk. unfold elements_step. rewrite Hv, Hk. reflexivity. Qed.

Lemma elements_step_more pv pe s v k' rest1 :
  pv s = Some (v, k') ->
  skip_ws k' = String "," rest1 ->
  elements_step pv pe s =
  match pe rest1 with
  | Some (vs, rest2) => Some (v :: vs, rest2)
  | None => None
  end.
Proof. intros Hv Hk. unfold elements_step. rewrite Hv, Hk. reflexivity. Qed.

(** *** Parsing what is printed *)

(** The parser reads a printed document back, with fuel for its size. *)
Lemma parse_print :
  (forall d k f,
     wf d = true -> (size d <= f)%nat ->
     parse_value f (print d k) = Some (erase d, k)) /\
  (forall es k f,
     wf_elems es = true -> es <> ENil -> (size_elems es <= f)%nat ->
     parse_elements f (print_elems es (String "]" k)) = Some (erase_elems es, k)) /\
  (forall ms wc k f,
     wf_members ms = true -> all_ws wc = true -> ms <> MNil ->
     (size_members ms <= f)%nat ->
     parse_members f (skip_ws (print_members ms wc k)) = Some (erase_members ms, k)).
Proof.
  apply doc_elems_members_ind.
  - (* a string *)
    intros s k f Hwf Hf. destruct f as [|f]; [cbn in Hf; lia|].
    cbn [parse_value print erase]. apply value_step_string. exact Hwf.
  - (* a boolean *)
    intros b k f _ Hf. destruct f as [|f]; [cbn in Hf; lia|].
    cbn [parse_value print erase]. apply value_step_bool.
  - (* an array *)
    intros es IH k f Hwf Hf. destruct f as [|f]; [cbn in Hf; lia|].
    cbn [size] in Hf. cbn [parse_value print erase wf] in *.
    destruct es as [|w v es'].
    + apply value_step_empty_array. reflexivity.
    + assert (Hskip : skip_ws (print_elems (ECons w v es') (String "]" k))
                      = print v match es' with
                                | ENil => String "]" k
                                | ECons _ _ _ => String "," (print_elems es' (String "]" k))
                                end).
      { cbn [print_elems wf_elems] in *.
        apply andb_prop in Hwf as [Hwf _]. apply andb_prop in Hwf as [Hw _].
        rewrite (skip_ws_all_ws _ _ Hw). apply skip_ws_print. }
      rewrite (value_step_array _ _ _ _ _ Hskip), <- Hskip, parse_elements_skip.
      rewrite (IH k f Hwf); [reflexivity | discriminate | lia].
  - (* an object *)
    intros ms IH wc k f Hwf Hf. destruct f as [|f]; [cbn in Hf; lia|].
    cbn [size] in Hf. cbn [parse_value print erase wf] in *.
    apply andb_prop in Hwf as [Hms Hwc].
    destruct ms as [|wn name wcol wv v ms'].
    + apply value_step_empty_object. cbn [print_members].
      now rewrite (skip_ws_all_ws _ _ Hwc).
    + assert (Hskip : exists x,
                skip_ws (print_members (MCons wn name wcol wv v ms') wc k)
                = String dquote x).
      { cbn [print_members wf_members] in *.
        repeat (apply andb_prop in Hms as [Hms ?]).
        rewrite (skip_ws_all_ws _ _ Hms). eexists. reflexivity. }
      destruct Hskip as [x Hskip].
      rewrite (value_step_object _ _ _ _ Hskip), <- Hskip.
      rewrite (IH wc k f Hms Hwc); [reflexivity | discriminate | lia].
  - (* no element *)
    intros k f _ Hne. contradiction.
  - (* an element and the following ones *)
    intros w v IHv es' IHes k f Hwf _ Hf. destruct f as [|f]; [cbn in Hf; lia|].
    cbn [size_elems] in Hf. cbn [parse_elements print_elems erase_elems wf_elems] in *.
    apply andb_prop in Hwf as [Hwf Hes]. apply andb_prop in Hwf as [Hw Hv].
    destruct es' as [|w' v' es2].
    + eapply elements_step_last.
      * rewrite (parse_value_all_ws _ _ _ Hw). apply IHv; [exact Hv | lia].
      * reflexivity.
    + erewrite elements_step_more.
      * rewrite (IHes k f Hes); [reflexivity | discriminate | lia].
      * rewrite (parse_value_all_ws _ _ _ Hw). apply IHv; [exact Hv | lia].
      * reflexivity.
  - (* no member *)
    intros wc k f _ _ Hne. contradiction.
  - (* a member and the following ones *)
    intros wn name wcol wv v IHv ms' IHms wc k f Hwf Hwc _ Hf.
    destruct f as [|f]; [cbn in Hf; lia|].
    cbn [size_members] in Hf.
    cbn [parse_members print_members erase_members wf_members] in *.
    apply andb_prop in Hwf as [Hwf Hms]. apply andb_prop in Hwf as [Hwf Hv].
    apply andb_prop in Hwf as [Hwf Hwv]. apply andb_prop in Hwf as [Hwf Hwcol].
    apply andb_prop in Hwf as [Hwn Hname].
    rewrite (skip_ws_all_ws _ _ Hwn).
    change (skip_ws (String dquote ?s)) with (String dquote s).
    destruct ms' as [|wn' name' wcol' wv' v' ms2].
    + eapply members_step_last; [exact Hname | exact Hwcol | |].
      * rewrite (parse_value_all_ws _ _ _ Hwv). apply IHv; [exact Hv | lia].
      * now rewrite (skip_ws_all_ws _ _ Hwc).
    + erewrite members_step_more; [| exact Hname | exact Hwcol | |].
      * rewrite (IHms wc k f Hms Hwc); [reflexivity | discriminate | lia].
      * rewrite (parse_value_all_ws _ _ _ Hwv). apply IHv; [exact Hv | lia].
      * reflexivity.
Qed.

(** *** The default template prints a document *)

(** Evaluates the closed texts of the template. *)
Ltac eval_texts :=
  repeat match goal with
         | |- context [text ?s] =>
             let v := eval vm_compute in (text s) in change (text s) with v
         end.

(** The body of the [range] prints the elements of the array of changes,
    after the comma that separates them from the previous element. *)
Lemma range_changes_print l :
  forall i k,
    range_changes i l +:+ k =
    match l with
    | [] => k
    | _ :: _ =>
        (if Nat.eqb i 0 then EmptyString else ",")
        +:+ print_elems (changes_elems i l) k
    end.
Proof.
  induction l as [|e l IH]; intros i k; [reflexivity|].
  cbn [range_changes changes_elems print_elems print].
  change (text ", ") with ", ". change (text "'") with (String dquote EmptyString).
  rewrite !append_assoc. cbn [String.append]. rewrite (IH (S i) k).
  destruct l as [|e' l]; destruct (Nat.eqb i 0); reflexivity.
Qed.

Lemma default_template_prints d :
  DefaultWebhookPayloadTmpl d =
  String LF (print (payload_doc d) (String LF EmptyString)).
Proof.
  destruct d as [base [id kind] [name version logo url changes sec pre [rk rn rp]]].
  unfold DefaultWebhookPayloadTmpl, payload_doc.
  cbn [hub.PEvent hub.PPackage hub.ev_id hub.ev_kind hub.pd_name hub.pd_version
       hub.pd_url hub.pd_changes hub.pd_containsSecurityUpdates hub.pd_prerelease
       hub.pd_repository hub.pr_kind hub.pr_name hub.pr_publisher].
  eval_texts. rewrite range_changes_print.
  cbn [print print_members print_elems indent tabs].
  rewrite !append_assoc.
  destruct changes as [|e l], sec, pre; reflexivity.
Qed.

Lemma wf_changes_elems l : forall i,
  forallb plain l = true -> wf_elems (changes_elems i l) = true.
Proof.
  induction l as [|e l IH]; intros i H; [reflexivity|].
  cbn [forallb] in H. apply andb_prop in H as [He Hl].
  cbn [changes_elems wf_elems wf]. rewrite He, (IH (S i) Hl).
  destruct (Nat.eqb i 0); reflexivity.
Qed.

Lemma erase_changes_elems l : forall i,
  erase_elems (changes_elems i l) = map Str l.
Proof.
  induction l as [|e l IH]; intros i; [reflexivity|].
  cbn [changes_elems erase_elems erase map]. now rewrite IH.
Qed.

Lemma size_changes_elems l : forall i,
  size_elems (changes_elems i l) = (2 * length l)%nat.
Proof.
  induction l as [|e l IH]; intros i; [reflexivity|].
  cbn [changes_elems size_elems size length]. rewrite IH. lia.
Qed.

Lemma length_range_changes l : forall i,
  (2 * length l <= String.length (range_changes i l))%nat.
Proof.
  induction l as [|e l IH]; intros i; [cbn; lia|].
  cbn [range_changes length]. rewrite !length_append.
  change (String.length (text "'")) with 1%nat.
  specialize (IH (S i)). lia.
Qed.

Lemma wf_payload_doc d : plain_data d = true -> wf (payload_doc d) = true.
Proof.
  destruct d as [base [id kind] [name version logo url changes sec pre [rk rn rp]]].
  unfold plain_data, payload_doc.
  cbn [hub.PEvent hub.PPackage hub.ev_id hub.ev_kind hub.pd_name hub.pd_version
       hub.pd_url hub.pd_changes hub.pd_containsSecurityUpdates hub.pd_prerelease
       hub.pd_repository hub.pr_kind hub.pr_name hub.pr_publisher].
  intros H. repeat (apply andb_prop in H as [H ?]).
  cbn [wf wf_members wf_elems].
  rewrite wf_changes_elems by assumption.
  rewrite (plain_append "io.artifacthub." kind) by (reflexivity || assumption).
  repeat match goal with Hp : plain _ = true |- _ => rewrite Hp; clear Hp end.
  reflexivity.
Qed.

Lemma erase_payload_doc d : erase (payload_doc d) = envelope d.
Proof.
  unfold payload_doc, envelope. cbn [erase erase_members].
  now rewrite erase_changes_elems.
Qed.

Lemma size_payload_doc d :
  (size (payload_doc d) <= S (String.length (DefaultWebhookPayloadTmpl d)))%nat.
Proof.
  unfold payload_doc, DefaultWebhookPayloadTmpl.
  cbn [size size_members]. rewrite size_changes_elems.
  rewrite !length_append.
  pose proof (length_range_changes (hub.pd_changes (hub.PPackage d)) 0).
  repeat match goal with
         | |- context [String.length (text ?s)] =>
             let v := eval vm_compute in (String.length (text s)) in
             change (String.length (text s)) with v
         end.
  lia.
Qed.

(** The payload of the default template is the JSON text of the envelope. *)
Lemma parse_default_payload d :
  plain_data d = true ->
  JSON.parse (DefaultWebhookPayloadTmpl d) = Some (envelope d).
Proof.
  intros H. unfold JSON.parse.
  pose proof (size_payload_doc d) as Hsize.
  rewrite (default_template_prints d) at 2.
  change (String LF ?s) with (String LF EmptyString +:+ s) at 1.
  rewrite parse_value_all_ws by reflexivity.
  rewrite (proj1 parse_print _ _ _ (wf_payload_doc d H) Hsize).
  rewrite erase_payload_doc. reflexivity.
Qed.

End JSONFacts.

(** The template data of an event is made of the event and of its package. *)
Lemma preparePkg_data ext w e w0 p d w1 :
  package_of w e w0 = Some p ->
  preparePkgNotificationTemplateData ext w e w0 = Ok (inl d) w1 ->
  d = hub.mkPackageNotificationTemplateData (baseURL w)
        (hub.mkEventData (hub.EventID e)
           match hub.Kind e with
           | hub.NewRelease => "package.new-release"
           | _ => EmptyString
           end)
        (hub.mkPackageData (hub.Name p) (hub.Version p) (hub.LogoImageID p)
           (BuildURL ext (baseURL w) p (hub.PackageVersion e))
           (hub.Changes p) (hub.ContainsSecurityUpdates p) (hub.Prerelease p)
           (hub.mkPackageRepositoryData
              (GetKindName ext (hub.RKind (hub.PRepository p)))
              (hub.RName (hub.PRepository p))
              (if String.eqb (hub.OrganizationName (hub.PRepository p)) EmptyString
               then hub.UserAlias (hub.PRepository p)
               else hub.OrganizationName (hub.PRepository p)))).
Proof.
  unfold package_of, preparePkgNotificationTemplateData, bind, cache_Get,
    cache_SetDefault, gets, ret, call, modify, panic. cbn [cKey].
  destruct (cache w0 !! _) as [[x|x|x]|]; try discriminate.
  - intros [= ->] [= <- _]. reflexivity.
  - destruct (PackageManager_Get _ _ _) as [p'|err]; [|discriminate].
    intros [= ->] [= <- _]. reflexivity.
Qed.

(** C5 (as amended).  For a release event whose package is [p], when
    the strings the default webhook template prints (the id of the event,
    the name, version, url and changes of the package, the kind, name and
    publisher of its repository) are made of plain characters, the output of
    the template, executed on the template data prepared for the event, is a
    JSON text, and its value is the envelope: an object with the
    specification version, the id of the event, the source, the type
    [io.artifacthub.package.new-release], the content type marker, and under
    [data.package] the name, version and url of the package, its changes as
    an array of strings (empty when there is none), the two flags as JSON
    booleans, and the kind, name and publisher of its repository. *)
Theorem default_webhook_payload_is_envelope ext w e w0 p d w1 :
  package_of w e w0 = Some p ->
  preparePkgNotificationTemplateData ext w e w0 = Ok (inl d) w1 ->
  hub.Kind e = hub.NewRelease ->
  plain_data d = true ->
  exists v,
    JSON.parse (DefaultWebhookPayloadTmpl d) = Some v /\
    v =
      JSON.Object
        [("specversion", JSON.Str "1.0");
         ("id", JSON.Str (hub.EventID e));
         ("source", JSON.Str "https://artifacthub.io/cloudevents");
         ("type", JSON.Str "io.artifacthub.package.new-release");
         ("datacontenttype", JSON.Str "application/json");
         ("data",
          JSON.Object
            [("package",
              JSON.Object
                [("name", JSON.Str (hub.Name p));
                 ("version", JSON.Str (hub.Version p));
                 ("url", JSON.Str (BuildURL ext (baseURL w) p (hub.PackageVersion e)));
                 ("changes", JSON.Array (map JSON.Str (hub.Changes p)));
                 ("containsSecurityUpdates", JSON.Bool (hub.ContainsSecurityUpdates p));
                 ("prerelease", JSON.Bool (hub.Prerelease p));
                 ("repository",
                  JSON.Object
                    [("kind", JSON.Str (GetKindName ext (hub.RKind (hub.PRepository p))));
                     ("name", JSON.Str (hub.RName (hub.PRepository p)));
                     ("publisher",
                      JSON.Str
                        (if String.eqb (hub.OrganizationName (hub.PRepository p))
                              EmptyString
                         then hub.UserAlias (hub.PRepository p)
                         else hub.OrganizationName (hub.PRepository p)))])])])] /\
    JSON.get ["data"; "package"; "changes"] v
      = Some (JSON.Array (map JSON.Str (hub.Changes p))) /\
    JSON.get ["data"; "package"; "containsSecurityUpdates"] v
      = Some (JSON.Bool (hub.ContainsSecurityUpdates p)) /\
    JSON.get ["data"; "package"; "prerelease"] v
      = Some (JSON.Bool (hub.Prerelease p)).
Proof.
  intros Hp Hd Hk Hplain. exists (envelope d).
  split; [exact (parse_default_payload d Hplain)|].
  rewrite (preparePkg_data ext w e w0 p d w1 Hp Hd), Hk.
  repeat split.
Qed.

Lemma default_webhook_payload_is_envelope_witness :
  exists v,
    JSON.parse (DefaultWebhookPayloadTmpl Examples.data_etcd) = Some v /\
    v =
      JSON.Object
        [("specversion", JSON.Str "1.0");
         ("id", JSON.Str "e1");
         ("source", JSON.Str "https://artifacthub.io/cloudevents");
         ("type", JSON.Str "io.artifacthub.package.new-release");
         ("datacontenttype", JSON.Str "application/json");
         ("data",
          JSON.Object
            [("package",
              JSON.Object
                [("name", JSON.Str "etcd");
                 ("version", JSON.Str "3.5.0");
                 ("url", JSON.Str "https://artifacthub.io/packages/etcd/3.5.0");
                 ("changes", JSON.Array []);
                 ("containsSecurityUpdates", JSON.Bool false);
                 ("prerelease", JSON.Bool false);
                 ("repository",
                  JSON.Object
                    [("kind", JSON.Str "helm");
                     ("name", JSON.Str "bitnami");
                     ("publisher", JSON.Str "bitnami-org")])])])] /\
    JSON.get ["data"; "package"; "changes"] v = Some (JSON.Array []) /\
    JSON.get ["data"; "package"; "containsSecurityUpdates"] v = Some (JSON.Bool false) /\
    JSON.get ["data"; "package"; "prerelease"] v = Some (JSON.Bool false).
Proof.
  apply (default_webhook_payload_is_envelope Examples.ext0
           (Examples.worker Examples.svc_ok (Examples.http_status 200))
           Examples.event1
           (claimed (Examples.world_with Examples.n_webhook))
           Examples.pkg_etcd Examples.data_etcd
           (Examples.world_prepared Examples.n_webhook)).
  - reflexivity.
  - vm_compute. reflexivity.
  - reflexivity.
  - reflexivity.
Defined.

(** C5 (as stated) fails: the template does not escape the strings it
    prints.  For the release of a package whose name holds a double quote
    the output is not a JSON text; and for a package with one change that
    holds a double quote, a comma and a double quote, the output is a JSON
    text in which the package has two changes. *)
Lemma default_webhook_payload_counterexample :
  (exists d w1,
     preparePkgNotificationTemplateData Examples.ext0
       (Examples.worker (MoreExamples.svc_of MoreExamples.pkg_quote)
          (Examples.http_status 200))
       Examples.event1 (claimed (Examples.world_with Examples.n_webhook))
     = Ok (inl d) w1 /\
     hub.Kind Examples.event1 = hub.NewRelease /\
     JSON.parse (DefaultWebhookPayloadTmpl d) = None) /\
  (exists d w1 v,
     preparePkgNotificationTemplateData Examples.ext0
       (Examples.worker (MoreExamples.svc_of MoreExamples.pkg_change)
          (Examples.http_status 200))
       Examples.event1 (claimed (Examples.world_with Examples.n_webhook))
     = Ok (inl d) w1 /\
     length (hub.Changes MoreExamples.pkg_change) = 1%nat /\
     JSON.parse (DefaultWebhookPayloadTmpl d) = Some v /\
     JSON.get ["data"; "package"; "changes"] v
     = Some (JSON.Array [JSON.Str "a"; JSON.Str "b"])).
Proof.
  split.
  - do 2 eexists. split; [vm_compute; reflexivity|].
    split; [reflexivity|]. vm_compute. reflexivity.
  - do 3 eexists. split; [vm_compute; reflexivity|].
    split; [reflexivity|]. split; [vm_compute; reflexivity|]. reflexivity.
Qed.

(** The payload of the example is a JSON text as it stands. *)
Lemma default_webhook_payload_etcd :
  plain_data Examples.data_etcd = true /\
  exists v,
    JSON.parse (DefaultWebhookPayloadTmpl Examples.data_etcd) = Some v /\
    JSON.get ["data"; "package"; "name"] v = Some (JSON.Str "etcd") /\
    JSON.get ["data"; "package"; "version"] v = Some (JSON.Str "3.5.0") /\
    JSON.get ["data"; "package"; "changes"] v = Some (JSON.Array []) /\
    JSON.get ["data"; "package"; "containsSecurityUpdates"] v = Some (JSON.Bool false) /\
    JSON.get ["data"; "package"; "prerelease"] v = Some (JSON.Bool false).
Proof.
  split; [reflexivity|]. eexists. split; [vm_compute; reflexivity|].
  repeat split.
Qed.

(** * Further properties of the worker *)

(** ** The main loop and the cancellation *)

(** An iteration makes [Run] return only once the context is cancelled. *)
Lemma Run_iteration_returns_cancelled ext duration w cancelAt s s' :
  In (Return s') (Run_iteration ext duration w cancelAt s) ->
  ctx_Done cancelAt (now s') = true.
Proof.
  intros Hin. destruct (processNotification ext w (world s)) as [err w'|w'] eqn:Hp.
  - destruct (Run_iteration_paced ext duration w cancelAt s err w' _ Hp Hin)
      as (_ & _ & _ & Hret & _). apply (Hret s'). reflexivity.
  - unfold Run_iteration in Hin. rewrite Hp in Hin.
    destruct Hin as [H|[]]. discriminate.
Qed.

(** X1.  [Run] returns only when the context has been cancelled, and not
    before the cancellation: with a context that is never cancelled it
    never returns. *)
Theorem Run_returns_only_cancelled ext duration w cancelAt s s' :
  Run_returns ext duration w cancelAt s s' ->
  exists c, cancelAt = Some c /\ c <= now s'.
Proof.
  induction 1 as [s s' Hin | s s1 s' _ _ IH]; [|exact IH].
  apply Run_iteration_returns_cancelled in Hin.
  unfold ctx_Done in Hin. destruct cancelAt as [c|]; [|discriminate].
  exists c. split; [reflexivity | now apply Z.leb_le].
Qed.

Lemma Run_returns_only_cancelled_witness :
  exists c, Some (5 * Second) = Some c /\
            c <= now (mkRunState Examples.world_polled (5 * Second)).
Proof.
  apply (Run_returns_only_cancelled Examples.ext0 Examples.millisecond
           (Examples.worker Examples.svc_ok (Examples.http_status 200))
           (Some (5 * Second)) (mkRunState Examples.world_empty 0)).
  apply Run_return. vm_compute. left. reflexivity.
Defined.

(** X2.  The loop checks the context after the call of
    [processNotification], not before: started with a context that is
    already cancelled, [Run] still processes one notification, and returns
    as soon as that call returns, whatever its outcome. *)
Theorem Run_cancelled_runs_once ext duration w c s err w' :
  c <= now s ->
  0 <= duration (world s) ->
  processNotification ext w (world s) = Ok err w' ->
  forall s', Run_returns ext duration w (Some c) s s' <->
             s' = mkRunState w' (now s + duration (world s)).
Proof.
  intros Hc Hd Hp s'.
  assert (Hit : Run_iteration ext duration w (Some c) s
                = [Return (mkRunState w' (now s + duration (world s)))]).
  { unfold Run_iteration. rewrite Hp.
    destruct err as [e|].
    - assert (Hpause : forall d, 0 < d ->
                select_pause (Some c) d (mkRunState w' (now s + duration (world s)))
                = [Return (mkRunState w' (now s + duration (world s)))]).
      { intros d Hpos. unfold select_pause. cbn [now world].
        destruct (Z.ltb_spec c (now s + duration (world s) + d)); [|lia].
        now rewrite Z.max_r by lia. }
      destruct (errors.Is (Some e) pgx.ErrNoRows); apply Hpause;
        unfold pauseOnEmptyQueue, pauseOnError, Second; lia.
    - unfold select_default, ctx_Done. cbn [now].
      destruct (Z.leb_spec c (now s + duration (world s))); [reflexivity | lia]. }
  split.
  - intros H. inversion H as [s0 s1 Hin | s0 s1 s2 Hin Hrest]; subst;
      rewrite Hit in Hin; destruct Hin as [Hin|[]]; congruence.
  - intros ->. apply Run_return. rewrite Hit. now left.
Qed.

Lemma Run_cancelled_runs_once_witness :
  Run_returns Examples.ext0 Examples.millisecond
    (Examples.worker Examples.svc_ok (Examples.http_status 200))
    (Some 0) (mkRunState Examples.world_empty 7)
    (mkRunState Examples.world_polled 1000007) <->
  mkRunState Examples.world_polled 1000007
  = mkRunState Examples.world_polled (7 + 1000000).
Proof.
  apply (Run_cancelled_runs_once Examples.ext0 Examples.millisecond
           (Examples.worker Examples.svc_ok (Examples.http_status 200))
           0 (mkRunState Examples.world_empty 7) (Some pgx.ErrNoRows)
           Examples.world_polled).
  - vm_compute. discriminate.
  - vm_compute. discriminate.
  - vm_compute. reflexivity.
Defined.

(** ** The transactional step: what reaches the loop *)

(** X3.  When no pending notification can be got, [processNotification]
    returns the error of [GetPending] and rolls back without any delivery or
    status update; the error is logged unless it is the no rows error, so an
    empty queue leaves no trace in the log. *)
Theorem get_pending_failure_is_returned ext w world e :
  BeginErr (svc w) = None ->
  GetPendingErr (svc w) = Some e \/
  (GetPendingErr (svc w) = None /\ oldest_pending (table world) = None /\
   e = pgx.ErrNoRows) ->
  exists world',
    processNotification ext w world = Ok (Some e) world' /\
    calls world' = (CallRollback :: CallGetPending :: CallBegin :: calls world)%list /\
    table world' = table world /\
    cache world' = cache world /\
    logs world' =
      if errors.Is (Some e) pgx.ErrNoRows then logs world
      else mkLogEntry e "processNotification: error getting pending notification"
             :: logs world.
Proof.
  intros Hb Hg.
  assert (Hget : GetPending (svc w) (set_tx (table world) (add_call CallBegin world))
                 = Ok (inr e) (claimed world)).
  { unfold GetPending, bind, call, modify, gets, ret.
    destruct Hg as [Hg | (Hg & Hp & ->)]; rewrite Hg; [reflexivity|].
    cbn. rewrite Hp. reflexivity. }
  unfold processNotification, DBTransact. cbv zeta.
  change (table (add_call CallBegin world)) with (table world).
  rewrite Hb. unfold processNotification_tx, bind at 1. rewrite Hget.
  unfold bind, log_Error, modify, ret.
  destruct (errors.Is (Some e) pgx.ErrNoRows); cbn [negb];
    eexists; (split; [reflexivity|]); repeat split.
Qed.

Lemma get_pending_failure_is_returned_witness :
  exists world',
    processNotification Examples.ext0
      (Examples.worker Examples.svc_ok (Examples.http_status 200))
      Examples.world_empty = Ok (Some pgx.ErrNoRows) world' /\
    calls world' = [CallRollback; CallGetPending; CallBegin] /\
    table world' = [] /\
    cache world' = ∅ /\
    logs world' = [].
Proof.
  apply (get_pending_failure_is_returned Examples.ext0
           (Examples.worker Examples.svc_ok (Examples.http_status 200))
           Examples.world_empty pgx.ErrNoRows).
  - reflexivity.
  - right. repeat split.
Defined.

(** X4.  Of the delivery of a claimed notification only a retryable error
    reaches the caller: when the transaction begins and commits,
    [processNotification] returns nil or an error tagged retryable, so a
    terminal delivery failure never makes the loop pause. *)
Theorem only_retryable_errors_surface ext w world n res world' :
  BeginErr (svc w) = None ->
  GetPendingErr (svc w) = None ->
  CommitErr (svc w) = None ->
  oldest_pending (table world) = Some n ->
  processNotification ext w world = Ok res world' ->
  res = None \/ errors.Is res ErrRetryable = true.
Proof.
  intros Hb Hg Hc Hp Hres.
  destruct (dispatch ext w n (claimed world)) as [err w1|w1] eqn:Hd.
  - destruct (errors.Is err ErrRetryable) eqn:Hr.
    + destruct err as [e|]; [|discriminate].
      rewrite (processNotification_retry ext w world n Hb Hg Hp e w1 Hd Hr) in Hres.
      injection Hres as <- _. now right.
    + destruct (UpdateStatusErr (svc w)) as [eu|] eqn:Hu.
      * pose proof (processNotification_update_fails ext w world n Hb Hg Hp err w1 eu Hd Hr Hu) as H.
        cbv zeta in H. rewrite Hc, Hres in H. injection H as -> _. now left.
      * pose proof (processNotification_finalise ext w world n Hb Hg Hp err w1 Hd Hr Hu) as H.
        cbv zeta in H. rewrite Hc, Hres in H. injection H as -> _. now left.
  - exfalso. revert Hres. unfold processNotification, DBTransact. cbv zeta.
    change (table (add_call CallBegin world)) with (table world).
    rewrite Hb, (processNotification_tx_claims ext w world n Hg Hp).
    unfold bind at 1. rewrite Hd. discriminate.
Qed.

Lemma only_retryable_errors_surface_witness :
  @None error = None \/ errors.Is (@None error) ErrRetryable = true.
Proof.
  apply (only_retryable_errors_surface Examples.ext0
           (Examples.worker Examples.svc_ok (Examples.http_status 500))
           (Examples.world_with Examples.n_webhook) Examples.n_webhook None
           (set_table [mkRow Examples.n_webhook true "unexpected status code: 500"]
              (add_call CallCommit
                 (set_tx [mkRow Examples.n_webhook true "unexpected status code: 500"]
                    (add_call
                       (CallUpdateStatus "n2" true
                          (Some (errors.errorString "unexpected status code: 500")))
                       (add_call
                          (CallHTTPDo (webhook_request Examples.webhook1
                                         (DefaultWebhookPayloadTmpl Examples.data_etcd)))
                          (Examples.world_prepared Examples.n_webhook))))))).
  - reflexivity.
  - reflexivity.
  - reflexivity.
  - reflexivity.
  - vm_compute. reflexivity.
Defined.

(** ** Failures while preparing the data *)

(** X5.  When the package of a webhook notification cannot be fetched, the
    delivery fails before any HTTP call with an error tagged retryable whose
    text is that of the cause after [retryable error: ].  The cause is
    formatted, not wrapped: even when it is the no rows error of the
    database the result is not that error for [errors.Is], so the loop takes
    the pause on error, not the pause on an empty queue. *)
Theorem webhook_preparation_failure_is_retryable ext w n wh w0 err :
  hub.NUser n = None ->
  hub.NWebhook n = Some wh ->
  cache w0 !! cKey PackageKind (hub.EventID (hub.NEvent n)) = None ->
  PackageManager_Get (svc w) (hub.PackageID (hub.NEvent n))
    (hub.PackageVersion (hub.NEvent n)) = inr err ->
  let e := errors.wrapError ("retryable error: " +:+ errors.Error err) ErrRetryable in
  dispatch ext w n w0 =
    Ok (Some e)
       (add_call (CallPackageGet (hub.PackageID (hub.NEvent n))
                    (hub.PackageVersion (hub.NEvent n))) w0) /\
  errors.Is (Some e) ErrRetryable = true /\
  errors.Is (Some e) pgx.ErrNoRows = false /\
  pause_after (Some e) = pauseOnError.
Proof.
  intros Hu Hw Hc Hg e. repeat split.
  unfold dispatch. rewrite Hu, Hw.
  unfold deliverWebhookNotification, preparePkgNotificationTemplateData,
    bind, cache_Get, gets, call, modify, ret.
  cbn [cKey] in Hc. rewrite Hc, Hg. reflexivity.
Qed.

Lemma webhook_preparation_failure_is_retryable_witness :
  let w := Examples.worker
             (mkServices None None None None None
                (fun id version => inr pgx.ErrNoRows)
                (fun id => inl Examples.repo_etcd))
             (Examples.http_status 200) in
  let e := errors.wrapError "retryable error: no rows in result set" ErrRetryable in
  dispatch Examples.ext0 w Examples.n_webhook (Examples.world_with Examples.n_webhook) =
    Ok (Some e)
       (add_call (CallPackageGet "pkg-1" "3.5.0")
          (Examples.world_with Examples.n_webhook)) /\
  errors.Is (Some e) ErrRetryable = true /\
  errors.Is (Some e) pgx.ErrNoRows = false /\
  pause_after (Some e) = pauseOnError.
Proof.
  apply (webhook_preparation_failure_is_retryable Examples.ext0
           (Examples.worker
              (mkServices None None None None None
                 (fun id version => inr pgx.ErrNoRows)
                 (fun id => inl Examples.repo_etcd))
              (Examples.http_status 200))
           Examples.n_webhook Examples.webhook1
           (Examples.world_with Examples.n_webhook) pgx.ErrNoRows).
  - reflexivity.
  - reflexivity.
  - vm_compute. reflexivity.
  - reflexivity.
Defined.

(** ** The cache of derived data *)

(** X6.  Preparing the template data of an event a second time reads the
    package from the cache: once [preparePkgNotificationTemplateData] has
    succeeded, a further call for the same event returns the same data and
    leaves the world as it is, with no call to the package manager. *)
Theorem preparePkg_is_cached ext w e w0 d w1 :
  preparePkgNotificationTemplateData ext w e w0 = Ok (inl d) w1 ->
  preparePkgNotificationTemplateData ext w e w1 = Ok (inl d) w1.
Proof.
  unfold preparePkgNotificationTemplateData, bind, cache_Get, cache_SetDefault,
    gets, call, modify, ret, panic.
  destruct (cache w0 !! _) as [[x|p|x]|] eqn:Hc; try discriminate.
  - intros [= <- <-]. rewrite Hc. reflexivity.
  - destruct (PackageManager_Get _ _ _) as [p|err]; [|discriminate].
    intros [= <- <-]. cbn [cache set_cache]. rewrite lookup_insert_eq. reflexivity.
Qed.

Lemma preparePkg_is_cached_witness :
  preparePkgNotificationTemplateData Examples.ext0
    (Examples.worker Examples.svc_ok (Examples.http_status 200))
    Examples.event1 (Examples.world_prepared Examples.n_webhook)
  = Ok (inl Examples.data_etcd) (Examples.world_prepared Examples.n_webhook).
Proof.
  apply (preparePkg_is_cached Examples.ext0
           (Examples.worker Examples.svc_ok (Examples.http_status 200))
           Examples.event1 (claimed (Examples.world_with Examples.n_webhook))).
  vm_compute. reflexivity.
Defined.

(** The email data [prepareEmailData] returns has no recipient yet. *)
Lemma prepareEmailData_has_no_recipient ext w e w0 d w1 :
  prepareEmailData ext w e w0 = Ok (inl d) w1 -> email.To d = EmptyString.
Proof.
  unfold prepareEmailData, prepareRepoEmail, bind, ret.
  destruct (hub.Kind e);
    repeat match goal with
           | |- context [match ?x with _ => _ end] =>
               lazymatch x with
               | context [match _ with _ => _ end] => fail
               | _ => destruct x
               end
           end;
    intros H; try discriminate; injection H as <- _; reflexivity.
Qed.

(** X7.  The email data of an event is cached before the recipient is
    set: the cached email has no recipient, and a later notification of
    the same event for another user is sent the same subject and body,
    addressed to that user, without preparing the data again. *)
Theorem email_is_cached_without_recipient ext w n u es w0 d w1 n2 u2 :
  cache w0 !! cKey EmailDataKind (hub.EventID (hub.NEvent n)) = None ->
  prepareEmailData ext w (hub.NEvent n) w0 = Ok (inl d) w1 ->
  hub.EventID (hub.NEvent n2) = hub.EventID (hub.NEvent n) ->
  exists w2,
    deliverEmailNotification ext w n u es w0 = Ok (es (set_To (hub.Email u) d)) w2 /\
    calls w2 = (CallSendEmail (set_To (hub.Email u) d) :: calls w1)%list /\
    cache w2 !! cKey EmailDataKind (hub.EventID (hub.NEvent n)) = Some (CEmailData d) /\
    email.To d = EmptyString /\
    deliverEmailNotification ext w n2 u2 es w2 =
      Ok (es (set_To (hub.Email u2) d))
         (add_call (CallSendEmail (set_To (hub.Email u2) d)) w2).
Proof.
  intros Hc Hp Hid. cbn [cKey] in Hc.
  eexists. split; [|split; [|split; [|split]]].
  - unfold deliverEmailNotification, bind, cache_Get, cache_SetDefault,
      gets, ret, call, modify.
    rewrite Hc, Hp. reflexivity.
  - reflexivity.
  - cbn. apply lookup_insert_eq.
  - exact (prepareEmailData_has_no_recipient ext w _ w0 d w1 Hp).
  - unfold deliverEmailNotification, bind, cache_Get, gets, ret, call, modify.
    rewrite Hid. cbn [cache add_call set_cache]. rewrite lookup_insert_eq. reflexivity.
Qed.

Lemma email_is_cached_without_recipient_witness :
  let d := email.mkData EmptyString "etcd version 3.5.0 released" "New release of etcd" in
  exists w2,
    deliverEmailNotification Examples.ext0
      (Examples.worker Examples.svc_ok (Examples.http_status 200))
      Examples.n_email Examples.user1 (fun _ => None)
      (claimed (Examples.world_with Examples.n_email))
    = Ok None w2 /\
    calls w2 = (CallSendEmail (set_To "alice@example.org" d)
                  :: calls (Examples.world_prepared Examples.n_email))%list /\
    cache w2 !! cKey EmailDataKind "e1" = Some (CEmailData d) /\
    email.To d = EmptyString /\
    deliverEmailNotification Examples.ext0
      (Examples.worker Examples.svc_ok (Examples.http_status 200))
      Examples.n_email Examples.user1 (fun _ => None) w2 =
      Ok None (add_call (CallSendEmail (set_To "alice@example.org" d)) w2).
Proof.
  apply (email_is_cached_without_recipient Examples.ext0
           (Examples.worker Examples.svc_ok (Examples.http_status 200))
           Examples.n_email Examples.user1 (fun _ => None)
           (claimed (Examples.world_with Examples.n_email))
           (email.mkData EmptyString "etcd version 3.5.0 released" "New release of etcd")
           (Examples.world_prepared Examples.n_email)
           Examples.n_email Examples.user1).
  - vm_compute. reflexivity.
  - vm_compute. reflexivity.
  - reflexivity.
Defined.

(** ** Panics *)

Lemma preparePkg_type_assertion ext w e w0 w1 :
  well_kinded (cache w0) ->
  preparePkgNotificationTemplateData ext w e w0 <> Panic w1.
Proof.
  intros Hk. unfold preparePkgNotificationTemplateData, bind, cache_Get,
    cache_SetDefault, gets, call, modify, ret, panic.
  destruct (cache w0 !! _) as [v|] eqn:Hc.
  - pose proof (Hk PackageKind (hub.EventID e) v Hc) as Hv.
    destruct v; try discriminate Hv. discriminate.
  - destruct (PackageManager_Get _ _ _); discriminate.
Qed.

Lemma prepareRepo_type_assertion ext w e w0 w1 :
  well_kinded (cache w0) ->
  prepareRepoNotificationTemplateData ext w e w0 <> Panic w1.
Proof.
  intros Hk. unfold prepareRepoNotificationTemplateData, bind, cache_Get,
    cache_SetDefault, gets, call, modify, ret, panic.
  destruct (cache w0 !! _) as [v|] eqn:Hc.
  - pose proof (Hk RepositoryKind (hub.EventID e) v Hc) as Hv.
    destruct v; try discriminate Hv. discriminate.
  - destruct (RepositoryManager_GetByID _ _); discriminate.
Qed.

Lemma prepareEmailData_type_assertion ext w e w0 w1 :
  well_kinded (cache w0) ->
  prepareEmailData ext w e w0 <> Panic w1.
Proof.
  intros Hk. unfold prepareEmailData, prepareRepoEmail, bind, ret.
  destruct (hub.Kind e); try discriminate.
  - pose proof (preparePkg_type_assertion ext w e w0) as Hp.
    destruct (preparePkgNotificationTemplateData ext w e w0) as [[d|err] w'|w'];
      [destruct (newReleaseEmailTmpl ext d); discriminate | discriminate |].
    now destruct (Hp w' Hk).
  - pose proof (prepareRepo_type_assertion ext w e w0) as Hp.
    destruct (prepareRepoNotificationTemplateData ext w e w0) as [[d|err] w'|w'];
      [destruct (scanningErrorsEmailTmpl ext d); discriminate | discriminate |].
    now destruct (Hp w' Hk).
  - pose proof (prepareRepo_type_assertion ext w e w0) as Hp.
    destruct (prepareRepoNotificationTemplateData ext w e w0) as [[d|err] w'|w'];
      [destruct (trackingErrorsEmailTmpl ext d); discriminate | discriminate |].
    now destruct (Hp w' Hk).
  - pose proof (prepareRepo_type_assertion ext w e w0) as Hp.
    destruct (prepareRepoNotificationTemplateData ext w e w0) as [[d|err] w'|w'];
      [destruct (ownershipClaimEmailTmpl ext d); discriminate | discriminate |].
    now destruct (Hp w' Hk).
Qed.

Lemma deliverEmailNotification_type_assertion ext w n u es w0 w1 :
  well_kinded (cache w0) ->
  deliverEmailNotification ext w n u es w0 <> Panic w1.
Proof.
  intros Hk. unfold deliverEmailNotification, bind, cache_Get, cache_SetDefault,
    gets, call, modify, ret, panic.
  destruct (cache w0 !! _) as [v|] eqn:Hc.
  - pose proof (Hk EmailDataKind (hub.EventID (hub.NEvent n)) v Hc) as Hv.
    destruct v; try discriminate Hv. discriminate.
  - pose proof (prepareEmailData_type_assertion ext w (hub.NEvent n) w0) as Hp.
    destruct (prepareEmailData ext w (hub.NEvent n) w0) as [[d|err] w'|w'];
      [discriminate | discriminate |].
    now destruct (Hp w' Hk).
Qed.

(** X8.  On a cache in which every entry under a key of the worker holds
    data of the kind of the key, no type assertion fails: the dispatch of a
    notification panics in one case only, a webhook whose URL
    [http.NewRequest] rejects. *)
Theorem dispatch_panics_only_on_bad_url ext w n w0 w1 :
  well_kinded (cache w0) ->
  dispatch ext w n w0 = Panic w1 ->
  exists wh,
    hub.NUser n = None /\ hub.NWebhook n = Some wh /\
    NewRequest_ok ext (hub.URL wh) = false.
Proof.
  intros Hk. unfold dispatch.
  destruct (hub.NUser n) as [u|].
  - destruct (ES (svc w)) as [es|]; [|discriminate].
    intros H. now destruct (deliverEmailNotification_type_assertion ext w n u es w0 w1 Hk).
  - destruct (hub.NWebhook n) as [wh|]; [|discriminate].
    intros H. exists wh. repeat split.
    revert H. unfold deliverWebhookNotification, bind at 1.
    pose proof (preparePkg_type_assertion ext w (hub.NEvent n) w0) as Hp.
    destruct (preparePkgNotificationTemplateData ext w (hub.NEvent n) w0)
      as [[d|err] w'|w']; [| discriminate | now destruct (Hp w' Hk)].
    destruct (if negb _ then _ else _) as [execute|err]; [|discriminate].
    destruct (execute d) as [payload|err]; [|discriminate].
    destruct (NewRequest_ok ext (hub.URL wh)); [|reflexivity].
    cbn [negb]. unfold bind, call, modify, ret.
    destruct (httpClient w _) as [resp|err]; [|discriminate].
    destruct (StatusCode resp >=? 400); discriminate.
Qed.

Lemma well_kinded_empty : well_kinded ∅.
Proof. intros k id v H. rewrite lookup_empty in H. discriminate. Qed.

Lemma dispatch_panics_only_on_bad_url_witness :
  exists wh,
    hub.NUser MoreExamples.n_bad_url = None /\
    hub.NWebhook MoreExamples.n_bad_url = Some wh /\
    NewRequest_ok MoreExamples.ext_strict (hub.URL wh) = false.
Proof.
  apply (dispatch_panics_only_on_bad_url MoreExamples.ext_strict
           (Examples.worker Examples.svc_ok (Examples.http_status 200))
           MoreExamples.n_bad_url
           (claimed (Examples.world_with MoreExamples.n_bad_url))
           (Examples.world_prepared MoreExamples.n_bad_url)).
  - exact well_kinded_empty.
  - vm_compute. reflexivity.
Defined.

(** X9.  The error of [http.NewRequest] is dropped: for a webhook whose URL
    it rejects, the delivery panics once the payload is rendered, before
    any HTTP call.  [processNotification] does not return: the transaction
    is rolled back, the table is left as it was, so the same notification is
    claimed again, and the iteration of the loop ends in a crash. *)
Theorem webhook_bad_url_panics ext duration w s n wh d w1 payload :
  BeginErr (svc w) = None ->
  GetPendingErr (svc w) = None ->
  oldest_pending (table (world s)) = Some n ->
  hub.NUser n = None ->
  hub.NWebhook n = Some wh ->
  preparePkgNotificationTemplateData ext w (hub.NEvent n) (claimed (world s))
    = Ok (inl d) w1 ->
  renders ext wh d payload ->
  NewRequest_ok ext (hub.URL wh) = false ->
  dispatch ext w n (claimed (world s)) = Panic w1 /\
  processNotification ext w (world s) = Panic (add_call CallRollback w1) /\
  table (add_call CallRollback w1) = table (world s) /\
  Run_iteration ext duration w None s
  = [Crash (mkRunState (add_call CallRollback w1) (now s + duration (world s)))].
Proof.
  intros Hb Hg Hp Hu Hw Hd Hr Hn.
  assert (Hdis : dispatch ext w n (claimed (world s)) = Panic w1).
  { unfold dispatch. rewrite Hu, Hw.
    unfold deliverWebhookNotification, bind at 1. rewrite Hd.
    unfold renders in Hr.
    destruct (String.eqb (hub.Template wh) EmptyString); cbn [negb].
    - subst payload. rewrite Hn. reflexivity.
    - destruct Hr as (execute & -> & ->). rewrite Hn. reflexivity. }
  assert (Hproc : processNotification ext w (world s) = Panic (add_call CallRollback w1)).
  { unfold processNotification, DBTransact. cbv zeta.
    change (table (add_call CallBegin (world s))) with (table (world s)).
    rewrite Hb, (processNotification_tx_claims ext w (world s) n Hg Hp).
    unfold bind at 1. rewrite Hdis. reflexivity. }
  split; [exact Hdis|]. split; [exact Hproc|]. split.
  - destruct (delivering_preparePkg ext w _ _ _ _ Hd) as (Ht & _). exact Ht.
  - unfold Run_iteration. rewrite Hproc. reflexivity.
Qed.

Lemma webhook_bad_url_panics_witness :
  let s := mkRunState (Examples.world_with MoreExamples.n_bad_url) 0 in
  let w := Examples.worker Examples.svc_ok (Examples.http_status 200) in
  let w1 := Examples.world_prepared MoreExamples.n_bad_url in
  dispatch MoreExamples.ext_strict w MoreExamples.n_bad_url (claimed (world s))
    = Panic w1 /\
  processNotification MoreExamples.ext_strict w (world s)
    = Panic (add_call CallRollback w1) /\
  table (add_call CallRollback w1) = table (world s) /\
  Run_iteration MoreExamples.ext_strict Examples.millisecond w None s
  = [Crash (mkRunState (add_call CallRollback w1) (now s + Examples.millisecond (world s)))].
Proof.
  apply (webhook_bad_url_panics MoreExamples.ext_strict Examples.millisecond
           (Examples.worker Examples.svc_ok (Examples.http_status 200))
           (mkRunState (Examples.world_with MoreExamples.n_bad_url) 0)
           MoreExamples.n_bad_url MoreExamples.webhook_bad_url Examples.data_etcd
           (Examples.world_prepared MoreExamples.n_bad_url)
           (DefaultWebhookPayloadTmpl Examples.data_etcd)).
  - reflexivity.
  - reflexivity.
  - reflexivity.
  - reflexivity.
  - reflexivity.
  - vm_compute. reflexivity.
  - reflexivity.
  - reflexivity.
Defined.

(** ** What a delivery hands over *)

Lemma emits_refl P w : emits P w w.
Proof. exists []. split; [reflexivity | constructor]. Qed.

Lemma emits_trans P w0 w1 w2 : emits P w0 w1 -> emits P w1 w2 -> emits P w0 w2.
Proof.
  intros (l1 & Hc1 & F1) (l2 & Hc2 & F2). exists (l2 ++ l1)%list. split.
  - rewrite Hc2, Hc1. now rewrite app_assoc.
  - apply Forall_app; auto.
Qed.

Lemma emitting_ret P {A} (a : A) : emitting P (ret a).
Proof. intros w0 r w1 H. inversion H; subst. apply emits_refl. Qed.

Lemma emitting_panic P {A} : emitting P (@panic A).
Proof. intros w0 r w1 H. discriminate. Qed.

Lemma emitting_bind P {A B} (m : M A) (k : A -> M B) :
  emitting P m -> (forall a, emitting P (k a)) -> emitting P (bind m k).
Proof.
  intros Hm Hk w0 r w1 H. apply bind_Ok in H as (a & w' & H1 & H2).
  eapply emits_trans; [eapply Hm | eapply Hk]; eassumption.
Qed.

Lemma emitting_cache_Get P k : emitting P (cache_Get k).
Proof. intros w0 r w1 H. inversion H; subst. apply emits_refl. Qed.

Lemma emitting_cache_SetDefault P k v : emitting P (cache_SetDefault k v).
Proof. intros w0 r w1 H. inversion H; subst. exists []. split; [reflexivity | constructor]. Qed.

Lemma emitting_call (P : Call -> Prop) c : P c -> emitting P (call c).
Proof.
  intros Hc w0 r w1 H. inversion H; subst.
  exists [c]. split; [reflexivity | repeat constructor; exact Hc].
Qed.

Ltac emitting_step :=
  first
    [ apply emitting_ret
    | apply emitting_panic
    | apply emitting_cache_Get
    | apply emitting_cache_SetDefault
    | apply emitting_call; exact I
    | apply emitting_bind; [ | intros ? ]
    | match goal with
      | |- emitting _ (match ?x with _ => _ end) => destruct x
      end
    | progress cbv zeta ].

Lemma fetching_preparePkg ext w e :
  emitting fetch_call (preparePkgNotificationTemplateData ext w e).
Proof. unfold preparePkgNotificationTemplateData. repeat emitting_step. Qed.

Lemma fetching_prepareRepo ext w e :
  emitting fetch_call (prepareRepoNotificationTemplateData ext w e).
Proof. unfold prepareRepoNotificationTemplateData. repeat emitting_step. Qed.

Lemma fetching_prepareRepoEmail ext w e subject tmpl :
  emitting fetch_call (prepareRepoEmail ext w e subject tmpl).
Proof.
  unfold prepareRepoEmail.
  apply emitting_bind; [apply fetching_prepareRepo | intros r].
  repeat emitting_step.
Qed.

Lemma fetching_prepareEmailData ext w e :
  emitting fetch_call (prepareEmailData ext w e).
Proof.
  unfold prepareEmailData. destruct (hub.Kind e);
    try apply fetching_prepareRepoEmail; [ | apply emitting_ret].
  apply emitting_bind; [apply fetching_preparePkg | intros r].
  repeat emitting_step.
Qed.

(** The email channel: the data is fetched, then one email is sent to the
    address of the user, or an error is returned and nothing is sent. *)
Lemma deliverEmailNotification_hands_over ext w n u es w0 err w1 :
  deliverEmailNotification ext w n u es w0 = Ok err w1 ->
  (emits fetch_call w0 w1 /\ err <> None) \/
  (exists w' d, emits fetch_call w0 w' /\ w1 = add_call (CallSendEmail d) w' /\
                email.To d = hub.Email u).
Proof.
  unfold deliverEmailNotification. cbv zeta.
  unfold bind at 1, cache_Get, gets.
  destruct (cache w0 !! _) as [[d|p|r]|]; try (unfold bind, panic; discriminate).
  - unfold bind, ret, call, modify. intros [= <- <-].
    right. exists w0, (set_To (hub.Email u) d). repeat split. apply emits_refl.
  - unfold bind at 1 2.
    destruct (prepareEmailData ext w (hub.NEvent n) w0) as [[d|e] w'|w'] eqn:Hp;
      [| |discriminate].
    + unfold bind, cache_SetDefault, ret, call, modify. intros [= <- <-].
      right. eexists _, (set_To (hub.Email u) d). split; [|split; reflexivity].
      destruct (fetching_prepareEmailData ext w _ _ _ _ Hp) as (l & Hc & Hl).
      exists l. split; [exact Hc | exact Hl].
    + unfold ret. intros [= <- <-]. left. split; [|discriminate].
      exact (fetching_prepareEmailData ext w _ _ _ _ Hp).
Qed.

(** The webhook channel, likewise: one request in the wire format of the
    webhook, or an error and no request. *)
Lemma deliverWebhookNotification_hands_over ext w n wh w0 err w1 :
  deliverWebhookNotification ext w n wh w0 = Ok err w1 ->
  (emits fetch_call w0 w1 /\ err <> None) \/
  (exists w' payload, emits fetch_call w0 w' /\
                      w1 = add_call (CallHTTPDo (webhook_request wh payload)) w').
Proof.
  unfold deliverWebhookNotification, bind at 1.
  destruct (preparePkgNotificationTemplateData ext w (hub.NEvent n) w0)
    as [[d|e] w'|w'] eqn:Hp; [| |discriminate].
  - pose proof (fetching_preparePkg ext w _ _ _ _ Hp) as Hf.
    destruct (if negb _ then _ else _) as [execute|e].
    + destruct (execute d) as [payload|e].
      * destruct (NewRequest_ok ext (hub.URL wh)); cbn [negb]; [|discriminate].
        unfold bind at 1, call, modify. intros H.
        right. exists w', payload. split; [exact Hf|].
        fold (webhook_request wh payload) in H.
        destruct (httpClient w _) as [resp|e];
          [destruct (StatusCode resp >=? 400)|]; now inversion H.
      * intros [= <- <-]. left. split; [exact Hf | discriminate].
    + intros [= <- <-]. left. split; [exact Hf | discriminate].
  - intros [= <- <-]. left. split; [|discriminate].
    exact (fetching_preparePkg ext w _ _ _ _ Hp).
Qed.

(** X10.  The dispatch of a notification hands it over at most once, as
    its last call: after calls that fetch the data of the event it either
    sends one email to the address of the user, or posts one request to the
    webhook when the notification has no user, or sends nothing.  A user
    takes precedence over a webhook.  When nothing is sent the result is an
    error, unless the notification has no target at all. *)
Theorem dispatch_hands_over_at_most_once ext w n w0 err w1 :
  dispatch ext w n w0 = Ok err w1 ->
  (emits fetch_call w0 w1 /\
   (err = None -> hub.NUser n = None /\ hub.NWebhook n = None)) \/
  (exists w' send, emits fetch_call w0 w' /\ w1 = add_call send w' /\ handover n send).
Proof.
  unfold dispatch, handover. destruct (hub.NUser n) as [u|].
  - destruct (ES (svc w)) as [es|].
    + intros H. apply deliverEmailNotification_hands_over in H
        as [(Hf & He) | (w' & d & Hf & -> & Hto)].
      * left. split; [exact Hf | intros ->; now destruct He].
      * right. exists w', (CallSendEmail d). eauto.
    + intros [= <- <-]. left. split; [apply emits_refl | discriminate].
  - destruct (hub.NWebhook n) as [wh|].
    + intros H. apply deliverWebhookNotification_hands_over in H
        as [(Hf & He) | (w' & payload & Hf & ->)].
      * left. split; [exact Hf | intros ->; now destruct He].
      * right. exists w', (CallHTTPDo (webhook_request wh payload)). eauto 6.
    + intros [= <- <-]. left. split; [apply emits_refl | auto].
Qed.

Lemma dispatch_hands_over_at_most_once_witness :
  (emits fetch_call (claimed (Examples.world_with Examples.n_email))
     (add_call (CallSendEmail
                  (email.mkData "alice@example.org" "etcd version 3.5.0 released"
                     "New release of etcd"))
        (set_cache
           (<["emailData.%e1" :=
                CEmailData (email.mkData EmptyString "etcd version 3.5.0 released"
                              "New release of etcd")]>
              (cache (Examples.world_prepared Examples.n_email)))
           (Examples.world_prepared Examples.n_email))) /\
   (@None error = None ->
    hub.NUser Examples.n_email = None /\ hub.NWebhook Examples.n_email = None)) \/
  (exists w' send,
     emits fetch_call (claimed (Examples.world_with Examples.n_email)) w' /\
     add_call (CallSendEmail
                 (email.mkData "alice@example.org" "etcd version 3.5.0 released"
                    "New release of etcd"))
       (set_cache
          (<["emailData.%e1" :=
               CEmailData (email.mkData EmptyString "etcd version 3.5.0 released"
                             "New release of etcd")]>
             (cache (Examples.world_prepared Examples.n_email)))
          (Examples.world_prepared Examples.n_email))
     = add_call send w' /\
     handover Examples.n_email send).
Proof.
  apply (dispatch_hands_over_at_most_once Examples.ext0
           (Examples.worker Examples.svc_ok (Examples.http_status 200))
           Examples.n_email (claimed (Examples.world_with Examples.n_email)) None).
  vm_compute. reflexivity.
Defined.

(** ** The webhook channel *)

(** X11.  A webhook delivery returns nil exactly when the template data
    was prepared, the payload rendered, the request built, and the endpoint
    answered the request with a status code below 400: the one request of
    the delivery is a POST to the URL of the webhook with the payload as
    body, its content type (the default one when it has none) and its
    secret. *)
Theorem webhook_success_iff_answered ext w n wh w0 w2 :
  deliverWebhookNotification ext w n wh w0 = Ok None w2 <->
  exists d w1 payload resp,
    preparePkgNotificationTemplateData ext w (hub.NEvent n) w0 = Ok (inl d) w1 /\
    renders ext wh d payload /\
    NewRequest_ok ext (hub.URL wh) = true /\
    httpClient w (webhook_request wh payload) = inl resp /\
    StatusCode resp < 400 /\
    w2 = add_call (CallHTTPDo (webhook_request wh payload)) w1.
Proof.
  split.
  - unfold deliverWebhookNotification, bind at 1.
    destruct (preparePkgNotificationTemplateData ext w (hub.NEvent n) w0)
      as [[d|e] w1|w1] eqn:Hp; [|discriminate|discriminate].
    intros H. exists d, w1.
    assert (Hr : exists payload,
               renders ext wh d payload /\
               (if negb (NewRequest_ok ext (hub.URL wh)) then panic
                else
                 call (CallHTTPDo (webhook_request wh payload));;;
                 match httpClient w (webhook_request wh payload) with
                 | inr err => ret (Some err)
                 | inl resp =>
                     if StatusCode resp >=? 400
                     then ret (Some (errors.errorString
                            ("unexpected status code: " +:+ print_int (StatusCode resp))))
                     else ret None
                 end) w1 = Ok None w2).
    { unfold renders. revert H.
      destruct (String.eqb (hub.Template wh) EmptyString); cbn [negb].
      - intros H. eexists. split; [reflexivity | exact H].
      - destruct (template_Parse ext (hub.Template wh)) as [execute|e]; [|discriminate].
        destruct (execute d) as [payload|e] eqn:He; [|discriminate].
        intros H. exists payload. split; [eauto | exact H]. }
    destruct Hr as (payload & Hr & Hrest). exists payload.
    destruct (NewRequest_ok ext (hub.URL wh)); cbn [negb] in Hrest; [|discriminate].
    unfold bind, call, modify, ret in Hrest.
    destruct (httpClient w (webhook_request wh payload)) as [resp|e]; [|discriminate].
    exists resp. destruct (Z.geb_spec (StatusCode resp) 400); [discriminate|].
    injection Hrest as <-. repeat split; auto.
  - intros (d & w1 & payload & resp & Hp & Hr & Hn & Hh & Hs & ->).
    rewrite (deliverWebhookNotification_posts ext w n wh w0 d w1 payload Hp Hr Hn), Hh.
    destruct (Z.geb_spec (StatusCode resp) 400); [lia | reflexivity].
Qed.

(** X12.  A webhook with a template of its own that does not parse, or
    whose execution fails, is never called: the error of the template is
    returned as it is, and, not being tagged retryable, it is final: the
    status update is called with it and the transaction commits, the only
    calls of the delivery being those that fetch the data.  When the store
    carries both out, the notification is marked processed with the message
    of the template error. *)
Theorem webhook_template_failure_is_terminal ext w world n wh d w1 err :
  BeginErr (svc w) = None ->
  GetPendingErr (svc w) = None ->
  oldest_pending (table world) = Some n ->
  hub.NUser n = None ->
  hub.NWebhook n = Some wh ->
  preparePkgNotificationTemplateData ext w (hub.NEvent n) (claimed world)
    = Ok (inl d) w1 ->
  hub.Template wh <> EmptyString ->
  (template_Parse ext (hub.Template wh) = inr err \/
   exists execute,
     template_Parse ext (hub.Template wh) = inl execute /\ execute d = inr err) ->
  errors.Is (Some err) ErrRetryable = false ->
  dispatch ext w n (claimed world) = Ok (Some err) w1 /\
  exists res world',
    processNotification ext w world = Ok res world' /\
    (exists l,
       calls world' =
         (CallCommit :: CallUpdateStatus (hub.NotificationID n) true (Some err)
            :: l ++ CallGetPending :: CallBegin :: calls world)%list /\
       Forall fetch_call l) /\
    (UpdateStatusErr (svc w) = None -> CommitErr (svc w) = None ->
     res = None /\ In (mkRow n true (errors.Error err)) (table world')).
Proof.
  intros Hb Hg Hp Hu Hw Hd Ht Hf Hr.
  assert (Hdis : dispatch ext w n (claimed world) = Ok (Some err) w1).
  { unfold dispatch. rewrite Hu, Hw.
    unfold deliverWebhookNotification, bind at 1. rewrite Hd.
    apply String.eqb_neq in Ht. rewrite Ht. cbn [negb].
    destruct Hf as [-> | (execute & -> & ->)]; reflexivity. }
  split; [exact Hdis|].
  destruct (fetching_preparePkg ext w _ _ _ _ Hd) as (l & Hc & Hl).
  destruct (delivering_preparePkg ext w _ _ _ _ Hd) as (_ & Hx & _).
  destruct (UpdateStatusErr (svc w)) as [eu|] eqn:Hupd.
  - pose proof (processNotification_update_fails ext w world n Hb Hg Hp _ w1 eu Hdis Hr Hupd)
      as H.
    cbv zeta in H.
    destruct (CommitErr (svc w)); rewrite H; do 2 eexists; (split; [reflexivity|]);
      cbn; rewrite Hc; (split; [exists l; split; [reflexivity | exact Hl] | discriminate]).
  - pose proof (processNotification_finalise ext w world n Hb Hg Hp _ w1 Hdis Hr Hupd) as H.
    cbv zeta in H.
    destruct (CommitErr (svc w)) as [ec|]; rewrite H; do 2 eexists; (split; [reflexivity|]);
      cbn; rewrite Hc; (split; [exists l; split; [reflexivity | exact Hl] |]).
    + discriminate.
    + intros _ _. split; [reflexivity|]. rewrite Hx. cbn.
      exact (proj2 (updated_rows (table world) n true (errors.Error err) Hp)).
Qed.

Lemma webhook_template_failure_is_terminal_witness :
  let w := Examples.worker Examples.svc_ok (Examples.http_status 200) in
  let world := Examples.world_with MoreExamples.n_custom in
  let err := errors.errorString "template: unexpected action" in
  dispatch Examples.ext0 w MoreExamples.n_custom (claimed world)
    = Ok (Some err) (Examples.world_prepared MoreExamples.n_custom) /\
  exists res world',
    processNotification Examples.ext0 w world = Ok res world' /\
    (exists l,
       calls world' =
         (CallCommit :: CallUpdateStatus "n5" true (Some err)
            :: l ++ CallGetPending :: CallBegin :: calls world)%list /\
       Forall fetch_call l) /\
    (UpdateStatusErr (svc w) = None -> CommitErr (svc w) = None ->
     res = None /\
     In (mkRow MoreExamples.n_custom true "template: unexpected action") (table world')).
Proof.
  apply (webhook_template_failure_is_terminal Examples.ext0
           (Examples.worker Examples.svc_ok (Examples.http_status 200))
           (Examples.world_with MoreExamples.n_custom) MoreExamples.n_custom
           MoreExamples.webhook_custom Examples.data_etcd
           (Examples.world_prepared MoreExamples.n_custom)
           (errors.errorString "template: unexpected action")).
  - reflexivity.
  - reflexivity.
  - reflexivity.
  - reflexivity.
  - reflexivity.
  - vm_compute. reflexivity.
  - discriminate.
  - left. reflexivity.
  - reflexivity.
Defined.

(** ** Events of a kind the worker does not know *)

(** X13.  The [switch] of [prepareEmailData] has no default case: for an
    event of any other kind no data is fetched and no error is returned, so
    the user is sent an email with an empty subject and an empty body, and
    that empty email is what the cache holds for the event from then on. *)
Theorem unknown_event_kind_sends_empty_email ext w n u es k w0 :
  hub.Kind (hub.NEvent n) = hub.OtherEventKind k ->
  hub.NUser n = Some u ->
  ES (svc w) = Some es ->
  cache w0 !! cKey EmailDataKind (hub.EventID (hub.NEvent n)) = None ->
  let sent := email.mkData (hub.Email u) EmptyString EmptyString in
  exists w1,
    dispatch ext w n w0 = Ok (es sent) w1 /\
    calls w1 = (CallSendEmail sent :: calls w0)%list /\
    cache w1 !! cKey EmailDataKind (hub.EventID (hub.NEvent n))
    = Some (CEmailData (email.mkData EmptyString EmptyString EmptyString)).
Proof.
  intros Hk Hu He Hc sent. cbn [cKey] in Hc.
  eexists. split; [|split].
  - unfold dispatch. rewrite Hu, He.
    unfold deliverEmailNotification, prepareEmailData, bind, cache_Get,
      cache_SetDefault, gets, ret, call, modify.
    rewrite Hc, Hk. reflexivity.
  - reflexivity.
  - cbn. apply lookup_insert_eq.
Qed.

Lemma unknown_event_kind_sends_empty_email_witness :
  let sent := email.mkData "alice@example.org" EmptyString EmptyString in
  exists w1,
    dispatch Examples.ext0
      (Examples.worker Examples.svc_ok (Examples.http_status 200))
      MoreExamples.n_other (claimed (Examples.world_with MoreExamples.n_other))
    = Ok None w1 /\
    calls w1 = (CallSendEmail sent
                  :: calls (claimed (Examples.world_with MoreExamples.n_other)))%list /\
    cache w1 !! cKey EmailDataKind "e9"
    = Some (CEmailData (email.mkData EmptyString EmptyString EmptyString)).
Proof.
  apply (unknown_event_kind_sends_empty_email Examples.ext0
           (Examples.worker Examples.svc_ok (Examples.http_status 200))
           MoreExamples.n_other Examples.user1 (fun _ => None) 7
           (claimed (Examples.world_with MoreExamples.n_other))).
  - reflexivity.
  - reflexivity.
  - reflexivity.
  - vm_compute. reflexivity.
Defined.

(** ** The errors of a repository, line by line *)

Lemma strings_Split_not_nil s sep : strings_Split s sep <> [].
Proof.
  destruct s as [|c s]; cbn; [discriminate|].
  destruct (Ascii.eqb c sep); [discriminate|].
  destruct (strings_Split s sep); discriminate.
Qed.

Lemma strings_Join_Split s sep : strings_Join (strings_Split s sep) sep = s.
Proof.
  induction s as [|c s IH]; [reflexivity|].
  cbn [strings_Split]. pose proof (strings_Split_not_nil s sep) as Hne.
  destruct (Ascii.eqb_spec c sep) as [->|Hc].
  - destruct (strings_Split s sep) as [|h t]; [now destruct Hne|].
    cbn [strings_Join]. cbn [strings_Join] in IH. now rewrite IH.
  - destruct (strings_Split s sep) as [|h t]; [now destruct Hne|].
    cbn [strings_Join] in *. destruct t; rewrite <- IH; reflexivity.
Qed.

Lemma length_strings_Split s sep :
  length (strings_Split s sep) = S (count_char sep s).
Proof.
  induction s as [|c s IH]; [reflexivity|].
  cbn [strings_Split count_char]. pose proof (strings_Split_not_nil s sep) as Hne.
  destruct (Ascii.eqb c sep).
  - cbn [length]. now rewrite IH.
  - destruct (strings_Split s sep) as [|h t]; [now destruct Hne|]. exact IH.
Qed.

Lemma strings_Split_lines s sep :
  Forall (fun line => count_char sep line = O) (strings_Split s sep).
Proof.
  induction s as [|c s IH]; [repeat constructor|].
  cbn [strings_Split]. pose proof (strings_Split_not_nil s sep) as Hne.
  destruct (Ascii.eqb c sep) eqn:Hc.
  - constructor; [reflexivity | exact IH].
  - destruct (strings_Split s sep) as [|h t]; [now destruct Hne|].
    inversion IH as [|? ? Hh Ht]; subst. constructor; [|exact Ht].
    cbn [count_char]. now rewrite Hc.
Qed.

(** X14.  The template data of a repository event carries the scanning and
    tracking errors of the repository the cache holds for the event, cut at
    the line feeds: the lines have no line feed, there is one more line than
    there are line feeds, so a repository without errors gives one empty
    line and not an empty list, and the lines joined by line feeds are the
    text again. *)
Theorem repository_errors_are_split_in_lines ext w e w0 d w1 :
  prepareRepoNotificationTemplateData ext w e w0 = Ok (inl d) w1 ->
  exists r,
    cache w1 !! cKey RepositoryKind (hub.EventID e) = Some (CRepository r) /\
    let lines_of (errs : string) (lines : list string) :=
      strings_Join lines LF = errs /\
      length lines = S (count_char LF errs) /\
      Forall (fun line => count_char LF line = O) lines in
    lines_of (hub.LastScanningErrors r) (hub.rd_lastScanningErrors (hub.RRepository d)) /\
    lines_of (hub.LastTrackingErrors r) (hub.rd_lastTrackingErrors (hub.RRepository d)).
Proof.
  unfold prepareRepoNotificationTemplateData, bind, cache_Get, cache_SetDefault,
    gets, call, modify, ret, panic. cbn [cKey].
  assert (Hlines : forall errs,
             strings_Join (strings_Split errs LF) LF = errs /\
             length (strings_Split errs LF) = S (count_char LF errs) /\
             Forall (fun line => count_char LF line = O) (strings_Split errs LF)).
  { intros errs. split; [apply strings_Join_Split|].
    split; [apply length_strings_Split | apply strings_Split_lines]. }
  destruct (cache w0 !! _) as [[x|x|r]|] eqn:Hc; try discriminate.
  - intros [= <- <-]. exists r. split; [exact Hc|]. cbn. split; apply Hlines.
  - destruct (RepositoryManager_GetByID _ _) as [r|err]; [|discriminate].
    intros [= <- <-]. exists r. split; [cbn; apply lookup_insert_eq|].
    cbn. split; apply Hlines.
Qed.

Lemma repository_errors_are_split_in_lines_witness :
  exists r,
    cache (set_cache (<["repository.%e2" := CRepository RepoExamples.repo_broken]> ∅)
             (add_call (CallRepositoryGetByID "repo-1") Examples.world_empty))
      !! cKey RepositoryKind "e2" = Some (CRepository r) /\
    let lines_of (errs : string) (lines : list string) :=
      strings_Join lines LF = errs /\
      length lines = S (count_char LF errs) /\
      Forall (fun line => count_char LF line = O) lines in
    lines_of (hub.LastScanningErrors r) [EmptyString] /\
    lines_of (hub.LastTrackingErrors r) ["error getting index"; "invalid metadata"].
Proof.
  apply (repository_errors_are_split_in_lines Examples.ext0
           (Examples.worker RepoExamples.svc_broken (Examples.http_status 200))
           RepoExamples.event_tracking Examples.world_empty
           RepoExamples.data_broken).
  vm_compute. reflexivity.
Defined.

(** * Package static: the handler of images *)

(** ** The image a request names *)

Lemma strings_Split_no_sep s sep :
  count_char sep s = O -> strings_Split s sep = [s].
Proof.
  induction s as [|c s IH]; [reflexivity|].
  cbn [count_char strings_Split]. destruct (Ascii.eqb c sep); [discriminate|].
  intros H. now rewrite (IH H).
Qed.

Lemma strings_Split_app a b sep :
  count_char sep a = O ->
  strings_Split (a +:+ String sep b) sep = a :: strings_Split b sep.
Proof.
  induction a as [|c a IH].
  - intros _. change (EmptyString +:+ String sep b) with (String sep b).
    cbn [strings_Split]. now rewrite Ascii.eqb_refl.
  - change (String c a +:+ String sep b) with (String c (a +:+ String sep b)).
    cbn [count_char strings_Split].
    destruct (Ascii.eqb c sep); [discriminate|]. intros H. now rewrite (IH H).
Qed.

(** A split in two parts is a split at the only separator. *)
Lemma strings_Split_two s sep a b :
  strings_Split s sep = [a; b] ->
  s = a +:+ String sep b /\ count_char sep a = O /\ count_char sep b = O.
Proof.
  intros H. pose proof (strings_Join_Split s sep) as Hj.
  pose proof (strings_Split_lines s sep) as Hl. rewrite H in Hj, Hl.
  cbn [strings_Join] in Hj. split; [now rewrite Hj|].
  inversion Hl as [|? ? Ha Hb]; subst. inversion Hb; subst. auto.
Qed.

(** X15.  The parameter of a request names an id and a version exactly
    when it has one [@], with the id before it and the version after it;
    any other parameter, with no [@] or with several, is taken whole as the
    id, with no version. *)
Theorem image_parts_spec image imageID version :
  static.image_parts image = (imageID, version) <->
  (image = imageID +:+ String "@" version /\
   count_char "@" imageID = O /\ count_char "@" version = O) \/
  (count_char "@" image <> 1%nat /\ imageID = image /\ version = EmptyString).
Proof.
  unfold static.image_parts. split.
  - destruct (strings_Split image "@") as [|a [|b [|c l]]] eqn:Hs.
    + now destruct (strings_Split_not_nil image "@").
    + intros [= <- <-]. right. repeat split.
      pose proof (length_strings_Split image "@") as Hl. rewrite Hs in Hl.
      cbn in Hl. lia.
    + intros [= <- <-]. left. exact (strings_Split_two _ _ _ _ Hs).
    + intros [= <- <-]. right. repeat split.
      pose proof (length_strings_Split image "@") as Hl. rewrite Hs in Hl.
      cbn in Hl. lia.
  - intros [(-> & Ha & Hb) | (Hc & -> & ->)].
    + rewrite (strings_Split_app _ _ _ Ha), (strings_Split_no_sep _ _ Hb). reflexivity.
    + pose proof (length_strings_Split image "@") as Hl.
      destruct (strings_Split image "@") as [|a [|b [|c l]]]; try reflexivity.
      cbn in Hl. lia.
Qed.

(** ** The cache of images *)

Lemma Image_cached ext store image h w data :
  static.imagesCache h !! image = Some data ->
  static.Image ext store image h w = (h, static.image_response ext data w).
Proof.
  intros Hc. unfold static.Image, static.image_response.
  destruct (static.image_parts image) as [imageID version]. rewrite Hc.
  destruct (static.svg_Is ext data); reflexivity.
Qed.

Lemma Image_not_cached ext store image h w :
  static.imagesCache h !! image = None ->
  static.Image ext store image h w =
  let h1 := static.add_getImageCall (static.image_parts image).1
              (static.image_parts image).2 h in
  match static.GetImage store (static.image_parts image).1
          (static.image_parts image).2 with
  | inl data =>
      (static.set_imagesCache (<[image := data]> (static.imagesCache h)) h1,
       static.image_response ext data w)
  | inr err =>
      if errors.Is (Some err) (static.ErrNotFound ext)
      then (h1, static.WriteHeader static.StatusNotFound w)
      else (static.log_Error
              (static.mkLogEntry err
                 [("method", "Image"); ("imageID", (static.image_parts image).1)]
                 EmptyString) h1,
            static.WriteHeader static.StatusInternalServerError w)
  end.
Proof.
  intros Hc. unfold static.Image, static.image_response.
  destruct (static.image_parts image) as [imageID version]. rewrite Hc. cbn [fst snd].
  destruct (static.GetImage store imageID version) as [data|err].
  - destruct (static.svg_Is ext data); reflexivity.
  - destruct (errors.Is (Some err) (static.ErrNotFound ext)); reflexivity.
Qed.

(** X16.  An image the store returns is cached under the parameter of the
    request, and served from the cache from then on: a further request with
    that parameter gets the same image with the same headers, leaves the
    handlers as they are and does not reach the store, whatever the store
    holds by then. *)
Theorem Image_is_served_from_cache ext store image h w data :
  static.imagesCache h !! image = None ->
  static.GetImage store (static.image_parts image).1 (static.image_parts image).2
    = inl data ->
  exists h1,
    static.Image ext store image h w = (h1, static.image_response ext data w) /\
    static.getImageCalls h1 = (static.image_parts image :: static.getImageCalls h)%list /\
    static.imagesCache h1 = <[image := data]> (static.imagesCache h) /\
    forall store' w',
      static.Image ext store' image h1 w' = (h1, static.image_response ext data w').
Proof.
  intros Hc Hg. eexists. split; [|split; [|split]].
  - rewrite (Image_not_cached ext store image h w Hc). cbv zeta. rewrite Hg. reflexivity.
  - cbn. now destruct (static.image_parts image).
  - reflexivity.
  - intros store' w'. apply Image_cached. cbn. apply lookup_insert_eq.
Qed.

Lemma Image_is_served_from_cache_witness :
  exists h1,
    static.Image static.ext0 static.store0 "logo-1@2.0.0" static.NewHandlers static.w0
    = (h1, static.image_response static.ext0 "<svg></svg>" static.w0) /\
    static.getImageCalls h1 = [("logo-1", "2.0.0")] /\
    static.imagesCache h1 = <["logo-1@2.0.0" := "<svg></svg>"]> ∅ /\
    forall store' w',
      static.Image static.ext0 store' "logo-1@2.0.0" h1 w'
      = (h1, static.image_response static.ext0 "<svg></svg>" w').
Proof.
  apply (Image_is_served_from_cache static.ext0 static.store0 "logo-1@2.0.0"
           static.NewHandlers static.w0 "<svg></svg>").
  - reflexivity.
  - reflexivity.
Defined.

(** X17.  A failure of the store is answered with a bare status and is not
    cached: 404 when the error is the not found error, 500 otherwise, in
    which case the error is logged with the image id; no header is set, no
    body is written and the cache is left as it is, so the next request for
    the image reaches the store again. *)
Theorem Image_store_failure ext store image h w err :
  static.imagesCache h !! image = None ->
  static.GetImage store (static.image_parts image).1 (static.image_parts image).2
    = inr err ->
  let not_found := errors.Is (Some err) (static.ErrNotFound ext) in
  let h1 := (static.Image ext store image h w).1 in
  let w1 := (static.Image ext store image h w).2 in
  w1 = static.WriteHeader (if not_found then 404 else 500) w /\
  static.header w1 = static.header w /\
  static.body w1 = static.body w /\
  static.imagesCache h1 = static.imagesCache h /\
  static.getImageCalls h1 = (static.image_parts image :: static.getImageCalls h)%list /\
  static.logger h1 =
    (if not_found then static.logger h
     else static.mkLogEntry err
            [("method", "Image"); ("imageID", (static.image_parts image).1)] EmptyString
          :: static.logger h)%list.
Proof.
  intros Hc Hg. cbv zeta. rewrite (Image_not_cached ext store image h w Hc).
  cbv zeta. rewrite Hg.
  destruct (static.image_parts image) as [imageID version].
  destruct (errors.Is (Some err) (static.ErrNotFound ext)); cbn [fst snd];
    unfold static.WriteHeader; destruct (static.status w); repeat split.
Qed.

Lemma Image_store_failure_witness :
  let err := errors.errorString "connection reset" in
  let not_found := errors.Is (Some err) (static.ErrNotFound static.ext0) in
  let h1 := (static.Image static.ext0 static.store0 "boom" static.NewHandlers static.w0).1 in
  let w1 := (static.Image static.ext0 static.store0 "boom" static.NewHandlers static.w0).2 in
  w1 = static.WriteHeader (if not_found then 404 else 500) static.w0 /\
  static.header w1 = static.header static.w0 /\
  static.body w1 = static.body static.w0 /\
  static.imagesCache h1 = static.imagesCache static.NewHandlers /\
  static.getImageCalls h1
  = (static.image_parts "boom" :: static.getImageCalls static.NewHandlers)%list /\
  static.logger h1 =
    (if not_found then static.logger static.NewHandlers
     else static.mkLogEntry err
            [("method", "Image"); ("imageID", (static.image_parts "boom").1)] EmptyString
          :: static.logger static.NewHandlers)%list.
Proof.
  apply (Image_store_failure static.ext0 static.store0 "boom" static.NewHandlers
           static.w0 (errors.errorString "connection reset")).
  - reflexivity.
  - reflexivity.
Defined.

(** ** The cache against the store *)

Lemma Image_keeps_fresh ext store image h w :
  static.fresh store h ->
  static.fresh store (static.Image ext store image h w).1 /\
  (static.Image ext store image h w).2 = static.store_response ext store image w.
Proof.
  intros Hf. unfold static.store_response.
  destruct (static.imagesCache h !! image) as [data|] eqn:Hc.
  - rewrite (Image_cached ext store image h w data Hc), (Hf image data Hc).
    split; [exact Hf | reflexivity].
  - rewrite (Image_not_cached ext store image h w Hc). cbv zeta.
    destruct (static.GetImage store _ _) as [data|err] eqn:Hg.
    + split; [|reflexivity]. intros image' data'. cbn.
      destruct (decide (image = image')) as [<-|Hne].
      * rewrite lookup_insert_eq. intros [= <-]. exact Hg.
      * rewrite lookup_insert_ne by exact Hne. apply Hf.
    + destruct (errors.Is (Some err) (static.ErrNotFound ext));
        (split; [exact Hf | reflexivity]).
Qed.

Lemma Images_keep_fresh ext store images :
  forall h,
    static.fresh store h ->
    static.fresh store (static.Images ext store images h).1 /\
    (static.Images ext store images h).2 =
      map (fun image => static.store_response ext store image static.w0) images.
Proof.
  induction images as [|image rest IH]; intros h Hf; [split; [exact Hf | reflexivity]|].
  cbn [static.Images map].
  destruct (Image_keeps_fresh ext store image h static.w0 Hf) as [Hf1 Hw1].
  fold static.w0.
  destruct (static.Image ext store image h static.w0) as [h1 w1]. cbn [fst snd] in Hf1, Hw1.
  destruct (IH h1 Hf1) as [Hf2 Hws].
  destruct (static.Images ext store rest h1) as [h2 ws]. cbn [fst snd] in *.
  split; [exact Hf2 | now rewrite Hw1, Hws].
Qed.

(** X18.  As long as the store answers the same for an image, the cache
    cannot be told from the store: handlers just created answer any
    sequence of requests as the store commands for each of them, the image
    with its headers or the status of the failure, and every image they have
    cached by then is the one the store holds. *)
Theorem Images_answer_as_the_store ext store images :
  (static.Images ext store images static.NewHandlers).2 =
    map (fun image => static.store_response ext store image static.w0) images /\
  static.fresh store (static.Images ext store images static.NewHandlers).1.
Proof.
  assert (Hf : static.fresh store static.NewHandlers).
  { intros image data H. cbn in H. rewrite lookup_empty in H. discriminate. }
  destruct (Images_keep_fresh ext store images static.NewHandlers Hf). auto.
Qed.

(** ** Saving an image *)

(** X19.  When the store saves the image, [SaveImage] answers with status
    200 and a body written by formatting the id between double quotes,
    without escaping it: for an id made of plain characters the body is a
    JSON text, an object whose only member, [image_id], is the id the store
    returned; nothing is logged. *)
Theorem SaveImage_answers_with_the_id store data h imageID :
  static.Store_SaveImage store data = inl imageID ->
  JSON.plain imageID = true ->
  exists dataJSON,
    static.SaveImage store (inl data) h = (h, static.RenderJSON dataJSON 0 200) /\
    JSON.parse dataJSON = Some (JSON.Object [("image_id", JSON.Str imageID)]).
Proof.
  intros Hs Hp. unfold static.SaveImage. rewrite Hs.
  eexists. split; [reflexivity|].
  set (d := Layout.DObj
              (Layout.MCons EmptyString "image_id" EmptyString " "
                 (Layout.DStr imageID) Layout.MNil) EmptyString).
  assert (Hprint : text "{'image_id': '" +:+ imageID +:+ text "'}"
                   = Layout.print d EmptyString) by reflexivity.
  assert (Hwf : Layout.wf d = true).
  { cbn [d Layout.wf Layout.wf_members]. rewrite Hp. reflexivity. }
  unfold JSON.parse. rewrite Hprint at 2.
  rewrite (proj1 parse_print d EmptyString _ Hwf).
  - reflexivity.
  - rewrite Hprint. cbn [d Layout.size Layout.size_members Layout.print
                          Layout.print_members String.length].
    change (EmptyString +:+ String dquote ?x) with (String dquote x).
    cbn [String.length]. lia.
Qed.

Lemma SaveImage_answers_with_the_id_witness :
  exists dataJSON,
    static.SaveImage static.store0 (inl "<svg></svg>") static.NewHandlers
    = (static.NewHandlers, static.RenderJSON dataJSON 0 200) /\
    JSON.parse dataJSON = Some (JSON.Object [("image_id", JSON.Str "0f5d7a9e")]).
Proof.
  apply (SaveImage_answers_with_the_id static.store0 "<svg></svg>"
           static.NewHandlers "0f5d7a9e").
  - reflexivity.
  - reflexivity.
Defined.

(** * Package static: the file server *)

Lemma last_byte_app_slash s :
  fileserver.last_byte (s +:+ "/") = Some "/"%char.
Proof.
  induction s as [|c s IH]; [reflexivity|].
  change (String c s +:+ "/") with (String c (s +:+ "/")).
  cbn [fileserver.last_byte]. rewrite IH.
  destruct s; reflexivity.
Qed.

Lemma last_byte_None s : fileserver.last_byte s = None -> s = EmptyString.
Proof.
  induction s as [|c s IH]; [reflexivity|].
  cbn [fileserver.last_byte]. destruct s as [|c' s]; [discriminate|].
  intros H. discriminate (IH H).
Qed.

Lemma Get_slash routes pattern h :
  fileserver.begins_with_slash pattern = true ->
  fileserver.Get routes pattern h = Some (routes ++ [fileserver.mkRoute pattern h])%list.
Proof. intros H. unfold fileserver.Get. now rewrite H. Qed.

Lemma Get_no_slash routes pattern h :
  fileserver.begins_with_slash pattern = false -> fileserver.Get routes pattern h = None.
Proof. intros H. unfold fileserver.Get. now rewrite H. Qed.

Lemma begins_with_slash_app public rest :
  public <> EmptyString ->
  fileserver.begins_with_slash (public +:+ rest) = fileserver.begins_with_slash public.
Proof. destruct public as [|c public]; [now intros []|]. reflexivity. Qed.

(** X20.  [FileServer] panics exactly when the public path does not begin
    with a slash (the router refuses the pattern; for the empty path the
    index of its last byte is already out of range) or holds one of the
    characters of URL parameters.  Otherwise it adds to the router the route
    of the files, whose pattern is a prefix ending with a slash followed by
    a star, the prefix being the one the file handler strips: the public
    path when it ends with a slash, and else the public path with a slash
    added, in which case a permanent redirect from the public path to the
    prefix is added before it. *)
Theorem FileServer_routes routes public static cacheMaxAge :
  (fileserver.FileServer routes public static cacheMaxAge = None <->
   fileserver.begins_with_slash public = false \/
   fileserver.strings_ContainsAny public ["{"; "}"; "*"]%char = true) /\
  forall routes',
    fileserver.FileServer routes public static cacheMaxAge = Some routes' ->
    exists prefix redirect,
      fileserver.last_byte prefix = Some "/"%char /\
      routes' =
        (routes ++ redirect ++
         [fileserver.mkRoute (prefix +:+ "*")
            (fileserver.FilesHandler prefix static cacheMaxAge)])%list /\
      ((fileserver.last_byte public = Some "/"%char /\
        prefix = public /\ redirect = []) \/
       (fileserver.last_byte public <> Some "/"%char /\
        prefix = public +:+ "/" /\
        redirect = [fileserver.mkRoute public (fileserver.RedirectHandler prefix 301)])).
Proof.
  unfold fileserver.FileServer.
  destruct (fileserver.strings_ContainsAny public _) eqn:Hc.
  { split; [split; auto | discriminate]. }
  destruct (String.eqb_spec public "/") as [->|Hne]; cbn [negb].
  { split.
    - split; [discriminate | intros [H|H]; discriminate].
    - intros routes' [= <-]. exists "/", [].
      split; [reflexivity|]. split; [reflexivity|]. left. auto. }
  destruct (fileserver.last_byte public) as [c|] eqn:Hl.
  2:{ apply last_byte_None in Hl. subst public. split; [split; auto | discriminate]. }
  assert (Hpub : exists c0 rest, public = String c0 rest).
  { destruct public as [|c0 rest]; [discriminate | eauto]. }
  destruct Hpub as (c0 & rest & Hpub).
  destruct (fileserver.begins_with_slash public) eqn:Hs.
  - assert (Hfiles : forall rs p,
               fileserver.begins_with_slash p = true ->
               fileserver.Get rs (p +:+ "*")
                 (fileserver.FilesHandler p static cacheMaxAge) =
               Some (rs ++ [fileserver.mkRoute (p +:+ "*")
                              (fileserver.FilesHandler p static cacheMaxAge)])%list).
    { intros rs p Hp. apply Get_slash. rewrite begins_with_slash_app; [exact Hp|].
      intros ->. discriminate. }
    destruct (Ascii.eqb_spec c "/") as [->|Hcs]; cbn [negb].
    + rewrite (Hfiles routes public Hs). split.
      * split; [discriminate | intros [H|H]; discriminate].
      * intros routes' [= <-]. exists public, [].
        split; [exact Hl|]. split; [reflexivity|]. left. auto.
    + rewrite (Get_slash routes public _ Hs).
      rewrite Hfiles by (rewrite begins_with_slash_app; [exact Hs | congruence]).
      split.
      * split; [discriminate | intros [H|H]; discriminate].
      * intros routes' [= <-].
        exists (public +:+ "/"),
          [fileserver.mkRoute public
             (fileserver.RedirectHandler (public +:+ "/") 301)].
        split; [apply last_byte_app_slash|]. split.
        -- now rewrite <- app_assoc.
        -- right. split; [congruence|]. auto.
  - destruct (Ascii.eqb_spec c "/") as [->|Hcs]; cbn [negb].
    + rewrite Get_no_slash by (rewrite begins_with_slash_app; [exact Hs | congruence]).
      split; [split; auto | discriminate].
    + rewrite (Get_no_slash routes public _ Hs).
      split; [split; auto | discriminate].
Qed.

Lemma strings_CutPrefix_app prefix rest :
  fileserver.strings_CutPrefix (prefix +:+ rest) prefix = Some rest.
Proof.
  induction prefix as [|c p IH]; [now destruct rest|].
  change (String c p +:+ rest) with (String c (p +:+ rest)).
  cbn [fileserver.strings_CutPrefix]. now rewrite Ascii.eqb_refl.
Qed.

Lemma strings_Replace1_prefix prefix rest new :
  fileserver.strings_Replace1 (prefix +:+ rest) prefix new = new +:+ rest.
Proof.
  pose proof (strings_CutPrefix_app prefix rest) as H.
  destruct (prefix +:+ rest); cbn [fileserver.strings_Replace1]; now rewrite H.
Qed.

(** X21.  For a request under the prefix of the file route, the file
    handler looks up the rest of the URI in the static directory.  When the
    file does not exist it answers 404 itself: no cache header is set and
    the file server is not run.  Otherwise it sets the cache control header
    for the max age of the route and hands the request over to the file
    server. *)
Theorem ServeFiles_under_prefix ext public static cacheMaxAge rest w :
  fileserver.ServeFiles ext public static cacheMaxAge (public +:+ rest) w =
  if fileserver.IsNotExist ext (static +:+ "/" +:+ rest)
  then static.mkResponseWriter (static.header w)
         (match static.status w with Some code => Some code | None => Some 404 end)
         (static.body w)
  else fileserver.fsHandler ext public static (public +:+ rest)
         (static.mkResponseWriter
            (<["Cache-Control" := fileserver.BuildCacheControlHeader ext cacheMaxAge]>
               (static.header w))
            (static.status w) (static.body w)).
Proof.
  unfold fileserver.ServeFiles. cbv zeta. rewrite strings_Replace1_prefix.
  destruct (fileserver.IsNotExist ext _); [|reflexivity].
  unfold static.WriteHeader. destruct w as [hd [code|] bd]; reflexivity.
Qed.

(** * Webhooks for events that are not releases *)

Lemma preparePkg_event ext w e w0 d w1 :
  preparePkgNotificationTemplateData ext w e w0 = Ok (inl d) w1 ->
  hub.PEvent d =
  hub.mkEventData (hub.EventID e)
    match hub.Kind e with
    | hub.NewRelease => "package.new-release"
    | _ => EmptyString
    end.
Proof.
  unfold preparePkgNotificationTemplateData, bind, cache_Get, cache_SetDefault,
    gets, ret, call, modify, panic.
  destruct (cache w0 !! _) as [[x|x|x]|]; try discriminate.
  - intros [= <- _]. reflexivity.
  - destruct (PackageManager_Get _ _ _) as [p'|err]; [|discriminate].
    intros [= <- _]. reflexivity.
Qed.

(** X22.  The webhook channel prepares the data of a package whatever the
    kind of the event, and names the kind of release events only: for an
    event of any other kind the default payload, when the strings it prints
    are made of plain characters, is a JSON text whose type is the bare
    namespace [io.artifacthub.], with the id of the event and the package
    found under the package id of the event; the logo of the package is not
    part of the payload. *)
Theorem webhook_payload_of_other_events ext w e w0 d w1 :
  preparePkgNotificationTemplateData ext w e w0 = Ok (inl d) w1 ->
  hub.Kind e <> hub.NewRelease ->
  plain_data d = true ->
  exists v,
    JSON.parse (DefaultWebhookPayloadTmpl d) = Some v /\
    JSON.get ["type"] v = Some (JSON.Str "io.artifacthub.") /\
    JSON.get ["id"] v = Some (JSON.Str (hub.EventID e)) /\
    JSON.get ["data"; "package"; "name"] v = Some (JSON.Str (hub.pd_name (hub.PPackage d))) /\
    JSON.get ["data"; "package"; "logoImageID"] v = None.
Proof.
  intros Hd Hk Hplain. exists (envelope d).
  split; [exact (parse_default_payload d Hplain)|].
  pose proof (preparePkg_event ext w e w0 d w1 Hd) as He.
  unfold envelope. rewrite He.
  destruct (hub.Kind e); try (now destruct Hk); repeat split.
Qed.

Lemma webhook_payload_of_other_events_witness :
  let d :=
    hub.mkPackageNotificationTemplateData "https://artifacthub.io"
      (hub.mkEventData "e2" EmptyString)
      (hub.mkPackageData "etcd" "3.5.0" "logo-1"
         "https://artifacthub.io/packages/etcd/" [] false false
         (hub.mkPackageRepositoryData "helm" "bitnami" "bitnami-org")) in
  exists v,
    JSON.parse (DefaultWebhookPayloadTmpl d) = Some v /\
    JSON.get ["type"] v = Some (JSON.Str "io.artifacthub.") /\
    JSON.get ["id"] v = Some (JSON.Str "e2") /\
    JSON.get ["data"; "package"; "name"] v = Some (JSON.Str "etcd") /\
    JSON.get ["data"; "package"; "logoImageID"] v = None.
Proof.
  apply (webhook_payload_of_other_events Examples.ext0
           (Examples.worker Examples.svc_ok (Examples.http_status 200))
           RepoExamples.event_tracking Examples.world_empty
           (hub.mkPackageNotificationTemplateData "https://artifacthub.io"
              (hub.mkEventData "e2" EmptyString)
              (hub.mkPackageData "etcd" "3.5.0" "logo-1"
                 "https://artifacthub.io/packages/etcd/" [] false false
                 (hub.mkPackageRepositoryData "helm" "bitnami" "bitnami-org")))
           (set_cache (<["package.%e2" := CPackage Examples.pkg_etcd]> ∅)
              (add_call (CallPackageGet "" "") Examples.world_empty))).
  - vm_compute. reflexivity.
  - discriminate.
  - vm_compute. reflexivity.
Defined.

(** * The cache and the transaction *)

(** With the package of the event in the cache, the template data is
    prepared without any call. *)
Lemma preparePkg_from_cache ext w e w0 p :
  cache w0 !! cKey PackageKind (hub.EventID e) = Some (CPackage p) ->
  exists d, preparePkgNotificationTemplateData ext w e w0 = Ok (inl d) w0.
Proof.
  intros Hc. cbn [cKey] in Hc.
  unfold preparePkgNotificationTemplateData, bind, cache_Get, gets, ret.
  rewrite Hc. eexists. reflexivity.
Qed.

(** X23.  The cache is not part of the transaction: when a delivery fails
    with a retryable error the table is rolled back, but what the delivery
    put in the cache stays.  A package cached by the failed attempt is still
    cached when the notification is claimed again, and the next attempt
    prepares its template data without asking the package manager. *)
Theorem cache_survives_rollback ext w world n e w1 p :
  BeginErr (svc w) = None ->
  GetPendingErr (svc w) = None ->
  oldest_pending (table world) = Some n ->
  dispatch ext w n (claimed world) = Ok (Some e) w1 ->
  errors.Is (Some e) ErrRetryable = true ->
  cache w1 !! cKey PackageKind (hub.EventID (hub.NEvent n)) = Some (CPackage p) ->
  exists world',
    processNotification ext w world = Ok (Some e) world' /\
    table world' = table world /\
    cache world' = cache w1 /\
    oldest_pending (table world') = Some n /\
    exists d,
      preparePkgNotificationTemplateData ext w (hub.NEvent n) (claimed world')
      = Ok (inl d) (claimed world').
Proof.
  intros Hb Hg Hp Hd Hr Hc.
  destruct (delivering_dispatch ext w n _ _ _ Hd) as (Ht & _).
  eexists. split; [eapply processNotification_retry; eassumption|].
  split; [exact Ht|]. split; [reflexivity|]. split; [cbn; rewrite Ht; exact Hp|].
  apply (preparePkg_from_cache ext w (hub.NEvent n) _ p). exact Hc.
Qed.

Lemma cache_survives_rollback_witness :
  let e := errors.wrapError
             "retryable error: error preparing email data: template: executing: no such field"
             ErrRetryable in
  let w := Examples.worker Examples.svc_ok (Examples.http_status 200) in
  exists world',
    processNotification Examples.ext_bad_tmpl w (Examples.world_with Examples.n_email)
    = Ok (Some e) world' /\
    table world' = table (Examples.world_with Examples.n_email) /\
    cache world' = cache (Examples.world_prepared Examples.n_email) /\
    oldest_pending (table world') = Some Examples.n_email /\
    exists d,
      preparePkgNotificationTemplateData Examples.ext_bad_tmpl w
        (hub.NEvent Examples.n_email) (claimed world')
      = Ok (inl d) (claimed world').
Proof.
  apply (cache_survives_rollback Examples.ext_bad_tmpl
           (Examples.worker Examples.svc_ok (Examples.http_status 200))
           (Examples.world_with Examples.n_email) Examples.n_email
           (errors.wrapError
              "retryable error: error preparing email data: template: executing: no such field"
              ErrRetryable)
           (Examples.world_prepared Examples.n_email) Examples.pkg_etcd).
  - reflexivity.
  - reflexivity.
  - reflexivity.
  - vm_compute. reflexivity.
  - reflexivity.
  - vm_compute. reflexivity.
Defined.

(** * The loop stops *)

(** A run that returns within a number of iterations, whatever the ties,
    is a run that returns. *)
Lemma Run_returns_within_returns ext duration w cancelAt n :
  forall s,
    Run_returns_within ext duration w cancelAt n s ->
    exists s', Run_returns ext duration w cancelAt s s'.
Proof.
  induction n as [|n IH]; intros s; [intros []|].
  intros [Hne Hall].
  destruct (Run_iteration ext duration w cancelAt s) as [|next rest] eqn:Hit;
    [now destruct Hne|].
  pose proof (Hall next (or_introl eq_refl)) as Hnext.
  destruct next as [s1|s1|s1]; [| |destruct Hnext].
  - destruct (IH s1 Hnext) as (s' & Hs'). exists s'.
    apply (Run_loop ext duration w cancelAt s s1 s'); [|exact Hs'].
    rewrite Hit. now left.
  - exists s1. apply Run_return. rewrite Hit. now left.
Qed.

(** X24.  Once the context is cancelled [Run] returns, however the ties of
    its [select]s are resolved: when the calls of [processNotification] do
    not panic on the worlds the loop goes through and each takes at least
    [delta], with a context cancelled at [c] no later than [n] times [delta]
    from the start, no run of the loop goes beyond [n + 1] iterations: every
    one of them returns within that number, and there is one. *)
Theorem Run_returns_once_cancelled ext duration w c delta (inv : World -> Prop) n s :
  (forall world, inv world ->
     exists err w', processNotification ext w world = Ok err w' /\ inv w') ->
  0 < delta ->
  (forall world, delta <= duration world) ->
  inv (world s) ->
  c - now s <= Z.of_nat n * delta ->
  Run_returns_within ext duration w (Some c) (S n) s /\
  exists s', Run_returns ext duration w (Some c) s s'.
Proof.
  intros Hstep Hpos Hdur.
  assert (H : forall (m : nat) s,
             inv (world s) -> c - now s <= Z.of_nat m * delta ->
             Run_returns_within ext duration w (Some c) (S m) s).
  { induction m as [|m IH]; intros s0 Hinv Hm;
      destruct (Hstep _ Hinv) as (err & w' & Hp & Hinv');
      pose proof (Hdur (world s0)) as Hd;
      (split; [apply Run_iteration_not_stuck|]);
      intros next Hin; unfold Run_iteration in Hin; rewrite Hp in Hin.
    - (* the context is cancelled by the time the call returns *)
      assert (Hc : c < now s0 + duration (world s0)) by lia.
      destruct err as [e|].
      + assert (Hpause : forall d, 0 < d ->
                  In next (select_pause (Some c) d
                             (mkRunState w' (now s0 + duration (world s0)))) ->
                  exists s1, next = Return s1).
        { intros d Hdpos. unfold select_pause. cbn [now world].
          destruct (Z.ltb_spec c (now s0 + duration (world s0) + d)); [|lia].
          intros [<-|[]]. eauto. }
        destruct (errors.Is (Some e) pgx.ErrNoRows);
          (apply Hpause in Hin;
           [destruct Hin as (s1 & ->); exact I
           | unfold pauseOnEmptyQueue, pauseOnError, Second; lia]).
      + unfold select_default, ctx_Done in Hin. cbn [now] in Hin.
        destruct (Z.leb_spec c (now s0 + duration (world s0))); [|lia].
        destruct Hin as [<-|[]]. exact I.
    - (* an iteration brings the clock forward by [delta] at least *)
      assert (Hm' : c - (now s0 + duration (world s0)) <= Z.of_nat m * delta).
      { rewrite Nat2Z.inj_succ, Z.mul_succ_l in Hm. lia. }
      assert (Hgo : forall s1,
                 world s1 = w' -> now s0 + duration (world s0) <= now s1 ->
                 Run_returns_within ext duration w (Some c) (S m) s1).
      { intros s1 Hw Ht. apply IH; [now rewrite Hw | lia]. }
      destruct err as [e|].
      + assert (Hpause : forall d, 0 < d ->
                  In next (select_pause (Some c) d
                             (mkRunState w' (now s0 + duration (world s0)))) ->
                  (exists s1, next = Return s1) \/
                  (exists s1, next = Continue s1 /\ world s1 = w' /\
                              now s0 + duration (world s0) <= now s1)).
        { intros d Hdpos. unfold select_pause. cbn [now world].
          destruct (Z.ltb_spec c (now s0 + duration (world s0) + d)).
          - intros [<-|[]]. left. eauto.
          - destruct (Z.eqb_spec c (now s0 + duration (world s0) + d)).
            + intros [<-|[<-|[]]]; [right | left]; eauto.
              eexists. split; [reflexivity|]. cbn. split; [reflexivity | lia].
            + intros [<-|[]]. right.
              eexists. split; [reflexivity|]. cbn. split; [reflexivity | lia]. }
        assert (Hd' : (exists s1, next = Return s1) \/
                      (exists s1, next = Continue s1 /\ world s1 = w' /\
                                  now s0 + duration (world s0) <= now s1)).
        { destruct (errors.Is (Some e) pgx.ErrNoRows);
            (eapply Hpause; [|exact Hin]);
            unfold pauseOnEmptyQueue, pauseOnError, Second; lia. }
        destruct Hd' as [(s1 & ->) | (s1 & -> & Hw & Ht)]; [exact I | now apply Hgo].
      + unfold select_default, ctx_Done in Hin. cbn [now] in Hin.
        destruct (Z.leb_spec c (now s0 + duration (world s0)));
          destruct Hin as [<-|[]]; [exact I|].
        apply Hgo; cbn; [reflexivity | lia]. }
  intros Hinv Hn. pose proof (H n s Hinv Hn) as Hall.
  split; [exact Hall|].
  exact (Run_returns_within_returns ext duration w (Some c) (S n) s Hall).
Qed.

Lemma Run_returns_once_cancelled_witness :
  Run_returns_within Examples.ext0 (fun _ => Second)
    (Examples.worker Examples.svc_ok (Examples.http_status 200))
    (Some (45 * Second)) 46 (mkRunState Examples.world_empty 0) /\
  exists s',
    Run_returns Examples.ext0 (fun _ => Second)
      (Examples.worker Examples.svc_ok (Examples.http_status 200))
      (Some (45 * Second)) (mkRunState Examples.world_empty 0) s'.
Proof.
  apply (Run_returns_once_cancelled Examples.ext0 (fun _ => Second)
           (Examples.worker Examples.svc_ok (Examples.http_status 200))
           (45 * Second) Second (fun world => table world = []) 45).
  - intros world Ht. do 2 eexists. split.
    + unfold processNotification, DBTransact, processNotification_tx, GetPending,
        bind, call, modify, gets, ret. cbn. rewrite Ht. cbn. reflexivity.
    + cbn. exact Ht.
  - reflexivity.
  - intros world. discriminate.
  - reflexivity.
  - vm_compute. discriminate.
Defined.
